(** * chatgpt-scrape: response completion, extraction and persistence

    A shallow embedding of [modules/responseExtraction.js] and of the
    orchestrator [index_remote.js], with the properties of the polling
    state machine, of the DOM text/link extraction and of the filename
    sanitisation.

    JavaScript strings are sequences of UTF-16 code units; they are
    modelled as [list Z].  The DOM is a finite tree of elements and text
    nodes.  Awaited effects (sleeps, page queries, console output) are
    recorded in an event trace. *)

From Stdlib Require Import ZArith List Bool String Ascii Lia.
From Stdlib Require Import DecimalString.
Import ListNotations.
Local Open Scope Z_scope.

(* ================================================================== *)
(** * JavaScript strings                                               *)
(* ================================================================== *)

Module JS.

Definition code_unit := Z.
Definition jsstring := list code_unit.

(** An ASCII literal of the source, as code units. *)
Definition lit (s : string) : jsstring :=
  map (fun a => Z.of_N (N_of_ascii a)) (list_ascii_of_string s).

(** The line feed, ['\n'] in the source. *)
Definition nl : jsstring := [10].

(** The double quote. *)
Definition dq : jsstring := [34].

(** [s.length] *)
Definition length (s : jsstring) : Z := Z.of_nat (List.length s).

(** [String(n)] for an integral number *)
Definition toString (n : Z) : jsstring :=
  lit (NilZero.string_of_int (Z.to_int n)).

(** Truthiness of a string: non-empty. *)
Definition truthy (s : jsstring) : bool :=
  match s with [] => false | _ :: _ => true end.

Fixpoint eqb (s t : jsstring) : bool :=
  match s, t with
  | [], [] => true
  | c :: s', d :: t' => (c =? d) && eqb s' t'
  | _, _ => false
  end.

(** [s.substring(start, end)]: both indices are clamped to
    [0 .. s.length] and swapped when out of order. *)
Definition substring (s : jsstring) (start end_ : Z) : jsstring :=
  let len := length s in
  let finalStart := Z.min (Z.max start 0) len in
  let finalEnd := Z.min (Z.max end_ 0) len in
  let from := Z.min finalStart finalEnd in
  let to := Z.max finalStart finalEnd in
  firstn (Z.to_nat (to - from)) (skipn (Z.to_nat from) s).

(** [s.startsWith(p)] *)
Fixpoint startsWith (s p : jsstring) : bool :=
  match p, s with
  | [], _ => true
  | d :: p', c :: s' => (c =? d) && startsWith s' p'
  | _ :: _, [] => false
  end.

(** [c.repeat(n)] for a one-unit string [c] *)
Definition repeat (c : code_unit) (n : Z) : jsstring :=
  List.repeat c (Z.to_nat n).

(** [arr.join(sep)] on an array of strings *)
Fixpoint join (sep : jsstring) (arr : list jsstring) : jsstring :=
  match arr with
  | [] => []
  | [x] => x
  | x :: rest => x ++ sep ++ join sep rest
  end.

(** [arr.includes(s)] on an array of strings *)
Definition includes (arr : list jsstring) (s : jsstring) : bool :=
  existsb (eqb s) arr.

(** ** White space, as [String.prototype.trim] sees it
    (ECMAScript WhiteSpace and LineTerminator). *)
Definition isWhiteSpace (c : code_unit) : bool :=
  (c =? 9) || (c =? 10) || (c =? 11) || (c =? 12) || (c =? 13) ||
  (c =? 32) || (c =? 160) || (c =? 5760) ||
  ((8192 <=? c) && (c <=? 8202)) ||
  (c =? 8232) || (c =? 8233) || (c =? 8239) || (c =? 8287) ||
  (c =? 12288) || (c =? 65279).

Fixpoint trimStart (s : jsstring) : jsstring :=
  match s with
  | [] => []
  | c :: s' => if isWhiteSpace c then trimStart s' else s
  end.

Definition trimEnd (s : jsstring) : jsstring :=
  rev (trimStart (rev s)).

Definition trim (s : jsstring) : jsstring := trimEnd (trimStart s).

(** ** Case conversion

    On ASCII the conversions are fixed by the language.  Beyond ASCII
    they follow the Unicode tables of the engine, which may look at the
    neighbouring units (final sigma, surrogate pairs); the tables are
    an interface of the host. *)
Class Host := {
  (** upper-case expansion of the non-ASCII unit at index [i] of [s] *)
  upperNonAscii : jsstring -> nat -> jsstring;
  (** lower-case expansion of the non-ASCII unit at index [i] of [s] *)
  lowerNonAscii : jsstring -> nat -> jsstring;
  (** the URL parser behind [HTMLAnchorElement.href] *)
  resolveURL : jsstring -> jsstring;
  (** [path.join] of the platform *)
  pathJoin : jsstring -> jsstring -> jsstring
}.

Definition asciiUpper (c : code_unit) : code_unit :=
  if (97 <=? c) && (c <=? 122) then c - 32 else c.

Definition asciiLower (c : code_unit) : code_unit :=
  if (65 <=? c) && (c <=? 90) then c + 32 else c.

Definition isAscii (c : code_unit) : bool := c <? 128.

Section Case.
Context {H : Host}.

Fixpoint convertFrom (ascii : code_unit -> code_unit)
         (table : jsstring -> nat -> jsstring)
         (whole : jsstring) (i : nat) (rest : jsstring) : jsstring :=
  match rest with
  | [] => []
  | c :: rest' =>
      (if isAscii c then [ascii c] else table whole i)
        ++ convertFrom ascii table whole (S i) rest'
  end.

(** [s.toUpperCase()] *)
Definition toUpperCase (s : jsstring) : jsstring :=
  convertFrom asciiUpper upperNonAscii s 0%nat s.

(** [s.toLowerCase()] *)
Definition toLowerCase (s : jsstring) : jsstring :=
  convertFrom asciiLower lowerNonAscii s 0%nat s.

(** ** Regular expressions: one character class, flags [g] and [i]

    Canonicalize of the specification (no [u] flag): upper-case the
    unit; keep the unit itself when the result is not one unit, or
    when a non-ASCII unit would become ASCII. *)
Definition canonicalize (ch : code_unit) : code_unit :=
  match toUpperCase [ch] with
  | [cu] => if (128 <=? ch) && (cu <? 128) then ch else cu
  | _ => ch
  end.

Fixpoint range (lo : code_unit) (n : nat) : list code_unit :=
  match n with
  | O => []
  | S n' => lo :: range (lo + 1) n'
  end.

(** the members of the class [a-z0-9] *)
Definition class_a_z_0_9 : list code_unit :=
  range 97 26 ++ range 48 10.

(** the members of the class [:.] *)
Definition class_colon_dot : list code_unit := [58; 46].

(** CharacterSetMatcher: [ch] is found when some member of the class
    has the same canonical form (the units themselves without the
    [i] flag); [invert] is the leading [^]. *)
Definition classMatches (ignoreCase : bool) (members : list code_unit)
           (invert : bool) (ch : code_unit) : bool :=
  let canon := if ignoreCase then canonicalize else (fun c => c) in
  let found := existsb (fun a => canon a =? canon ch) members in
  xorb invert found.

(** [s.replace(/[...]/g, replacement)] for a class pattern: every
    unit is a candidate match of length one. *)
Definition replaceClass (ignoreCase : bool) (members : list code_unit)
           (invert : bool) (replacement : jsstring) (s : jsstring)
  : jsstring :=
  flat_map (fun c => if classMatches ignoreCase members invert c
                     then replacement else [c]) s.

End Case.

End JS.

Import JS.

(* ================================================================== *)
(** * The document tree                                                *)
(* ================================================================== *)

Module Dom.

(** Elements of an HTML document, with their attributes in source
    order, and text nodes. *)
Inductive Node : Type :=
| Text (data : jsstring)
| Elt (e : Element)
with Element : Type :=
| mkElement (localName : jsstring)
            (attributes : list (jsstring * jsstring))
            (childNodes : list Node).

Definition localName (e : Element) : jsstring :=
  match e with mkElement n _ _ => n end.

Definition attributes (e : Element) : list (jsstring * jsstring) :=
  match e with mkElement _ a _ => a end.

Definition childNodes (e : Element) : list Node :=
  match e with mkElement _ _ c => c end.

(** [el.tagName]: the HTML-uppercased name (ASCII upper-casing). *)
Definition tagName (e : Element) : jsstring :=
  map asciiUpper (localName e).

(** [el.getAttribute(name)] *)
Fixpoint lookupAttr (name : jsstring) (attrs : list (jsstring * jsstring))
  : option jsstring :=
  match attrs with
  | [] => None
  | (k, v) :: rest => if JS.eqb k name then Some v else lookupAttr name rest
  end.

Definition getAttribute (e : Element) (name : jsstring) : option jsstring :=
  lookupAttr name (attributes e).

(** [el.textContent]: the data of the descendant text nodes, in
    document order. *)
Fixpoint textContent (e : Element) : jsstring :=
  match e with
  | mkElement _ _ cs =>
      flat_map (fun n => match n with
                         | Text d => d
                         | Elt c => textContent c
                         end) cs
  end.

(** An element reached by a query, with its [parentElement]. *)
Record Located := locate {
  parentElement : option Element;
  self : Element
}.

(** The element descendants of [e] in document order (pre-order). *)
Fixpoint descendants (e : Element) : list Located :=
  match e with
  | mkElement _ _ cs =>
      flat_map (fun n => match n with
                         | Text _ => []
                         | Elt c => locate (Some e) c :: descendants c
                         end) cs
  end.

(** ** Selectors

    The selectors of the source are lists of compound selectors made
    of an optional type selector and attribute tests. *)
Inductive AttrTest : Type :=
| AttrEquals (name value : jsstring)        (* [name="value"]  *)
| AttrPrefix (name value : jsstring).       (* [name^="value"] *)

Record Compound := compound {
  typeSel : option jsstring;
  attrTests : list AttrTest
}.

Definition Selector := list Compound.        (* comma-separated *)

Definition attrTestHolds (e : Element) (t : AttrTest) : bool :=
  match t with
  | AttrEquals n v =>
      match getAttribute e n with
      | Some a => JS.eqb a v
      | None => false
      end
  | AttrPrefix n v =>
      match getAttribute e n with
      | Some a => truthy v && startsWith a v
      | None => false
      end
  end.

Definition matchesCompound (e : Element) (c : Compound) : bool :=
  match typeSel c with
  | Some t => JS.eqb (localName e) t
  | None => true
  end && forallb (attrTestHolds e) (attrTests c).

Definition matches (sel : Selector) (e : Element) : bool :=
  existsb (matchesCompound e) sel.

(** [el.querySelectorAll(sel)] *)
Definition querySelectorAll (sel : Selector) (e : Element) : list Located :=
  filter (fun d => matches sel (self d)) (descendants e).

(** [el.querySelector(sel)] *)
Definition querySelector (sel : Selector) (e : Element) : option Located :=
  hd_error (querySelectorAll sel e).

(** A document, by its root element.  The root is itself a candidate
    of a document-wide query and has no parent element. *)
Record Document := { documentElement : Element }.

Definition documentQuerySelectorAll (sel : Selector) (d : Document)
  : list Located :=
  filter (fun x => matches sel (self x))
         (locate None (documentElement d) :: descendants (documentElement d)).

Section WithHost.
Context {H : Host}.

(** [a.href]: the empty string without an [href] attribute, the
    resolved URL otherwise. *)
Definition href (e : Element) : jsstring :=
  match getAttribute e (lit "href") with
  | None => []
  | Some v => resolveURL v
  end.
End WithHost.

End Dom.

Import Dom.

(* ================================================================== *)
(** * Effects: what a run does to the outside                          *)
(* ================================================================== *)

Module Effects.

(** The methods of [utils/logger.js]. *)
Inductive Level : Type :=
| INFO | SUCCESS | WARN | ERROR | DEBUG | STEP (stepNumber : Z).

Inductive Stream : Type := Stdout | Stderr.

(** [Logger.error] writes with [console.error], the other methods
    with [console.log]. *)
Definition streamOf (l : Level) : Stream :=
  match l with ERROR => Stderr | _ => Stdout end.

(** What is written by one run. *)
Record PersistedRecord := {
  rec_query : jsstring;
  rec_timestamp : jsstring;
  rec_text : jsstring;
  rec_links : list jsstring
}.

Inductive Event : Type :=
| Console (s : Stream) (line : jsstring)
    (* console.log / console.error called directly *)
| Logged (namespace : jsstring) (level : Level) (message : jsstring)
| Polled (sel : Selector) (found : bool)          (* page.$(sel) *)
| Slept (ms : Z)                                  (* await delay(ms) *)
| AwaitedSelector (sel : Selector) (timeout : Z) (appeared : bool)
| Evaluated                                       (* page.evaluate *)
| MadeDirectory (path : jsstring) (ok : bool)     (* fs.mkdir, recursive *)
| WroteFile (path : jsstring) (content : PersistedRecord) (ok : bool)
| SessionRequested (ok : bool)                    (* setupBrowser *)
| Navigated (url : jsstring) (ok : bool)          (* navigateToUrl *)
| Submitted (query : jsstring) (ok : bool)        (* submitQueryWorkflow *)
| SessionClosed (ok : bool)                       (* closeBrowser *)
| Exited (code : Z).                              (* process.exit(code) *)

Inductive Error : Type :=
| TimeoutError (sel : Selector)
| FsError (path : jsstring)
| SetupError
| NavigationError
| SubmissionError
| CloseError.

(** The session as the run has used it so far: how many times the
    liveness indicator was looked up, and the trace of events. *)
Record Session := {
  asked : nat;
  trace : list Event
}.

Definition fresh : Session := {| asked := 0%nat; trace := [] |}.

(** An awaited computation from a session: it resolves, rejects, or
    is still pending when the iteration budget of the model is used
    up. *)
Inductive Settled (A : Type) : Type :=
| Resolved (a : A) (s : Session)
| Rejected (e : Error) (s : Session)
| Pending.
Arguments Resolved {A} a s.
Arguments Rejected {A} e s.
Arguments Pending {A}.

Definition Async (A : Type) : Type := Session -> Settled A.

Definition ret {A} (a : A) : Async A := fun s => Resolved a s.

Definition throw {A} (e : Error) : Async A := fun s => Rejected e s.

Definition bind {A B} (m : Async A) (k : A -> Async B) : Async B :=
  fun s => match m s with
           | Resolved a s' => k a s'
           | Rejected e s' => Rejected e s'
           | Pending => Pending
           end.

(** [try { m } catch (error) { handler(error) }] *)
Definition tryCatch {A} (m : Async A) (handler : Error -> Async A)
  : Async A :=
  fun s => match m s with
           | Resolved a s' => Resolved a s'
           | Rejected e s' => handler e s'
           | Pending => Pending
           end.

Definition emit (e : Event) : Async unit :=
  fun s => Resolved tt {| asked := asked s; trace := trace s ++ [e] |}.

(** An awaited call of a collaborator that succeeds or fails. *)
Definition attempt (ok : bool) (e : Event) (err : Error) : Async unit :=
  fun s => let s' := {| asked := asked s; trace := trace s ++ [e] |} in
           if ok then Resolved tt s' else Rejected err s'.

(** [await delay(ms)] of [utils/delay.js] *)
Definition delay (ms : Z) : Async unit := emit (Slept ms).

Definition log (ns : jsstring) (l : Level) (msg : jsstring) : Async unit :=
  emit (Logged ns l msg).

End Effects.

Import Effects.

Declare Scope async_scope.
Delimit Scope async_scope with async.
Notation "x <- m ;; k" := (bind m (fun x => k))
  (at level 61, m at next level, right associativity) : async_scope.
Notation "m ;;; k" := (bind m (fun _ => k))
  (at level 61, right associativity) : async_scope.

Local Open Scope async_scope.
Local Open Scope string_scope.
Local Open Scope list_scope.
Local Open Scope Z_scope.

(* ================================================================== *)
(** * modules/responseExtraction.js                                    *)
(* ================================================================== *)

Module ResponseExtraction.

Definition namespace : jsstring := lit "ResponseExtraction".

(** ** The selectors of the module *)

(** [[ '[data-testid="stop-button"]' ]] *)
Definition stopButtonSelector : Selector :=
  [compound None [AttrEquals (lit "data-testid") (lit "stop-button")]].

(** [[ 'article[data-testid^="conversation-turn-"]' ]] *)
Definition articleSelector : Selector :=
  [compound (Some (lit "article"))
            [AttrPrefix (lit "data-testid") (lit "conversation-turn-")]].

(** [[ 'span[data-testid="webpage-citation-pill"]' ]] *)
Definition citationPillSelector : Selector :=
  [compound (Some (lit "span"))
            [AttrEquals (lit "data-testid") (lit "webpage-citation-pill")]].

(** [[ 'a' ]] *)
Definition anchorSelector : Selector := [compound (Some (lit "a")) []].

(** [[ 'p, h1, h2, h3, h4, h5, h6, li, span, code, pre' ]] *)
Definition textElementsSelector : Selector :=
  map (fun t => compound (Some (lit t)) [])
      ["p"; "h1"; "h2"; "h3"; "h4"; "h5"; "h6"; "li"; "span"; "code"; "pre"].

(** [[ ['p', 'h1', 'h2', 'h3', 'h4', 'h5', 'h6', 'li'] ]] *)
Definition blockTags : list jsstring :=
  map lit ["p"; "h1"; "h2"; "h3"; "h4"; "h5"; "h6"; "li"].

(** ** The page as one run meets it *)
Record Page := {
  (** is the stop button there at the n-th lookup of the run? *)
  stopButton : nat -> bool;
  (** the document when extraction runs, as the selector wait meets
      it *)
  document : Document
}.

(** The file system and the clock. *)
Record Platform := {
  cwd : jsstring;
  (** the two readings of [new Date().toISOString()] in [saveToFile] *)
  nowForFilename : jsstring;
  nowForRecord : jsstring;
  mkdirSucceeds : bool;
  writeFileSucceeds : bool
}.

(** ** Completion detection *)

(** The two states of the polling machine. *)
Inductive Phase : Type := GENERATING | COMPLETE.

(** The variables of the loop. *)
Record Vars := {
  stopButtonExists : bool;
  checkCount : Z
}.

Definition phase (v : Vars) : Phase :=
  if stopButtonExists v then GENERATING else COMPLETE.

(** [[ await page.$('[data-testid="stop-button"]') ]]: the answer is
    the next reading of the indicator; [true] stands for an element
    handle, [false] for [null]. *)
Definition lookupStopButton (page : Page) : Async bool :=
  fun s =>
    let found := stopButton page (asked s) in
    Resolved found
      {| asked := S (asked s);
         trace := trace s ++ [Polled stopButtonSelector found] |}.

(** The log lines of the loop. *)
Definition stillGeneratingEvent (checkCount : Z) : Event :=
  Logged namespace DEBUG
         (lit "Check #" ++ toString checkCount ++
          lit ": Stop button found - response still generating...").

Definition falseNegativeEvent (checkCount : Z) : Event :=
  Logged namespace DEBUG
         (lit "Check #" ++ toString checkCount ++
          lit ": False negative, button still exists").

Definition completionEvent : Event :=
  Logged namespace SUCCESS
         (lit "Stop button no longer found - response generation complete!").

(** One turn of [[ while (stopButtonExists) { ... } ]]. *)
Definition loopBody (page : Page) (checkInterval : Z) (v : Vars)
  : Async Vars :=
  let checkCount := checkCount v + 1 in
  stopButton <- lookupStopButton page ;;
  stopButtonExists <-
    (if stopButton then
       emit (stillGeneratingEvent checkCount) ;;;
       ret true
     else
       delay 500 ;;;
       confirmGone <- lookupStopButton page ;;
       if negb confirmGone then
         emit completionEvent ;;;
         ret false
       else
         emit (falseNegativeEvent checkCount) ;;;
         ret true) ;;
  (if stopButtonExists : bool then delay checkInterval else ret tt) ;;;
  ret {| stopButtonExists := stopButtonExists; checkCount := checkCount |}.

(** The loop itself; [fuel] bounds the number of turns the model
    follows, the source has no bound. *)
Fixpoint while (fuel : nat) (body : Vars -> Async Vars) (v : Vars)
  : Async Vars :=
  fun s =>
    if stopButtonExists v then
      match fuel with
      | O => Pending
      | S fuel' =>
          match body v s with
          | Resolved v' s' => while fuel' body v' s'
          | Rejected e s' => Rejected e s'
          | Pending => Pending
          end
      end
    else Resolved v s.

Definition waitForResponseComplete (page : Page) (checkInterval : Z)
           (fuel : nat) : Async unit :=
  tryCatch
    (log namespace (STEP 4) (lit "Monitoring response generation...") ;;;
     log namespace INFO
         (lit "Checking for stop button every " ++ toString checkInterval
          ++ lit "ms") ;;;
     _ <- while fuel (loopBody page checkInterval)
                {| stopButtonExists := true; checkCount := 0 |} ;;
     log namespace DEBUG
         (lit "Waiting additional 2 seconds for content to fully render...") ;;;
     delay 2000 ;;;
     log namespace SUCCESS (lit "Response monitoring completed"))
    (fun error =>
       log namespace ERROR (lit "Error during response monitoring") ;;;
       throw error).

(** ** Extraction *)

Record ExtractionResult := {
  text : jsstring;
  links : list jsstring
}.

(** [arr[i]] *)
Definition at_ {A} (arr : list A) (i : Z) : option A :=
  if i <? 0 then None else nth_error arr (Z.to_nat i).

(** The bullet of list items, as the source file spells it: the units
    U+00E2 U+20AC U+00A2 and a space. *)
Definition bullet : jsstring := [226; 8364; 162; 32].

Section WithHost.
Context {H : Host}.

(** The callback of [[ citationPills.forEach((pill) => ...) ]]. *)
Definition collectLink (links : list jsstring) (pill : Located)
  : list jsstring :=
  match querySelector anchorSelector (self pill) with
  | Some aTag =>
      if truthy (href (self aTag))
      then links ++ [href (self aTag)]       (* links.push(aTag.href) *)
      else links
  | None => links
  end.

(** [[ const links = []; citationPills.forEach(...) ]] *)
Definition citationLinks (assistantArticle : Element) : list jsstring :=
  let citationPills :=
    querySelectorAll citationPillSelector assistantArticle in
  fold_left collectLink citationPills [].

(** The callback of [[ textElements.forEach((el) => ...) ]]: the
    accumulated [text] after visiting [el]. *)
Definition visit (text : jsstring) (el : Located) : jsstring :=
  let tagName := toLowerCase (tagName (self el)) in
  let content := trim (textContent (self el)) in
  if truthy content then
    if startsWith tagName (lit "h") then
      text ++ (nl ++ nl ++ content ++ nl
               ++ JS.repeat 61 (JS.length content) ++ nl)
    else if JS.eqb tagName (lit "li") then
      text ++ (nl ++ bullet ++ content)
    else if JS.eqb tagName (lit "pre") || JS.eqb tagName (lit "code") then
      text ++ (nl ++ lit "```" ++ nl ++ content ++ nl ++ lit "```" ++ nl)
    else
      let parentIsTextElement :=
        match parentElement el with
        | Some parent =>
            includes blockTags (toLowerCase (Dom.tagName parent))
        | None => false
        end in
      if negb parentIsTextElement then
        text ++ (nl ++ content)
      else text
  else text.

(** [[ function extractText(element) ]] *)
Definition extractText (element : Element) : jsstring :=
  let textElements := querySelectorAll textElementsSelector element in
  if Z.of_nat (List.length textElements) =? 0 then
    trim (textContent element)
  else
    trim (fold_left visit textElements []).

(** The function handed to [page.evaluate]. *)
Definition evaluateInPage (d : Document) : ExtractionResult :=
  let articles := map self (documentQuerySelectorAll articleSelector d) in
  match at_ articles (Z.of_nat (List.length articles) - 1) with
  | None =>
      {| text := lit "Error: Could not find assistant response article";
         links := [] |}
  | Some assistantArticle =>
      {| text := extractText assistantArticle;
         links := citationLinks assistantArticle |}
  end.

(** [[ await page.waitForSelector(sel, { timeout }) ]] on the page as
    it is when extraction runs. *)
Definition waitForSelector (page : Page) (sel : Selector) (timeout : Z)
  : Async unit :=
  let appeared :=
    match documentQuerySelectorAll sel (document page) with
    | [] => false
    | _ :: _ => true
    end in
  attempt appeared (AwaitedSelector sel timeout appeared)
          (TimeoutError sel).

(** [[ async function extractResponseText(page) ]], with the document
    the callback of [page.evaluate] runs in: the wait and the evaluation
    are two round trips to the browser, and the script does not hold
    the page still between them. *)
Definition extractResponseTextOn (page : Page) (evaluated : Document)
  : Async ExtractionResult :=
  tryCatch
    (log namespace (STEP 5)
         (lit "Extracting response text and citation links...") ;;;
     waitForSelector page articleSelector 10000 ;;;
     log namespace INFO (lit "Looking for assistant response article...") ;;;
     emit Evaluated ;;;
     let responseData := evaluateInPage evaluated in
     if negb (truthy (text responseData))
        || JS.eqb (trim (text responseData)) []
     then
       log namespace WARN (lit "No text content extracted from response") ;;;
       ret {| text := lit "Error: Empty response extracted"; links := [] |}
     else
       log namespace SUCCESS
           (lit "Successfully extracted "
            ++ toString (JS.length (text responseData))
            ++ lit " characters of text") ;;;
       log namespace SUCCESS
           (lit "Found "
            ++ toString (Z.of_nat (List.length (links responseData)))
            ++ lit " citation link(s)") ;;;
       (if Z.of_nat (List.length (links responseData)) >? 0 then
          log namespace DEBUG
              (lit "Citation links: "
               ++ join (lit ", ") (links responseData))
        else ret tt) ;;;
       log namespace DEBUG
           (lit "Text preview: "
            ++ substring (text responseData) 0 100 ++ lit "...") ;;;
       ret responseData)
    (fun error =>
       log namespace ERROR (lit "Failed to extract response text") ;;;
       throw error).

(** The same on a page that stays as it is while extraction runs: the
    callback meets the document the wait has seen. *)
Definition extractResponseText (page : Page) : Async ExtractionResult :=
  extractResponseTextOn page (document page).

(** ** Persistence *)

(** [[
    const sanitizedQuery = query
      .substring(0, 50)
      .replace(/[^a-z0-9]/gi, '_')
      .toLowerCase();
    ]] *)
Definition sanitizedQuery (query : jsstring) : jsstring :=
  toLowerCase
    (replaceClass true class_a_z_0_9 true (lit "_")
       (substring query 0 50)).

Definition saveToFile (pf : Platform) (text : jsstring)
           (links : list jsstring) (query : jsstring)
           (outputDir : jsstring) : Async jsstring :=
  tryCatch
    (log namespace (STEP 6) (lit "Saving response to JSON file...") ;;;
     let fullOutputPath := pathJoin (cwd pf) outputDir in
     attempt (mkdirSucceeds pf)
             (MadeDirectory fullOutputPath (mkdirSucceeds pf))
             (FsError fullOutputPath) ;;;
     let timestamp :=
       replaceClass false class_colon_dot false (lit "-")
                    (nowForFilename pf) in
     let filename :=
       lit "chatgpt_response_" ++ sanitizedQuery query ++ lit "_"
           ++ timestamp ++ lit ".json" in
     let filepath := pathJoin fullOutputPath filename in
     let jsonContent :=
       {| rec_query := query; rec_timestamp := nowForRecord pf;
          rec_text := text; rec_links := links |} in
     attempt (writeFileSucceeds pf)
             (WroteFile filepath jsonContent (writeFileSucceeds pf))
             (FsError filepath) ;;;
     log namespace SUCCESS (lit "Response saved to: " ++ filepath) ;;;
     log namespace INFO
         (lit "Saved " ++ toString (Z.of_nat (List.length links))
          ++ lit " citation link(s) and " ++ toString (JS.length text)
          ++ lit " characters of text") ;;;
     ret filepath)
    (fun error =>
       log namespace ERROR (lit "Failed to save response to file") ;;;
       throw error).

Record WorkflowResult := {
  wf_text : jsstring;
  wf_links : list jsstring;
  wf_filepath : jsstring
}.

Definition extractAndSaveResponse (page : Page) (pf : Platform)
           (query : jsstring) (checkInterval : Z) (fuel : nat)
  : Async WorkflowResult :=
  tryCatch
    (log namespace INFO (lit "Starting response extraction workflow...") ;;;
     waitForResponseComplete page checkInterval fuel ;;;
     r <- extractResponseText page ;;
     filepath <- saveToFile pf (text r) (links r) query (lit "output") ;;
     log namespace SUCCESS
         (lit "Response extraction workflow completed successfully") ;;;
     ret {| wf_text := text r; wf_links := links r;
            wf_filepath := filepath |})
    (fun error =>
       log namespace ERROR (lit "Response extraction workflow failed") ;;;
       throw error).

End WithHost.

End ResponseExtraction.

(* ================================================================== *)
(** * index_remote.js: the orchestrator                                *)
(* ================================================================== *)

Module Main.

Definition namespace : jsstring := lit "Main".

Definition CHATGPT_URL : jsstring := lit "https://chatgpt.com/".
Definition CHECK_INTERVAL : Z := 1000.

(** What one invocation of the process meets.  The modules
    [browserbaseSetup] and [querySubmission] are collaborators: each
    call is one event that succeeds or fails. *)
Record World := {
  argv : list jsstring;                 (* process.argv *)
  setupSucceeds : bool;
  sessionId : jsstring;                 (* session.id; may be empty *)
  navigationSucceeds : bool;
  submissionSucceeds : bool;
  closeSucceeds : bool;
  page : ResponseExtraction.Page;
  platform : ResponseExtraction.Platform
}.

(** The handle [setupBrowser] returns. *)
Record Handles := { browserSessionId : jsstring }.

Definition setupBrowser (w : World) : Async Handles :=
  attempt (setupSucceeds w) (SessionRequested (setupSucceeds w)) SetupError ;;;
  ret {| browserSessionId := sessionId w |}.

Definition navigateToUrl (w : World) (url : jsstring) : Async unit :=
  attempt (navigationSucceeds w) (Navigated url (navigationSucceeds w))
          NavigationError.

Definition submitQueryWorkflow (w : World) (query : jsstring) : Async unit :=
  attempt (submissionSucceeds w) (Submitted query (submissionSucceeds w))
          SubmissionError.

Definition closeBrowser (w : World) : Async unit :=
  attempt (closeSucceeds w) (SessionClosed (closeSucceeds w)) CloseError.

Definition rule : jsstring := JS.repeat 61 80.        (* "=".repeat(80) *)

(** [[ links.forEach((link, index) => logger.info(...)) ]] *)
Fixpoint logLinks (index : Z) (links : list jsstring) : Async unit :=
  match links with
  | [] => ret tt
  | link :: rest =>
      log namespace INFO
          (lit "  [" ++ toString (index + 1) ++ lit "] " ++ link) ;;;
      logLinks (index + 1) rest
  end.

Section WithHost.
Context {H : Host}.

(** The [try] block up to the assignment of [browser]: [None] is the
    early [return 1], otherwise the handles now held in [browser]. *)
Definition acquire (w : World) : Async (option (jsstring * Handles)) :=
  let query := nth_error (argv w) 2 in           (* process.argv[2] *)
  match query with
  | Some q =>
      if truthy q then
        log namespace INFO rule ;;;
        log namespace INFO (lit "ChatGPT Web Scraper Started") ;;;
        log namespace INFO rule ;;;
        log namespace INFO (lit "Query: " ++ dq ++ q ++ dq) ;;;
        log namespace INFO rule ;;;
        h <- setupBrowser w ;;
        ret (Some (q, h))
      else
        log namespace ERROR (lit "No query provided!") ;;;
        emit (Console Stdout
                (nl ++ lit "Usage: node index.js " ++ dq
                    ++ lit "Your query here" ++ dq)) ;;;
        emit (Console Stdout
                (lit "Example: node index.js " ++ dq
                     ++ lit "How are you doing today?" ++ dq ++ nl)) ;;;
        ret None
  | None =>
      log namespace ERROR (lit "No query provided!") ;;;
      emit (Console Stdout
              (nl ++ lit "Usage: node index.js " ++ dq
                  ++ lit "Your query here" ++ dq)) ;;;
      emit (Console Stdout
              (lit "Example: node index.js " ++ dq
                   ++ lit "How are you doing today?" ++ dq ++ nl)) ;;;
      ret None
  end.

(** The rest of the [try] block, entered with [browser] assigned. *)
Definition proceed (w : World) (fuel : nat) (query : jsstring)
           (h : Handles) : Async unit :=
  (if truthy (browserSessionId h) then
     log namespace INFO (lit "Browserbase Session ID: " ++ browserSessionId h)
   else ret tt) ;;;
  navigateToUrl w CHATGPT_URL ;;;
  submitQueryWorkflow w query ;;;
  r <- ResponseExtraction.extractAndSaveResponse
         (page w) (platform w) query CHECK_INTERVAL fuel ;;
  log namespace INFO rule ;;;
  log namespace SUCCESS (lit "SCRAPING COMPLETED SUCCESSFULLY!") ;;;
  log namespace INFO rule ;;;
  log namespace INFO
      (lit "Response length: "
       ++ toString (JS.length (ResponseExtraction.wf_text r))
       ++ lit " characters") ;;;
  log namespace INFO
      (lit "Citation links found: "
       ++ toString (Z.of_nat (List.length (ResponseExtraction.wf_links r)))) ;;;
  (if Z.of_nat (List.length (ResponseExtraction.wf_links r)) >? 0 then
     logLinks 0 (ResponseExtraction.wf_links r)
   else ret tt) ;;;
  log namespace INFO
      (lit "Saved to: " ++ ResponseExtraction.wf_filepath r) ;;;
  (if truthy (browserSessionId h) then
     log namespace INFO
         (lit "View session replay: https://browserbase.com/sessions/"
          ++ browserSessionId h)
   else ret tt) ;;;
  log namespace INFO rule ;;;
  log namespace INFO (lit "Keeping browser open for 5 seconds...") ;;;
  delay 5000.

(** The [catch] block: the new value of [exitCode]. *)
Definition onError (error : Error) : Async Z :=
  log namespace ERROR (lit "Scraper failed with error") ;;;
  ret 1.

(** The [finally] block, from the values of [browser] and
    [exitCode]: the new value of [exitCode]. *)
Definition cleanup (w : World) (browser : option Handles) (exitCode : Z)
  : Async Z :=
  match browser with
  | Some _ =>
      tryCatch
        (closeBrowser w ;;; ret exitCode)
        (fun closeError =>
           log namespace ERROR
               (lit "Error closing browser during cleanup") ;;;
           ret 1)
  | None => ret exitCode
  end.

(** [[ async function runScraper() ]]: the exit code. *)
Definition runScraper (w : World) (fuel : nat) : Async Z :=
  fun s =>
    match acquire w s with
    | Resolved None s1 =>
        (* return 1 inside try; finally runs with browser = null *)
        (cleanup w None 0 ;;; ret 1) s1
    | Resolved (Some (query, h)) s1 =>
        (exitCode <- tryCatch (proceed w fuel query h ;;; ret 0) onError ;;
         cleanup w (Some h) exitCode) s1
    | Rejected error s1 =>
        (exitCode <- onError error ;; cleanup w None exitCode) s1
    | Pending => Pending
    end.

(** [[ runScraper().then(process.exit).catch(...) ]] *)
Definition main (w : World) (fuel : nat) : Async unit :=
  tryCatch
    (exitCode <- runScraper w fuel ;; emit (Exited exitCode))
    (fun error =>
       log namespace ERROR (lit "Unhandled error in scraper") ;;;
       emit (Exited 1)).

End WithHost.

End Main.

(* ================================================================== *)
(** * Page interaction: the calls of the dispatch and set-up modules   *)
(* ================================================================== *)

Module Steps.

(** The calls made on the page handle and on the remote service. *)
Inductive Call : Type :=
| WaitForSelector (selector : jsstring) (timeout : Z)
    (* page.waitForSelector(selector, { visible: true, timeout }) *)
| Click (selector : jsstring)                    (* page.click(selector) *)
| TypeText (selector text : jsstring) (delay : Z)
    (* page.type(selector, text, { delay }) *)
| CreateSession (projectId : jsstring)           (* bb.sessions.create *)
| Connect (endpoint : jsstring)                  (* puppeteer.connect *)
| ListPages                                      (* browser.pages() *)
| NewPage                                        (* browser.newPage() *)
| EvaluateOnNewDocument.                         (* page.evaluateOnNewDocument *)

Inductive Act : Type :=
| Called (c : Call) (ok : bool)
| Paused (ms : Z)                                (* setTimeout(resolve, ms) *)
| Wrote (namespace : jsstring) (level : Level) (message : jsstring).

Inductive Failure : Type :=
| CallFailed (c : Call)
| ThrownError (message : jsstring).              (* new Error(message) *)

(** The run so far: how many random numbers were drawn, and what was
    done. *)
Record Run := {
  drawn : nat;
  acts : list Act
}.

Definition start : Run := {| drawn := 0; acts := [] |}.

Inductive Outcome (A : Type) : Type :=
| Done (a : A) (r : Run)
| Failed (f : Failure) (r : Run).
Arguments Done {A} a r.
Arguments Failed {A} f r.

Definition Step (A : Type) : Type := Run -> Outcome A.

Definition ret {A} (a : A) : Step A := fun r => Done a r.

Definition throw {A} (f : Failure) : Step A := fun r => Failed f r.

Definition bind {A B} (m : Step A) (k : A -> Step B) : Step B :=
  fun r => match m r with
           | Done a r' => k a r'
           | Failed f r' => Failed f r'
           end.

Definition tryCatch {A} (m : Step A) (handler : Failure -> Step A) : Step A :=
  fun r => match m r with
           | Done a r' => Done a r'
           | Failed f r' => handler f r'
           end.

Definition record (a : Act) : Step unit :=
  fun r => Done tt {| drawn := drawn r; acts := acts r ++ [a] |}.

Definition log (ns : jsstring) (l : Level) (msg : jsstring) : Step unit :=
  record (Wrote ns l msg).

(** What the run meets: which calls succeed, and the random numbers.
    [randomBelow n k] is the value of the n-th evaluation of
    [Math.floor(Math.random() * k)]. *)
Record Surroundings := {
  succeeds : Call -> bool;
  randomBelow : nat -> Z -> Z
}.

(** An awaited call: it is recorded, and throws when it fails. *)
Definition call (w : Surroundings) (c : Call) : Step unit :=
  fun r =>
    let r' := {| drawn := drawn r; acts := acts r ++ [Called c (succeeds w c)] |} in
    if succeeds w c then Done tt r' else Failed (CallFailed c) r'.

(** [Math.floor(Math.random() * k)] *)
Definition draw (w : Surroundings) (k : Z) : Step Z :=
  fun r => Done (randomBelow w (drawn r) k)
                {| drawn := S (drawn r); acts := acts r |}.

End Steps.

Declare Scope step_scope.
Delimit Scope step_scope with step.
Notation "x <~ m ;; k" := (Steps.bind m (fun x => k))
  (at level 61, m at next level, right associativity) : step_scope.
Notation "m ;;~ k" := (Steps.bind m (fun _ => k))
  (at level 61, right associativity) : step_scope.
Local Open Scope step_scope.

(* ================================================================== *)
(** * modules/querySubmission.js                                       *)
(* ================================================================== *)

Module QuerySubmission.

Import Steps.

Definition namespace : jsstring := lit "QuerySubmission".

(** [[ '[data-testid="composer-button-search"]' ]] *)
Definition searchButton : jsstring :=
  lit "[data-testid=" ++ dq ++ lit "composer-button-search" ++ dq ++ lit "]".

(** [[ "#prompt-textarea" ]] *)
Definition promptTextarea : jsstring := lit "#prompt-textarea".

(** [[ '[id="composer-submit-button"]' ]] *)
Definition submitButton : jsstring :=
  lit "[id=" ++ dq ++ lit "composer-submit-button" ++ dq ++ lit "]".

(** [[ async function randomDelay(min = 500, max = 1500) ]] *)
Definition randomDelay (w : Surroundings) (min max : Z) : Step unit :=
  u <~ draw w (max - min + 1) ;;
  let delay := u + min in
  log namespace DEBUG
      (lit "Adding human-like delay: " ++ toString delay ++ lit "ms") ;;~
  record (Paused delay).

Definition clickSearchButton (w : Surroundings) : Step unit :=
  tryCatch
    (log namespace (STEP 1) (lit "Looking for composer search button...") ;;~
     call w (WaitForSelector searchButton 30000) ;;~
     log namespace SUCCESS (lit "Found composer search button") ;;~
     randomDelay w 500 1000 ;;~
     call w (Click searchButton) ;;~
     log namespace SUCCESS (lit "Clicked composer search button") ;;~
     randomDelay w 800 1500)
    (fun error =>
       log namespace ERROR (lit "Failed to click search button") ;;~
       throw error).

Definition typeQuery (w : Surroundings) (query : jsstring) : Step unit :=
  tryCatch
    (log namespace (STEP 2)
         (lit "Typing query: " ++ dq ++ query ++ dq) ;;~
     call w (WaitForSelector promptTextarea 30000) ;;~
     log namespace SUCCESS (lit "Found prompt textarea") ;;~
     call w (Click promptTextarea) ;;~
     randomDelay w 300 600 ;;~
     u <~ draw w 50 ;;
     call w (TypeText promptTextarea query (u + 30)) ;;~
     log namespace SUCCESS (lit "Query typed successfully") ;;~
     randomDelay w 500 1000)
    (fun error =>
       log namespace ERROR (lit "Failed to type query") ;;~
       throw error).

Definition submitQuery (w : Surroundings) : Step unit :=
  tryCatch
    (log namespace (STEP 3) (lit "Looking for submit button...") ;;~
     call w (WaitForSelector submitButton 10000) ;;~
     log namespace SUCCESS (lit "Found submit button") ;;~
     randomDelay w 300 700 ;;~
     call w (Click submitButton) ;;~
     log namespace SUCCESS (lit "Clicked submit button - query sent!") ;;~
     randomDelay w 1000 2000)
    (fun error =>
       log namespace ERROR (lit "Failed to submit query") ;;~
       throw error).

Definition submitQueryWorkflow (w : Surroundings) (query : jsstring)
  : Step unit :=
  tryCatch
    (log namespace INFO (lit "Starting query submission workflow...") ;;~
     clickSearchButton w ;;~
     typeQuery w query ;;~
     submitQuery w ;;~
     log namespace SUCCESS
         (lit "Query submission workflow completed successfully"))
    (fun error =>
       log namespace ERROR (lit "Query submission workflow failed") ;;~
       throw error).

End QuerySubmission.

(* ================================================================== *)
(** * modules/browserbaseSetup.js                                      *)
(* ================================================================== *)

Module BrowserbaseSetup.

Import Steps.

Definition namespace : jsstring := lit "BrowserbaseSetup".

(** The environment variables read when the module is loaded, and what
    the remote service answers. *)
Record Remote := {
  BROWSERBASE_API_KEY : option jsstring;
  BROWSERBASE_PROJECT_ID : option jsstring;
  sessionIdGiven : jsstring;            (* session.id *)
  connectUrl : jsstring;                (* session.connectUrl *)
  pagesOpen : nat                       (* length of browser.pages() *)
}.

(** Truthiness of an environment variable. *)
Definition isSet (v : option jsstring) : bool :=
  match v with Some s => truthy s | None => false end.

Definition valueOf (v : option jsstring) : jsstring :=
  match v with Some s => s | None => [] end.

(** Which page the set-up ends with. *)
Inductive PageChoice : Type := ExistingPage | FreshPage.

Record Handles := {
  sessionId : jsstring;
  page : PageChoice
}.

Definition setupBrowser (w : Surroundings) (env : Remote) : Step Handles :=
  tryCatch
    (log namespace INFO (lit "Initializing Browserbase remote browser setup...") ;;~
     (if negb (isSet (BROWSERBASE_API_KEY env)) then
        throw (ThrownError
                 (lit "BROWSERBASE_API_KEY environment variable is not set"))
      else ret tt) ;;~
     (if negb (isSet (BROWSERBASE_PROJECT_ID env)) then
        throw (ThrownError
                 (lit "BROWSERBASE_PROJECT_ID environment variable is not set"))
      else ret tt) ;;~
     log namespace INFO (lit "Creating Browserbase session...") ;;~
     log namespace DEBUG
         (lit "Session config: Using residential proxy in San Francisco, CA") ;;~
     call w (CreateSession (valueOf (BROWSERBASE_PROJECT_ID env))) ;;~
     log namespace SUCCESS
         (lit "Browserbase session created: " ++ sessionIdGiven env) ;;~
     log namespace INFO
         (lit "Session replay will be available at: https://browserbase.com/sessions/"
          ++ sessionIdGiven env) ;;~
     log namespace INFO (lit "Connecting to remote browser...") ;;~
     call w (Connect (connectUrl env)) ;;~
     log namespace SUCCESS (lit "Connected to remote browser successfully") ;;~
     call w ListPages ;;~
     page <~ (match pagesOpen env with
              | O => call w NewPage ;;~ ret FreshPage   (* pages[0] is undefined *)
              | S _ => ret ExistingPage
              end) ;;
     call w EvaluateOnNewDocument ;;~
     log namespace SUCCESS
         (lit "Remote browser configured with WebRTC blocking") ;;~
     ret {| sessionId := sessionIdGiven env; page := page |})
    (fun error =>
       log namespace ERROR (lit "Failed to setup Browserbase browser") ;;~
       throw error).

End BrowserbaseSetup.

(* ================================================================== *)
(** * Vocabulary of the properties                                     *)
(* ================================================================== *)

(** Units of the class [[a-z0-9_]]. *)
Definition isSafeUnit (c : code_unit) : bool :=
  ((97 <=? c) && (c <=? 122)) || ((48 <=? c) && (c <=? 57)) || (c =? 95).

(** Units of the class [[A-Za-z0-9]]. *)
Definition isAlnum (c : code_unit) : bool :=
  ((97 <=? c) && (c <=? 122)) || ((65 <=? c) && (c <=? 90))
  || ((48 <=? c) && (c <=? 57)).

(** The replacement step of the token, unit by unit. *)
Definition underscoreUnlessAlnum (c : code_unit) : code_unit :=
  if isAlnum c then c else 95.

(** The sleeps of a trace, in order. *)
Definition sleeps (t : list Event) : list Z :=
  flat_map (fun e => match e with Slept ms => [ms] | _ => [] end) t.

(** Does the event create a browsing session? *)
Definition isSessionEvent (e : Event) : bool :=
  match e with SessionRequested _ => true | _ => false end.

(** Does the event touch the persisted file or its directory? *)
Definition isFileEvent (e : Event) : bool :=
  match e with MadeDirectory _ _ | WroteFile _ _ _ => true | _ => false end.

(** The files a trace has written, with their content. *)
Definition written (t : list Event) : list (jsstring * PersistedRecord) :=
  flat_map (fun e => match e with
                     | WroteFile path content true => [(path, content)]
                     | _ => []
                     end) t.

(** The trace a settled computation leaves. *)
Definition settledTrace {A} (r : Settled A) : list Event :=
  match r with
  | Resolved _ s | Rejected _ s => trace s
  | Pending => []
  end.

(** A computation that always settles, looks up the indicator no
    further, and only appends events that are not sleeps. *)
Definition Silent {A} (m : Async A) : Prop :=
  forall s,
    match m s with
    | Resolved _ s' | Rejected _ s' =>
        asked s' = asked s
        /\ exists t, trace s' = trace s ++ t /\ sleeps t = []
    | Pending => False
    end.

(** What [waitForResponseComplete] is expected to leave in the trace
    when the indicator is there at two polls and gone afterwards, with a
    poll interval of 1000ms. *)
Definition twoTickTrace : list Event :=
  [ Logged ResponseExtraction.namespace (STEP 4)
           (lit "Monitoring response generation...");
    Logged ResponseExtraction.namespace INFO
           (lit "Checking for stop button every 1000ms");
    Polled ResponseExtraction.stopButtonSelector true;
    ResponseExtraction.stillGeneratingEvent 1;
    Slept 1000;
    Polled ResponseExtraction.stopButtonSelector true;
    ResponseExtraction.stillGeneratingEvent 2;
    Slept 1000;
    Polled ResponseExtraction.stopButtonSelector false;
    Slept 500;
    Polled ResponseExtraction.stopButtonSelector false;
    ResponseExtraction.completionEvent;
    Logged ResponseExtraction.namespace DEBUG
           (lit "Waiting additional 2 seconds for content to fully render...");
    Slept 2000;
    Logged ResponseExtraction.namespace SUCCESS
           (lit "Response monitoring completed") ].

(** Strings made of white space only. *)
Definition allWhite (s : jsstring) : bool := forallb isWhiteSpace s.

(** The tags of headings, and the tags the element query selects. *)
Definition headingTags : list jsstring :=
  map lit ["h1"; "h2"; "h3"; "h4"; "h5"; "h6"].

Definition textTags : list jsstring :=
  map lit ["p"; "h1"; "h2"; "h3"; "h4"; "h5"; "h6"; "li"; "span"; "code";
           "pre"].

(** The tags with a formatting rule of their own: headings, list items,
    code and pre. *)
Definition formattedTags : list jsstring :=
  headingTags ++ map lit ["li"; "pre"; "code"].

(** The tag of an element as scripts read it: [tagName], lower-cased. *)
Definition tagKind {H : Host} (e : Element) : jsstring :=
  toLowerCase (tagName e).

(** Is the immediate parent one of the block kinds p, h1-h6, li? *)
Definition parentIsBlock {H : Host} (el : Located) : bool :=
  match parentElement el with
  | Some parent => includes ResponseExtraction.blockTags (tagKind parent)
  | None => false
  end.

(** A heading with its underline, framed by line feeds. *)
Definition underlined (t : jsstring) : jsstring :=
  nl ++ nl ++ t ++ nl ++ JS.repeat 61 (JS.length t) ++ nl.

(** A fenced block. *)
Definition fenced (t : jsstring) : jsstring :=
  nl ++ lit "```" ++ nl ++ t ++ nl ++ lit "```" ++ nl.

(** Builders of small documents. *)
Definition elem (tag : string) (children : list Node) : Element :=
  mkElement (lit tag) [] children.

Definition turn (children : list Node) : Element :=
  mkElement (lit "article")
            [(lit "data-testid", lit "conversation-turn-2")] children.

Definition citationPill (url label : jsstring) : Element :=
  mkElement (lit "span")
            [(lit "data-testid", lit "webpage-citation-pill")]
            [Elt (mkElement (lit "a") [(lit "href", url)] [Text label])].

Definition documentOf (body : list Node) : Document :=
  {| documentElement := elem "html" [Elt (elem "body" body)] |}.

Definition pageShowing (d : Document) : ResponseExtraction.Page :=
  {| ResponseExtraction.stopButton := fun _ => false;
     ResponseExtraction.document := d |}.

(** The conversation turn extraction reads: the last one of the
    document. *)
Definition selectedTurn (d : Document) : option Element :=
  let articles :=
    map self (documentQuerySelectorAll ResponseExtraction.articleSelector d) in
  ResponseExtraction.at_ articles (Z.of_nat (List.length articles) - 1).

(** The link a citation marker contributes, if any: the resolved URL of
    its first anchor, when there is one. *)
Definition markerLink {H : Host} (pill : Located) : list jsstring :=
  match querySelector ResponseExtraction.anchorSelector (self pill) with
  | Some aTag => if truthy (href (self aTag)) then [href (self aTag)] else []
  | None => []
  end.

(** The sentinel of an empty extraction. *)
Definition emptySentinel : ResponseExtraction.ExtractionResult :=
  {| ResponseExtraction.text := lit "Error: Empty response extracted";
     ResponseExtraction.links := [] |}.

(** A document without content, and the page that shows it while the
    indicator follows [indicator]. *)
Definition blankDocument : Document :=
  {| documentElement := mkElement (lit "html") [] [] |}.

Definition pageWithIndicator (indicator : nat -> bool)
  : ResponseExtraction.Page :=
  {| ResponseExtraction.stopButton := indicator;
     ResponseExtraction.document := blankDocument |}.

(** ** The host the model is run on

    [a.href] and [path.join] are not code of the script: the first is
    the URL parser of the browser, the second belongs to Node.  They are
    given here as far as the runs below need them. *)

(** The pieces of [s] between the occurrences of [sep]. *)
Fixpoint splitOn (sep : code_unit) (s : jsstring) : list jsstring :=
  match s with
  | [] => [[]]
  | c :: s' =>
      if c =? sep then [] :: splitOn sep s'
      else match splitOn sep s' with
           | piece :: pieces => (c :: piece) :: pieces
           | [] => [[c]]
           end
  end.

(** The longest prefix of [s] without a unit in [stop], and the rest. *)
Fixpoint upTo (stop : code_unit -> bool) (s : jsstring)
  : jsstring * jsstring :=
  match s with
  | [] => ([], [])
  | c :: s' =>
      if stop c then ([], s)
      else let (before, rest) := upTo stop s' in (c :: before, rest)
  end.

(** *** The URL parser (URL Standard), on plain web addresses

    The parser is followed on the references it leaves nearly alone:
    the empty reference, and [http] and [https] addresses with a plain
    domain and nothing to escape or to resolve.  Every other reference
    (relative ones, ports, credentials, escapes, dot segments, numeric
    or internationalised hosts) is outside this model and is left as
    written. *)
Module Url.

(** The address of the document, the base of relative references. *)
Definition documentURL : jsstring := lit "https://chatgpt.com/".

Definition isC0ControlOrSpace (c : code_unit) : bool :=
  (0 <=? c) && (c <=? 32).

Definition isTabOrNewline (c : code_unit) : bool :=
  (c =? 9) || (c =? 10) || (c =? 13).

Definition isAlpha (c : code_unit) : bool :=
  ((65 <=? c) && (c <=? 90)) || ((97 <=? c) && (c <=? 122)).

Definition isDigit (c : code_unit) : bool := (48 <=? c) && (c <=? 57).

(** letters, digits, [-], [.], [_], [~] *)
Definition isUnreserved (c : code_unit) : bool :=
  isAlpha c || isDigit c || (c =? 45) || (c =? 46) || (c =? 95) || (c =? 126).

Fixpoint dropWhile (p : code_unit -> bool) (s : jsstring) : jsstring :=
  match s with
  | [] => []
  | c :: s' => if p c then dropWhile p s' else s
  end.

(** Leading and trailing C0 controls and spaces are dropped, then every
    tab and newline. *)
Definition cleaned (input : jsstring) : jsstring :=
  filter (fun c => negb (isTabOrNewline c))
         (rev (dropWhile isC0ControlOrSpace
                 (rev (dropWhile isC0ControlOrSpace input)))).

(** The scheme and what follows its [://]; schemes are matched without
    regard to case and serialised in lower case. *)
Definition afterScheme (s : jsstring) : option (jsstring * jsstring) :=
  if JS.eqb (map asciiLower (firstn 8 s)) (lit "https://")
  then Some (lit "https", skipn 8 s)
  else if JS.eqb (map asciiLower (firstn 7 s)) (lit "http://")
  then Some (lit "http", skipn 7 s)
  else None.

(** [/], [?] and [#] end the host. *)
Definition endsHost (c : code_unit) : bool :=
  (c =? 47) || (c =? 63) || (c =? 35).

(** A label that is there and is not in Punycode. *)
Definition plainLabel (label : jsstring) : bool :=
  truthy label
  && negb (JS.eqb (map asciiLower (firstn 4 label)) (lit "xn--")).

(** A domain of letters, digits and hyphens whose last label starts
    with a letter, so that it is not read as a number. *)
Definition plainDomain (host : jsstring) : bool :=
  forallb (fun c => isAlpha c || isDigit c || (c =? 45) || (c =? 46)) host
  && forallb plainLabel (splitOn 46 host)
  && match last (splitOn 46 host) [] with
     | c :: _ => isAlpha c
     | [] => false
     end.

(** Units that path, query and fragment all keep as they are. *)
Definition keptAsWritten (c : code_unit) : bool :=
  isUnreserved c || (c =? 47) || (c =? 63) || (c =? 35)
  || (c =? 61) || (c =? 38).

(** The path has no [.] and no [..] segment. *)
Definition noDotSegments (rest : jsstring) : bool :=
  forallb (fun segment => negb (JS.eqb segment (lit "."))
                          && negb (JS.eqb segment (lit "..")))
          (splitOn 47 (fst (upTo (fun c => (c =? 63) || (c =? 35)) rest))).

(** The serialisation of [input] parsed against the document: scheme
    and host in lower case, and a path that is never empty. *)
Definition href (input : jsstring) : jsstring :=
  match cleaned input with
  | [] => documentURL
  | s =>
      match afterScheme s with
      | Some (scheme, r) =>
          let (host, rest) := upTo endsHost r in
          if plainDomain host && forallb keptAsWritten rest
             && noDotSegments rest
          then scheme ++ lit "://" ++ map asciiLower host
               ++ (if startsWith rest (lit "/") then rest
                   else lit "/" ++ rest)
          else input
      | None => input
      end
  end.

End Url.

(** *** [path.join] of Node on a POSIX platform, for two arguments *)
Module Path.

(** [normalizeString]: empty and [.] segments are dropped, [..] takes
    the segment before it away, or stays when there is none to take and
    the path is relative.  [res] holds the segments kept so far, the
    last one first. *)
Fixpoint normalizeString (allowAboveRoot : bool) (segments res : list jsstring)
  : list jsstring :=
  match segments with
  | [] => rev res
  | segment :: segments' =>
      if JS.eqb segment [] || JS.eqb segment (lit ".") then
        normalizeString allowAboveRoot segments' res
      else if JS.eqb segment (lit "..") then
        match res with
        | top :: below =>
            if JS.eqb top (lit "..") then
              normalizeString allowAboveRoot segments'
                (if allowAboveRoot then segment :: res else res)
            else normalizeString allowAboveRoot segments' below
        | [] =>
            normalizeString allowAboveRoot segments'
              (if allowAboveRoot then [segment] else [])
        end
      else normalizeString allowAboveRoot segments' (segment :: res)
  end.

(** [path.normalize] *)
Definition normalize (path : jsstring) : jsstring :=
  match path with
  | [] => lit "."
  | first :: _ =>
      let isAbsolute := first =? 47 in
      let trailingSeparator := last path 0 =? 47 in
      match JS.join (lit "/")
              (normalizeString (negb isAbsolute) (splitOn 47 path) []) with
      | [] =>
          if isAbsolute then lit "/"
          else if trailingSeparator then lit "./" else lit "."
      | normalized =>
          (if isAbsolute then lit "/" else [])
          ++ normalized ++ (if trailingSeparator then lit "/" else [])
      end
  end.

(** [path.join(a, b)]: the arguments that are not empty, joined by a
    slash and normalised. *)
Definition join (a b : jsstring) : jsstring :=
  match a, b with
  | [], [] => lit "."
  | [], _ => normalize b
  | _, [] => normalize a
  | _, _ => normalize (a ++ lit "/" ++ b)
  end.

End Path.

(** A host whose non-ASCII tables leave every unit alone, with the URL
    parser and the [path.join] above; used to run the model on concrete
    inputs. *)
Definition plainHost : Host :=
  {| upperNonAscii := fun s i => match nth_error s i with
                                 | Some c => [c] | None => [] end;
     lowerNonAscii := fun s i => match nth_error s i with
                                 | Some c => [c] | None => [] end;
     resolveURL := Url.href;
     pathJoin := Path.join |}.

(** Text without white space at either end. *)
Definition tight (u : jsstring) : bool :=
  match u with
  | [] => false
  | c :: _ => negb (isWhiteSpace c) && negb (isWhiteSpace (last u c))
  end.

(** The shape of the file name of [saveToFile]. *)
Definition responseFileName (token stamp : jsstring) : jsstring :=
  lit "chatgpt_response_" ++ token ++ lit "_" ++ stamp ++ lit ".json".

(** The units of an ISO-8601 instant as [toISOString] prints it:
    digits, ['-'], [':'], ['.'], ['T'], ['Z']. *)
Definition isIsoUnit (c : code_unit) : bool :=
  ((48 <=? c) && (c <=? 57)) || (c =? 45) || (c =? 58) || (c =? 46)
  || (c =? 84) || (c =? 90).

(** The units a file name of [saveToFile] is made of: [[a-z0-9_]],
    ['-'], ['.'], ['T'], ['Z']. *)
Definition isFileNameUnit (c : code_unit) : bool :=
  isSafeUnit c || (c =? 45) || (c =? 46) || (c =? 84) || (c =? 90).

(** How many events of a trace satisfy a test. *)
Definition count (p : Event -> bool) (t : list Event) : nat :=
  List.length (filter p t).

Definition isSessionOpened (e : Event) : bool :=
  match e with SessionRequested true => true | _ => false end.

Definition isCloseEvent (e : Event) : bool :=
  match e with SessionClosed _ => true | _ => false end.

Definition isPollEvent (e : Event) : bool :=
  match e with Polled _ _ => true | _ => false end.

(** A computation that only appends events outside [p]. *)
Definition Avoids {A} (p : Event -> bool) (m : Async A) : Prop :=
  forall s,
    match m s with
    | Resolved _ s' | Rejected _ s' =>
        exists t, trace s' = trace s ++ t /\ existsb p t = false
    | Pending => True
    end.

(** The replacement step of the time stamp, unit by unit. *)
Definition dashUnlessPlain (c : code_unit) : code_unit :=
  if (c =? 58) || (c =? 46) then 45 else c.

(** The file name [saveToFile] gives to a query at the first reading of
    the clock. *)
Definition fileNameFor {H : Host} (pf : ResponseExtraction.Platform)
           (query : jsstring) : jsstring :=
  responseFileName (ResponseExtraction.sanitizedQuery query)
                   (map dashUnlessPlain (ResponseExtraction.nowForFilename pf)).

(** Two settlements that differ by their traces only. *)
Definition alike {A} (r1 r2 : Settled A) : Prop :=
  match r1, r2 with
  | Resolved a s, Resolved b t => a = b /\ asked s = asked t
  | Rejected e s, Rejected f t => e = f /\ asked s = asked t
  | Pending, Pending => True
  | _, _ => False
  end.

(** A computation whose outcome does not depend on the trace so far. *)
Definition TraceBlind {A} (m : Async A) : Prop :=
  forall s t, asked s = asked t -> alike (m s) (m t).

(** The lines [logLinks] writes from index [index] on. *)
Fixpoint linkLines (index : Z) (links : list jsstring) : list Event :=
  match links with
  | [] => []
  | link :: rest =>
      Logged Main.namespace INFO
             (lit "  [" ++ toString (index + 1) ++ lit "] " ++ link)
      :: linkLines (index + 1) rest
  end.

(** Is a query on the command line, and not the empty string? *)
Definition queryGiven (argv : list jsstring) : bool :=
  match nth_error argv 2 with
  | Some q => truthy q
  | None => false
  end.

(** Events that are log lines or sleeps. *)
Definition isQuiet (e : Event) : bool :=
  match e with Logged _ _ _ | Slept _ => true | _ => false end.

(** The lines of the success summary of [runScraper], up to the final
    pause. *)
Definition summaryLines (h : Main.Handles)
           (r : ResponseExtraction.WorkflowResult) : list Event :=
  [ Logged Main.namespace INFO Main.rule;
    Logged Main.namespace SUCCESS (lit "SCRAPING COMPLETED SUCCESSFULLY!");
    Logged Main.namespace INFO Main.rule;
    Logged Main.namespace INFO
           (lit "Response length: "
            ++ toString (JS.length (ResponseExtraction.wf_text r))
            ++ lit " characters");
    Logged Main.namespace INFO
           (lit "Citation links found: "
            ++ toString (Z.of_nat (List.length (ResponseExtraction.wf_links r)))) ]
  ++ (if Z.of_nat (List.length (ResponseExtraction.wf_links r)) >? 0
      then linkLines 0 (ResponseExtraction.wf_links r) else [])
  ++ [ Logged Main.namespace INFO
              (lit "Saved to: " ++ ResponseExtraction.wf_filepath r) ]
  ++ (if truthy (Main.browserSessionId h)
      then [ Logged Main.namespace INFO
                    (lit "View session replay: https://browserbase.com/sessions/"
                     ++ Main.browserSessionId h) ]
      else [])
  ++ [ Logged Main.namespace INFO Main.rule;
       Logged Main.namespace INFO (lit "Keeping browser open for 5 seconds...");
       Slept 5000 ].

(** A session with more events at the end of its trace. *)
Definition extend (s : Session) (t : list Event) : Session :=
  {| asked := asked s; trace := trace s ++ t |}.

(** The banner [runScraper] logs before it sets the browser up. *)
Definition bannerLines (q : jsstring) : list Event :=
  [ Logged Main.namespace INFO Main.rule;
    Logged Main.namespace INFO (lit "ChatGPT Web Scraper Started");
    Logged Main.namespace INFO Main.rule;
    Logged Main.namespace INFO (lit "Query: " ++ dq ++ q ++ dq);
    Logged Main.namespace INFO Main.rule ].

(** What [runScraper] prints without a query. *)
Definition usageLines : list Event :=
  [ Logged Main.namespace ERROR (lit "No query provided!");
    Console Stdout
      (nl ++ lit "Usage: node index.js " ++ dq ++ lit "Your query here" ++ dq);
    Console Stdout
      (lit "Example: node index.js " ++ dq
           ++ lit "How are you doing today?" ++ dq ++ nl) ].

(** The events of the [finally] block with a browser to close, and the
    exit code it leaves. *)
Definition closingLines (closeOk : bool) : list Event :=
  if closeOk then [SessionClosed true]
  else [ SessionClosed false;
         Logged Main.namespace ERROR
                (lit "Error closing browser during cleanup") ].

Definition codeAfterClose (closeOk : bool) (exitCode : Z) : Z :=
  if closeOk then exitCode else 1.

(** A platform whose file system works, and a world in which every
    collaborator succeeds, for the given command line and page. *)
Definition workingPlatform : ResponseExtraction.Platform :=
  {| ResponseExtraction.cwd := lit "/srv";
     ResponseExtraction.nowForFilename := lit "2025-01-01T00:00:00.000Z";
     ResponseExtraction.nowForRecord := lit "2025-01-01T00:00:00.001Z";
     ResponseExtraction.mkdirSucceeds := true;
     ResponseExtraction.writeFileSucceeds := true |}.

Definition worldOf (argv : list jsstring) (page : ResponseExtraction.Page)
           (closeOk : bool) : Main.World :=
  {| Main.argv := argv;
     Main.setupSucceeds := true;
     Main.sessionId := lit "session-1";
     Main.navigationSucceeds := true;
     Main.submissionSucceeds := true;
     Main.closeSucceeds := closeOk;
     Main.page := page;
     Main.platform := workingPlatform |}.

Definition helloPage : ResponseExtraction.Page :=
  pageShowing (documentOf [Elt (turn [Elt (elem "p" [Text (lit "Hello")])])]).

(** The calls of a run, in order, with their success. *)
Definition calls (acts : list Steps.Act) : list (Steps.Call * bool) :=
  flat_map (fun a => match a with
                     | Steps.Called c ok => [(c, ok)]
                     | _ => []
                     end) acts.

(** The pauses of a run, in order. *)
Definition pauses (acts : list Steps.Act) : list Z :=
  flat_map (fun a => match a with Steps.Paused ms => [ms] | _ => [] end) acts.

(** A script of calls followed until one fails. *)
Fixpoint upToFirstFailure (ok : Steps.Call -> bool) (cs : list Steps.Call)
  : list (Steps.Call * bool) :=
  match cs with
  | [] => []
  | c :: rest =>
      if ok c then (c, true) :: upToFirstFailure ok rest else [(c, false)]
  end.

(** The page calls of a dispatch, for a query and a typing delay. *)
Definition dispatchScript (query : jsstring) (typingDelay : Z)
  : list Steps.Call :=
  [ Steps.WaitForSelector QuerySubmission.searchButton 30000;
    Steps.Click QuerySubmission.searchButton;
    Steps.WaitForSelector QuerySubmission.promptTextarea 30000;
    Steps.Click QuerySubmission.promptTextarea;
    Steps.TypeText QuerySubmission.promptTextarea query typingDelay;
    Steps.WaitForSelector QuerySubmission.submitButton 10000;
    Steps.Click QuerySubmission.submitButton ].

(** The remote calls of a set-up. *)
Definition setupScript (env : BrowserbaseSetup.Remote) : list Steps.Call :=
  [ Steps.CreateSession
      (BrowserbaseSetup.valueOf (BrowserbaseSetup.BROWSERBASE_PROJECT_ID env));
    Steps.Connect (BrowserbaseSetup.connectUrl env);
    Steps.ListPages ]
  ++ match BrowserbaseSetup.pagesOpen env with
     | O => [Steps.NewPage]
     | S _ => []
     end
  ++ [Steps.EvaluateOnNewDocument].

(** Surroundings in which every call succeeds and every draw is the
    given share of its bound. *)
Definition calmSurroundings (num den : Z) : Steps.Surroundings :=
  {| Steps.succeeds := fun _ => true;
     Steps.randomBelow := fun _ k => k * num / den |}.

(** Surroundings in which the text area never shows up. *)
Definition noTextarea : Steps.Surroundings :=
  {| Steps.succeeds := fun c =>
       match c with
       | Steps.WaitForSelector sel _ =>
           negb (JS.eqb sel QuerySubmission.promptTextarea)
       | _ => true
       end;
     Steps.randomBelow := fun _ _ => 0 |}.

(** The sum of a list of durations. *)
Definition total (l : list Z) : Z := fold_right Z.add 0 l.

(** What the callback returns when it meets no conversation turn. *)
Definition articleMissing : ResponseExtraction.ExtractionResult :=
  {| ResponseExtraction.text :=
       lit "Error: Could not find assistant response article";
     ResponseExtraction.links := [] |}.

(** The trace of an extraction that finds a text of three units and two
    links written without a path. *)
Definition bareOriginTrace : list Event :=
  [Logged ResponseExtraction.namespace (STEP 5)
          (lit "Extracting response text and citation links...");
   AwaitedSelector ResponseExtraction.articleSelector 10000 true;
   Logged ResponseExtraction.namespace INFO
          (lit "Looking for assistant response article...");
   Evaluated;
   Logged ResponseExtraction.namespace SUCCESS
          (lit "Successfully extracted 3 characters of text");
   Logged ResponseExtraction.namespace SUCCESS
          (lit "Found 2 citation link(s)");
   Logged ResponseExtraction.namespace DEBUG
          (lit "Citation links: https://a.example/, https://b.example/");
   Logged ResponseExtraction.namespace DEBUG
          (lit "Text preview: 1" ++ nl ++ lit "2...")].

(* ================================================================== *)
(** * Properties of the filename token                                 *)
(* ================================================================== *)

Section SanitizeFacts.
Context {H : Host}.

Lemma in_range (a lo : code_unit) (n : nat) :
  In a (range lo n) <-> lo <= a < lo + Z.of_nat n.
Proof.
  revert lo. induction n as [|n IH]; intros lo; simpl range.
  - simpl. lia.
  - simpl In. rewrite IH. lia.
Qed.

Lemma in_class_a_z_0_9 (a : code_unit) :
  In a class_a_z_0_9 <-> 97 <= a <= 122 \/ 48 <= a <= 57.
Proof.
  unfold class_a_z_0_9. rewrite in_app_iff, !in_range. lia.
Qed.

Lemma canonicalize_ascii (c : code_unit) :
  c < 128 -> canonicalize c = asciiUpper c.
Proof.
  intros Hc. unfold canonicalize, toUpperCase. simpl.
  unfold isAscii. destruct (Z.ltb_spec c 128); [|lia]. simpl.
  destruct (Z.leb_spec 128 c); [lia|]. reflexivity.
Qed.

Lemma canonicalize_nonascii (c : code_unit) :
  128 <= c -> 128 <= canonicalize c.
Proof.
  intros Hc. unfold canonicalize, toUpperCase. simpl.
  unfold isAscii. destruct (Z.ltb_spec c 128); [lia|].
  rewrite app_nil_r.
  destruct (upperNonAscii [c] 0%nat) as [|cu [|? ?]]; try assumption.
  destruct (Z.leb_spec 128 c); [|lia]. simpl.
  destruct (Z.ltb_spec cu 128); lia.
Qed.

(** With the [i] flag and whatever the Unicode tables say, the class
    [[^a-z0-9]] matches exactly the units outside [[A-Za-z0-9]]. *)
Lemma classMatches_not_alnum (c : code_unit) :
  classMatches true class_a_z_0_9 true c = negb (isAlnum c).
Proof.
  unfold classMatches. cbv beta iota zeta.
  change (xorb true ?b) with (negb b). f_equal.
  apply eq_true_iff_eq. rewrite existsb_exists. split.
  - intros [a [Hin Heq]]. apply in_class_a_z_0_9 in Hin.
    apply Z.eqb_eq in Heq.
    assert (Ha : canonicalize a = asciiUpper a)
      by (apply canonicalize_ascii; lia).
    destruct (Z.lt_ge_cases c 128) as [Hc|Hc].
    + rewrite (canonicalize_ascii c Hc), Ha in Heq.
      unfold asciiUpper, isAlnum in *.
      destruct (Z.leb_spec 97 a), (Z.leb_spec a 122),
        (Z.leb_spec 97 c), (Z.leb_spec c 122),
        (Z.leb_spec 65 c), (Z.leb_spec c 90),
        (Z.leb_spec 48 c), (Z.leb_spec c 57); simpl in *; lia.
    + pose proof (canonicalize_nonascii c Hc). rewrite <- Heq, Ha in *.
      unfold asciiUpper in *.
      destruct (Z.leb_spec 97 a), (Z.leb_spec a 122); simpl in *; lia.
  - intros Hal.
    assert (Hc : c < 128).
    { unfold isAlnum in Hal.
      destruct (Z.leb_spec 97 c), (Z.leb_spec c 122),
        (Z.leb_spec 65 c), (Z.leb_spec c 90),
        (Z.leb_spec 48 c), (Z.leb_spec c 57); simpl in *; try lia;
        discriminate. }
    exists (asciiLower c). split.
    + apply in_class_a_z_0_9. unfold isAlnum, asciiLower in *.
      destruct (Z.leb_spec 97 c), (Z.leb_spec c 122),
        (Z.leb_spec 65 c), (Z.leb_spec c 90),
        (Z.leb_spec 48 c), (Z.leb_spec c 57); simpl in *; try lia;
        discriminate.
    + apply Z.eqb_eq. rewrite !canonicalize_ascii.
      * unfold isAlnum, asciiLower, asciiUpper in *.
        destruct (Z.leb_spec 65 c), (Z.leb_spec c 90); simpl;
          destruct (Z.leb_spec 97 c), (Z.leb_spec c 122); simpl;
          destruct (Z.leb_spec 97 (c + 32)), (Z.leb_spec (c + 32) 122);
          simpl; lia.
      * assumption.
      * unfold asciiLower.
        destruct (Z.leb_spec 65 c), (Z.leb_spec c 90); simpl; lia.
Qed.

Lemma convertFrom_ascii (f : code_unit -> code_unit)
      (table : jsstring -> nat -> jsstring) (whole : jsstring)
      (i : nat) (s : jsstring) :
  forallb isAscii s = true -> convertFrom f table whole i s = map f s.
Proof.
  revert i. induction s as [|c s IH]; intros i Hs; simpl in *.
  - reflexivity.
  - apply andb_true_iff in Hs as [Hc Hs]. rewrite Hc. simpl.
    f_equal. apply IH, Hs.
Qed.

Lemma replaceClass_map (s : jsstring) :
  replaceClass true class_a_z_0_9 true (lit "_") s
  = map underscoreUnlessAlnum s.
Proof.
  unfold replaceClass. induction s as [|c s IH]; cbn [flat_map map].
  - reflexivity.
  - rewrite IH, classMatches_not_alnum. unfold underscoreUnlessAlnum.
    destruct (isAlnum c); reflexivity.
Qed.

Lemma underscoreUnlessAlnum_ascii (c : code_unit) :
  isAscii (underscoreUnlessAlnum c) = true.
Proof.
  unfold underscoreUnlessAlnum, isAscii.
  destruct (isAlnum c) eqn:E; [|reflexivity].
  unfold isAlnum in E. apply Z.ltb_lt.
  destruct (Z.leb_spec 97 c), (Z.leb_spec c 122),
    (Z.leb_spec 65 c), (Z.leb_spec c 90),
    (Z.leb_spec 48 c), (Z.leb_spec c 57); simpl in *; try lia;
    discriminate.
Qed.

Lemma lowered_unit_safe (c : code_unit) :
  isSafeUnit (asciiLower (underscoreUnlessAlnum c)) = true.
Proof.
  unfold underscoreUnlessAlnum.
  destruct (isAlnum c) eqn:E; [|reflexivity].
  unfold isAlnum in E. unfold isSafeUnit, asciiLower.
  destruct (Z.leb_spec 65 c), (Z.leb_spec c 90); simpl;
    destruct (Z.leb_spec 97 c), (Z.leb_spec c 122),
      (Z.leb_spec 48 c), (Z.leb_spec c 57); simpl in *;
    try discriminate; try lia;
    repeat match goal with
           | |- context [?a <=? ?b] => destruct (Z.leb_spec a b); try lia
           end; reflexivity.
Qed.

Lemma substring_prefix (s : jsstring) (n : Z) :
  0 <= n -> substring s 0 n = firstn (Z.to_nat n) s.
Proof.
  intros Hn. unfold substring, JS.length.
  set (len := Z.of_nat (List.length s)).
  assert (0 <= len) by (unfold len; lia).
  replace (Z.min (Z.max 0 0) len) with 0 by lia.
  replace (Z.max n 0) with n by lia.
  replace (Z.min 0 (Z.min n len)) with 0 by lia.
  replace (Z.max 0 (Z.min n len)) with (Z.min n len) by lia.
  simpl skipn. rewrite Z.sub_0_r.
  destruct (Z.le_ge_cases n len).
  - replace (Z.min n len) with n by lia. reflexivity.
  - replace (Z.min n len) with len by lia. unfold len.
    rewrite Nat2Z.id, firstn_all, firstn_all2; [reflexivity | lia].
Qed.

(** The token, unit by unit. *)
Lemma sanitizedQuery_map (q : jsstring) :
  ResponseExtraction.sanitizedQuery q
  = map (fun c => asciiLower (underscoreUnlessAlnum c)) (firstn 50 q).
Proof.
  unfold ResponseExtraction.sanitizedQuery, toLowerCase.
  rewrite replaceClass_map, substring_prefix by lia.
  rewrite convertFrom_ascii.
  - rewrite map_map. reflexivity.
  - rewrite forallb_forall. intros c Hc. apply in_map_iff in Hc.
    destruct Hc as [d [<- _]]. apply underscoreUnlessAlnum_ascii.
Qed.

End SanitizeFacts.

(** C3.  For every query, the sanitised token of [saveToFile] (first 50
    units, every non-alphanumeric unit replaced by an underscore, then
    lower-cased) has length at most 50 and consists of units in
    [[a-z0-9_]] only. *)
Theorem sanitizedQuery_bounded_safe {H : Host} (q : jsstring) :
  JS.length (ResponseExtraction.sanitizedQuery q) <= 50
  /\ forallb isSafeUnit (ResponseExtraction.sanitizedQuery q) = true.
Proof.
  rewrite sanitizedQuery_map. split.
  - unfold JS.length. rewrite length_map, length_firstn. lia.
  - rewrite forallb_forall. intros c Hc. apply in_map_iff in Hc.
    destruct Hc as [d [<- _]]. apply lowered_unit_safe.
Qed.

(* ================================================================== *)
(** * Properties of completion detection                               *)
(* ================================================================== *)

Section PollingFacts.
Import ResponseExtraction.

Variable page : Page.
Variable checkInterval : Z.


(** One turn when the indicator is found: stay, sleep the interval. *)
Lemma loopBody_present (v : Vars) (s : Session) :
  stopButton page (asked s) = true ->
  (loopBody page checkInterval) v s =
    Resolved {| stopButtonExists := true; checkCount := checkCount v + 1 |}
             {| asked := S (asked s);
                trace := trace s ++
                  [Polled stopButtonSelector true;
                   stillGeneratingEvent (checkCount v + 1);
                   Slept checkInterval] |}.
Proof.
  intros Hp. unfold loopBody, bind, lookupStopButton.
  rewrite Hp. cbn. rewrite <- !app_assoc. reflexivity.
Qed.

(** One turn when the indicator is gone but back at the confirmation:
    stay, sleep the interval. *)
Lemma loopBody_false_negative (v : Vars) (s : Session) :
  stopButton page (asked s) = false ->
  stopButton page (S (asked s)) = true ->
  (loopBody page checkInterval) v s =
    Resolved {| stopButtonExists := true; checkCount := checkCount v + 1 |}
             {| asked := S (S (asked s));
                trace := trace s ++
                  [Polled stopButtonSelector false;
                   Slept 500;
                   Polled stopButtonSelector true;
                   falseNegativeEvent (checkCount v + 1);
                   Slept checkInterval] |}.
Proof.
  intros Hp Hc. unfold loopBody, bind, lookupStopButton.
  rewrite Hp. cbn. rewrite Hc. cbn. rewrite <- !app_assoc. reflexivity.
Qed.

(** One turn when the indicator is gone at the poll and at the
    confirmation: leave the loop, no further sleep. *)
Lemma loopBody_confirmed (v : Vars) (s : Session) :
  stopButton page (asked s) = false ->
  stopButton page (S (asked s)) = false ->
  (loopBody page checkInterval) v s =
    Resolved {| stopButtonExists := false; checkCount := checkCount v + 1 |}
             {| asked := S (S (asked s));
                trace := trace s ++
                  [Polled stopButtonSelector false;
                   Slept 500;
                   Polled stopButtonSelector false;
                   completionEvent] |}.
Proof.
  intros Hp Hc. unfold loopBody, bind, lookupStopButton.
  rewrite Hp. cbn. rewrite Hc. cbn. rewrite <- !app_assoc. reflexivity.
Qed.

(** The three cases of a turn. *)
Lemma turn_cases (s : Session) :
  stopButton page (asked s) = true
  \/ (stopButton page (asked s) = false
      /\ stopButton page (S (asked s)) = true)
  \/ (stopButton page (asked s) = false
      /\ stopButton page (S (asked s)) = false).
Proof.
  destruct (stopButton page (asked s)); [now left|right].
  destruct (stopButton page (S (asked s))); [now left|now right].
Qed.

Lemma while_step (fuel : nat) (v : Vars) (s : Session) :
  stopButtonExists v = true ->
  while (S fuel) (loopBody page checkInterval) v s =
    match (loopBody page checkInterval) v s with
    | Resolved v' s' => while fuel (loopBody page checkInterval) v' s'
    | Rejected e s' => Rejected e s'
    | Pending => Pending
    end.
Proof. intros Hv. simpl. rewrite Hv. reflexivity. Qed.

Lemma while_done (fuel : nat) (v : Vars) (s : Session) :
  stopButtonExists v = false -> while fuel (loopBody page checkInterval) v s = Resolved v s.
Proof. intros Hv. destruct fuel; simpl; rewrite Hv; reflexivity. Qed.

(** While the indicator is there at every lookup the loop is still
    running, whatever the number of turns followed. *)
Lemma while_present_forever (fuel : nat) (v : Vars) (s : Session) :
  (forall n, stopButton page n = true) ->
  stopButtonExists v = true ->
  while fuel (loopBody page checkInterval) v s = Pending.
Proof.
  intros Hall. revert v s. induction fuel as [|fuel IH]; intros v s Hv.
  - simpl. rewrite Hv. reflexivity.
  - rewrite while_step by assumption.
    rewrite loopBody_present by apply Hall. apply IH. reflexivity.
Qed.

(** When the loop is left, the last two lookups both found the
    indicator gone, with the 500ms pause between them. *)
Lemma while_exit (fuel : nat) (v v' : Vars) (s s' : Session) :
  stopButtonExists v = true ->
  while fuel (loopBody page checkInterval) v s = Resolved v' s' ->
  stopButtonExists v' = false
  /\ (exists pre,
         trace s' = pre ++ [Polled stopButtonSelector false;
                            Slept 500;
                            Polled stopButtonSelector false;
                            completionEvent])
  /\ (exists i, asked s' = S (S i) /\ (asked s <= i)%nat
                /\ stopButton page i = false
                /\ stopButton page (S i) = false).
Proof.
  revert v s. induction fuel as [|fuel IH]; intros v s Hv Hrun.
  - simpl in Hrun. rewrite Hv in Hrun. discriminate.
  - rewrite while_step in Hrun by assumption.
    destruct (turn_cases s) as [Hp|[[Hp Hc]|[Hp Hc]]].
    + rewrite loopBody_present in Hrun by assumption.
      apply IH in Hrun; [|reflexivity].
      destruct Hrun as [Hv' [Hpre [i [Ha [Hle Hff]]]]]. simpl in Hle.
      repeat split; try assumption. exists i. repeat split; try tauto. lia.
    + rewrite loopBody_false_negative in Hrun by assumption.
      apply IH in Hrun; [|reflexivity].
      destruct Hrun as [Hv' [Hpre [i [Ha [Hle Hff]]]]]. simpl in Hle.
      repeat split; try assumption. exists i. repeat split; try tauto. lia.
    + rewrite loopBody_confirmed in Hrun by assumption.
      rewrite while_done in Hrun by reflexivity.
      injection Hrun as <- <-. simpl. repeat split.
      * eexists. reflexivity.
      * exists (asked s). repeat split; auto.
Qed.

(** Two consecutive absent lookups not yet consumed make the loop
    stop. *)
Lemma while_reaches_pair (i : nat) :
  stopButton page i = false -> stopButton page (S i) = false ->
  forall (d : nat) (v : Vars) (s : Session),
    stopButtonExists v = true ->
    (asked s + d = i)%nat ->
    exists fuel v' s', while fuel (loopBody page checkInterval) v s = Resolved v' s'.
Proof.
  intros Hi HSi d. induction d as [d IH] using lt_wf_ind.
  intros v s Hv Hd.
  destruct (turn_cases s) as [Hp|[[Hp Hc]|[Hp Hc]]].
  - assert (d <> 0)%nat.
    { intros ->. rewrite Nat.add_0_r in Hd. congruence. }
    destruct (IH (d - 1)%nat ltac:(lia)
                 {| stopButtonExists := true; checkCount := checkCount v + 1 |}
                 {| asked := S (asked s);
                    trace := trace s ++
                      [Polled stopButtonSelector true;
                       stillGeneratingEvent (checkCount v + 1);
                       Slept checkInterval] |}
                 eq_refl ltac:(simpl; lia)) as [fuel [v' [s' Hrun]]].
    exists (S fuel), v', s'.
    rewrite while_step, loopBody_present by assumption. exact Hrun.
  - assert (d <> 0)%nat.
    { intros ->. rewrite Nat.add_0_r in Hd. subst i. congruence. }
    assert (d <> 1)%nat.
    { intros ->. replace i with (S (asked s)) in Hi by lia. congruence. }
    destruct (IH (d - 2)%nat ltac:(lia)
                 {| stopButtonExists := true; checkCount := checkCount v + 1 |}
                 {| asked := S (S (asked s));
                    trace := trace s ++
                      [Polled stopButtonSelector false;
                       Slept 500;
                       Polled stopButtonSelector true;
                       falseNegativeEvent (checkCount v + 1);
                       Slept checkInterval] |}
                 eq_refl ltac:(simpl; lia)) as [fuel [v' [s' Hrun]]].
    exists (S fuel), v', s'.
    rewrite while_step, loopBody_false_negative by assumption. exact Hrun.
  - exists 1%nat. eexists. eexists.
    rewrite while_step, loopBody_confirmed by assumption.
    apply while_done. reflexivity.
Qed.

(** More fuel does not change a settled loop. *)
Lemma while_more_fuel (fuel extra : nat) (v v' : Vars) (s s' : Session) :
  while fuel (loopBody page checkInterval) v s = Resolved v' s' ->
  while (fuel + extra) (loopBody page checkInterval) v s = Resolved v' s'.
Proof.
  revert v s. induction fuel as [|fuel IH]; intros v s Hrun.
  - simpl in Hrun. destruct (stopButtonExists v) eqn:Hv; [discriminate|].
    rewrite while_done by assumption. exact Hrun.
  - destruct (stopButtonExists v) eqn:Hv.
    + rewrite while_step in Hrun by assumption.
      change (S fuel + extra)%nat with (S (fuel + extra)).
      rewrite while_step by assumption.
      destruct ((loopBody page checkInterval) v s) as [v1 s1|e s1|]; try discriminate.
      apply IH, Hrun.
    + rewrite while_done in * by assumption. exact Hrun.
Qed.

(** With the indicator there for exactly the next [n] lookups, [n]
    turns are not enough and [n + 1] are. *)
Lemma while_counts (n : nat) :
  forall (v : Vars) (s : Session),
    stopButtonExists v = true ->
    (forall i, stopButton page i = Nat.ltb i (asked s + n)) ->
    while n (loopBody page checkInterval) v s = Pending
    /\ exists v' s',
        while (S n) (loopBody page checkInterval) v s = Resolved v' s'.
Proof.
  induction n as [|n IH]; intros v s Hv Hpage.
  - split.
    + simpl. rewrite Hv. reflexivity.
    + eexists. eexists. rewrite while_step by assumption.
      rewrite loopBody_confirmed.
      * apply while_done. reflexivity.
      * rewrite Hpage. apply Nat.ltb_ge. lia.
      * rewrite Hpage. apply Nat.ltb_ge. lia.
  - assert (Hp : stopButton page (asked s) = true).
    { rewrite Hpage. apply Nat.ltb_lt. lia. }
    rewrite !while_step by assumption.
    rewrite loopBody_present by assumption.
    apply IH; [reflexivity|].
    intros i. rewrite Hpage. cbn [asked]. f_equal. lia.
Qed.

End PollingFacts.

Section WaitFacts.
Import ResponseExtraction.

Variable page : Page.
Variable checkInterval : Z.

(** The function around its loop: two log lines before, the settle
    delay between two log lines after. *)
Lemma waitForResponseComplete_unfold (fuel : nat) (s : Session) :
  waitForResponseComplete page checkInterval fuel s =
    match while fuel (loopBody page checkInterval)
                {| stopButtonExists := true; checkCount := 0 |}
                {| asked := asked s;
                   trace := trace s ++
                     [Logged namespace (STEP 4)
                             (lit "Monitoring response generation...");
                      Logged namespace INFO
                             (lit "Checking for stop button every "
                              ++ toString checkInterval ++ lit "ms")] |}
    with
    | Resolved _ s1 =>
        Resolved tt
          {| asked := asked s1;
             trace := trace s1 ++
               [Logged namespace DEBUG
                  (lit "Waiting additional 2 seconds for content to fully render...");
                Slept 2000;
                Logged namespace SUCCESS (lit "Response monitoring completed")] |}
    | Rejected e s1 =>
        Rejected e
          {| asked := asked s1;
             trace := trace s1 ++
               [Logged namespace ERROR
                       (lit "Error during response monitoring")] |}
    | Pending => Pending
    end.
Proof.
  unfold waitForResponseComplete, tryCatch, bind, log, delay, emit, throw.
  cbn [asked trace]. rewrite <- !app_assoc. cbn [app].
  destruct (while fuel _ _ _) as [v1 s1|e s1|]; cbn [asked trace].
  - rewrite <- !app_assoc. reflexivity.
  - reflexivity.
  - reflexivity.
Qed.

End WaitFacts.

(** C1.  Completion detection, for every trace of readings of the
    indicator: (1) while the indicator is there at every lookup the loop
    never reaches COMPLETE; (2) a turn that leaves GENERATING has seen the
    indicator gone at the poll and gone again at the confirmation, 500ms
    later; (3) whenever the loop is left, its last events are these two
    absent lookups with the 500ms pause between them; (4) a confirmation
    that finds the indicator back keeps the loop in GENERATING, which
    sleeps the poll interval. *)
Theorem completion_requires_confirmed_absence
        (page : ResponseExtraction.Page) (checkInterval : Z) :
  let body := ResponseExtraction.loopBody page checkInterval in
  let sel := ResponseExtraction.stopButtonSelector in
  let absentTwice :=
    [Polled sel false; Slept 500; Polled sel false;
     ResponseExtraction.completionEvent] in
  ((forall n, ResponseExtraction.stopButton page n = true) ->
   forall fuel v s,
     ResponseExtraction.phase v = ResponseExtraction.GENERATING ->
     ResponseExtraction.while fuel body v s = Pending)
  /\ (forall v s v' s',
        body v s = Resolved v' s' ->
        ResponseExtraction.phase v' = ResponseExtraction.COMPLETE ->
        ResponseExtraction.stopButton page (asked s) = false
        /\ ResponseExtraction.stopButton page (S (asked s)) = false
        /\ trace s' = trace s ++ absentTwice)
  /\ (forall fuel v s v' s',
        ResponseExtraction.phase v = ResponseExtraction.GENERATING ->
        ResponseExtraction.while fuel body v s = Resolved v' s' ->
        ResponseExtraction.phase v' = ResponseExtraction.COMPLETE
        /\ (exists pre, trace s' = pre ++ absentTwice)
        /\ (exists i, asked s' = S (S i) /\ (asked s <= i)%nat
                      /\ ResponseExtraction.stopButton page i = false
                      /\ ResponseExtraction.stopButton page (S i) = false))
  /\ (forall v s,
        ResponseExtraction.stopButton page (asked s) = false ->
        ResponseExtraction.stopButton page (S (asked s)) = true ->
        exists v' s',
          body v s = Resolved v' s'
          /\ ResponseExtraction.phase v' = ResponseExtraction.GENERATING
          /\ trace s' = trace s ++
               [Polled sel false; Slept 500; Polled sel true;
                ResponseExtraction.falseNegativeEvent
                  (ResponseExtraction.checkCount v + 1);
                Slept checkInterval]).
Proof.
  cbv zeta.
  assert (Hgen : forall v, ResponseExtraction.phase v
                           = ResponseExtraction.GENERATING ->
                           ResponseExtraction.stopButtonExists v = true).
  { intros v. unfold ResponseExtraction.phase.
    destruct (ResponseExtraction.stopButtonExists v); [reflexivity|discriminate]. }
  repeat apply conj.
  - intros Hall fuel v s Hv. apply while_present_forever; auto.
  - intros v s v' s' Hturn Hv'.
    destruct (turn_cases page s) as [Hp|[[Hp Hc]|[Hp Hc]]].
    + rewrite loopBody_present in Hturn by assumption.
      injection Hturn as <- <-. discriminate.
    + rewrite loopBody_false_negative in Hturn by assumption.
      injection Hturn as <- <-. discriminate.
    + rewrite loopBody_confirmed in Hturn by assumption.
      injection Hturn as <- <-. auto.
  - intros fuel v s v' s' Hv Hrun.
    destruct (while_exit page checkInterval fuel v v' s s' (Hgen v Hv) Hrun)
      as [Hv' [Hpre Hi]].
    repeat split; try assumption.
    unfold ResponseExtraction.phase. rewrite Hv'. reflexivity.
  - intros v s Hp Hc. eexists. eexists.
    rewrite loopBody_false_negative by assumption.
    repeat split.
Qed.

(** Running instance of C1: the indicator is there at the first two
    lookups and gone afterwards; then gone once and back. *)
Lemma completion_requires_confirmed_absence_witness :
  (exists v' s',
      ResponseExtraction.while 3
        (ResponseExtraction.loopBody
           (pageWithIndicator (fun n => Nat.ltb n 2)) 1000)
        {| ResponseExtraction.stopButtonExists := true;
           ResponseExtraction.checkCount := 0 |} fresh
      = Resolved v' s'
      /\ ResponseExtraction.phase v' = ResponseExtraction.COMPLETE
      /\ asked s' = 4%nat)
  /\ ResponseExtraction.while 50
        (ResponseExtraction.loopBody (pageWithIndicator (fun _ => true)) 1000)
        {| ResponseExtraction.stopButtonExists := true;
           ResponseExtraction.checkCount := 0 |} fresh
     = Pending
  /\ (exists v' s',
        ResponseExtraction.loopBody
          (pageWithIndicator (fun n => Nat.eqb n 1)) 1000
          {| ResponseExtraction.stopButtonExists := true;
             ResponseExtraction.checkCount := 0 |} fresh
        = Resolved v' s'
        /\ ResponseExtraction.phase v' = ResponseExtraction.GENERATING).
Proof.
  split; [|split].
  - eexists. eexists. split; [reflexivity|].
    destruct (completion_requires_confirmed_absence
                (pageWithIndicator (fun n => Nat.ltb n 2)) 1000)
      as [_ [_ [Hexit _]]].
    destruct (Hexit 3%nat
                    {| ResponseExtraction.stopButtonExists := true;
                       ResponseExtraction.checkCount := 0 |}
                    fresh _ _ eq_refl eq_refl) as [Hphase _].
    split; [exact Hphase | reflexivity].
  - destruct (completion_requires_confirmed_absence
                (pageWithIndicator (fun _ => true)) 1000)
      as [Hnever _].
    apply Hnever; reflexivity.
  - destruct (completion_requires_confirmed_absence
                (pageWithIndicator (fun n => Nat.eqb n 1)) 1000)
      as [_ [_ [_ Hback]]].
    destruct (Hback {| ResponseExtraction.stopButtonExists := true;
                       ResponseExtraction.checkCount := 0 |} fresh
                    eq_refl eq_refl) as [v' [s' [Hturn [Hphase _]]]].
    exists v', s'. split; assumption.
Defined.

(** C8.  The loop has no bound on its turns and no timeout.
    (1) [waitForResponseComplete] returns exactly when the trace of
    readings has two consecutive absent readings; (2) when it returns,
    the last two lookups it made, the poll and its 500ms confirmation,
    both found the indicator gone; (3) with the indicator there at every
    lookup it never returns; (4) for every number of turns there is a
    trace on which that many turns are not enough and the loop still
    completes later. *)
Theorem polling_loop_unbounded (checkInterval : Z) :
  (forall page,
      (exists fuel s,
          ResponseExtraction.waitForResponseComplete page checkInterval fuel
            fresh = Resolved tt s)
      <-> (exists i, ResponseExtraction.stopButton page i = false
                     /\ ResponseExtraction.stopButton page (S i) = false))
  /\ (forall page fuel s,
        ResponseExtraction.waitForResponseComplete page checkInterval fuel
          fresh = Resolved tt s ->
        exists i, asked s = S (S i)
                  /\ ResponseExtraction.stopButton page i = false
                  /\ ResponseExtraction.stopButton page (S i) = false)
  /\ (forall page,
        (forall n, ResponseExtraction.stopButton page n = true) ->
        forall fuel,
          ResponseExtraction.waitForResponseComplete page checkInterval fuel
            fresh = Pending)
  /\ (forall n, exists page,
        ResponseExtraction.waitForResponseComplete page checkInterval n
          fresh = Pending
        /\ exists s,
          ResponseExtraction.waitForResponseComplete page checkInterval (S n)
            fresh = Resolved tt s).
Proof.
  assert (Hreturn : forall page fuel s,
             ResponseExtraction.waitForResponseComplete page checkInterval fuel
               fresh = Resolved tt s ->
             exists i, asked s = S (S i)
                       /\ ResponseExtraction.stopButton page i = false
                       /\ ResponseExtraction.stopButton page (S i) = false).
  { intros page fuel s Hrun.
    rewrite waitForResponseComplete_unfold in Hrun.
    destruct (ResponseExtraction.while fuel _ _ _) as [v1 s1|e s1|] eqn:Hloop;
      try discriminate.
    apply while_exit in Hloop; [|reflexivity].
    destruct Hloop as [_ [_ [i [Ha [_ [Hi HSi]]]]]].
    injection Hrun as <-. exists i. cbn [asked]. auto. }
  repeat apply conj.
  - intros page. split.
    + intros [fuel [s Hrun]].
      destruct (Hreturn page fuel s Hrun) as [i [_ Hff]]. exists i. exact Hff.
    + intros [i [Hi HSi]].
      destruct (while_reaches_pair page checkInterval i Hi HSi i
                  {| ResponseExtraction.stopButtonExists := true;
                     ResponseExtraction.checkCount := 0 |}
                  {| asked := 0;
                     trace := [] ++
                       [Logged ResponseExtraction.namespace (STEP 4)
                               (lit "Monitoring response generation...");
                        Logged ResponseExtraction.namespace INFO
                               (lit "Checking for stop button every "
                                ++ toString checkInterval ++ lit "ms")] |}
                  eq_refl eq_refl) as [fuel [v' [s' Hloop]]].
      exists fuel. eexists.
      rewrite waitForResponseComplete_unfold. cbn [asked trace fresh].
      rewrite Hloop. reflexivity.
  - exact Hreturn.
  - intros page Hall fuel.
    rewrite waitForResponseComplete_unfold.
    rewrite while_present_forever; auto.
  - intros n. exists (pageWithIndicator (fun i => Nat.ltb i n)).
    rewrite !waitForResponseComplete_unfold.
    match goal with
    | |- context [ResponseExtraction.while n ?b ?v ?s] =>
        destruct (while_counts (pageWithIndicator (fun i => Nat.ltb i n))
                               checkInterval n v s eq_refl)
          as [Hpending [v' [s' Hdone]]]
    end.
    { intros i. reflexivity. }
    rewrite Hpending, Hdone. split; [reflexivity|]. eexists. reflexivity.
Qed.

(** Running instance of C8. *)
Lemma polling_loop_unbounded_witness :
  ResponseExtraction.waitForResponseComplete
    (pageWithIndicator (fun _ => true)) 1000 200 fresh = Pending
  /\ (exists i, (4 = S (S i))%nat
                /\ Nat.ltb i 2 = false /\ Nat.ltb (S i) 2 = false).
Proof.
  destruct (polling_loop_unbounded 1000) as [_ [Hlast [Hnever _]]].
  split.
  - apply Hnever. reflexivity.
  - apply (Hlast (pageWithIndicator (fun n => Nat.ltb n 2)) 3%nat
                 {| asked := 4; trace := twoTickTrace |}).
    vm_compute. reflexivity.
Defined.

(* ================================================================== *)
(** * Silent computations                                              *)
(* ================================================================== *)

Section SilentFacts.

Lemma silent_ret {A} (a : A) : Silent (ret a).
Proof. intros s. simpl. split; [reflexivity|]. exists []. now rewrite app_nil_r. Qed.

Lemma silent_throw {A} (e : Error) : Silent (@throw A e).
Proof. intros s. simpl. split; [reflexivity|]. exists []. now rewrite app_nil_r. Qed.

Lemma silent_emit (e : Event) : sleeps [e] = [] -> Silent (emit e).
Proof. intros He s. simpl. split; [reflexivity|]. exists [e]. auto. Qed.

Lemma silent_log (ns : jsstring) (l : Level) (msg : jsstring) :
  Silent (log ns l msg).
Proof. apply silent_emit. reflexivity. Qed.

Lemma silent_attempt (ok : bool) (e : Event) (err : Error) :
  sleeps [e] = [] -> Silent (attempt ok e err).
Proof.
  intros He s. unfold attempt.
  destruct ok; simpl; (split; [reflexivity|]); exists [e]; auto.
Qed.

Lemma sleeps_app (t u : list Event) : sleeps (t ++ u) = sleeps t ++ sleeps u.
Proof. unfold sleeps. apply flat_map_app. Qed.

Lemma silent_bind {A B} (m : Async A) (k : A -> Async B) :
  Silent m -> (forall a, Silent (k a)) -> Silent (bind m k).
Proof.
  intros Hm Hk s. unfold bind. specialize (Hm s).
  destruct (m s) as [a s1|e s1|]; [| exact Hm | exact Hm].
  destruct Hm as [Ha [t [Ht Hs]]]. specialize (Hk a s1).
  destruct (k a s1) as [b s2|e s2|]; [| | exact Hk];
    destruct Hk as [Ha2 [t2 [Ht2 Hs2]]];
    (split; [congruence|]); exists (t ++ t2);
    rewrite Ht2, Ht, app_assoc, sleeps_app, Hs, Hs2; auto.
Qed.

Lemma silent_tryCatch {A} (m : Async A) (h : Error -> Async A) :
  Silent m -> (forall e, Silent (h e)) -> Silent (tryCatch m h).
Proof.
  intros Hm Hh s. unfold tryCatch. specialize (Hm s).
  destruct (m s) as [a s1|e s1|]; [exact Hm | | exact Hm].
  destruct Hm as [Ha [t [Ht Hs]]]. specialize (Hh e s1).
  destruct (h e s1) as [b s2|e2 s2|]; [| | exact Hh];
    destruct Hh as [Ha2 [t2 [Ht2 Hs2]]];
    (split; [congruence|]); exists (t ++ t2);
    rewrite Ht2, Ht, app_assoc, sleeps_app, Hs, Hs2; auto.
Qed.

End SilentFacts.

Ltac silent :=
  repeat first
    [ apply silent_log
    | apply silent_ret
    | apply silent_throw
    | apply silent_emit; reflexivity
    | apply silent_attempt; reflexivity
    | apply silent_bind; [|intro]
    | apply silent_tryCatch; [|intro]
    | match goal with
      | |- Silent (if ?c then _ else _) => destruct c
      | |- Silent (match ?c with _ => _ end) => destruct c
      end ].

Section WorkflowFacts.
Import ResponseExtraction.
Context {H : Host}.

Lemma silent_extraction_after_step (page : Page) :
  Silent
    (tryCatch
       (waitForSelector page articleSelector 10000 ;;;
        log namespace INFO (lit "Looking for assistant response article...") ;;;
        emit Evaluated ;;;
        let responseData := evaluateInPage (document page) in
        if negb (truthy (text responseData))
           || JS.eqb (trim (text responseData)) []
        then
          log namespace WARN (lit "No text content extracted from response") ;;;
          ret {| text := lit "Error: Empty response extracted"; links := [] |}
        else
          log namespace SUCCESS
              (lit "Successfully extracted "
               ++ toString (JS.length (text responseData))
               ++ lit " characters of text") ;;;
          log namespace SUCCESS
              (lit "Found "
               ++ toString (Z.of_nat (List.length (links responseData)))
               ++ lit " citation link(s)") ;;;
          (if Z.of_nat (List.length (links responseData)) >? 0 then
             log namespace DEBUG
                 (lit "Citation links: "
                  ++ join (lit ", ") (links responseData))
           else ret tt) ;;;
          log namespace DEBUG
              (lit "Text preview: "
               ++ substring (text responseData) 0 100 ++ lit "...") ;;;
          ret responseData)
       (fun error =>
          log namespace ERROR (lit "Failed to extract response text") ;;;
          throw error)).
Proof. unfold waitForSelector. cbv zeta. silent. Qed.

(** Extraction starts with its STEP 5 line and never sleeps. *)
Lemma extractResponseText_trace (page : Page) (s : Session) :
  match extractResponseText page s with
  | Resolved _ s' | Rejected _ s' =>
      asked s' = asked s
      /\ exists t,
          trace s' = trace s ++
            Logged namespace (STEP 5)
                   (lit "Extracting response text and citation links...")
            :: t
          /\ sleeps t = []
  | Pending => False
  end.
Proof.
  pose proof (silent_extraction_after_step page
                {| asked := asked s;
                   trace := trace s ++
                     [Logged namespace (STEP 5)
                        (lit "Extracting response text and citation links...")] |})
    as Hs.
  red in Hs. cbn [asked trace] in Hs.
  match type of Hs with
  | match ?x with _ => _ end =>
      change x with (extractResponseText page s) in Hs
  end.
  destruct (extractResponseText page s) as [r s1|e s1|]; [| |exact Hs];
    destruct Hs as [Ha [t [Ht Hsl]]]; (split; [exact Ha|]); exists t;
    rewrite Ht, <- app_assoc; auto.
Qed.

Lemma silent_saveToFile (pf : Platform) (text : jsstring)
      (links : list jsstring) (query outputDir : jsstring) :
  Silent (saveToFile pf text links query outputDir).
Proof. unfold saveToFile. cbv zeta. silent. Qed.

(** The run of the end-to-end scenario, from any session that has not
    looked the indicator up yet. *)
Lemma waitForResponseComplete_two_ticks (page : Page) (fuel : nat)
      (s : Session) :
  asked s = 0%nat ->
  stopButton page 0 = true ->
  stopButton page 1 = true ->
  (forall n, (2 <= n)%nat -> stopButton page n = false) ->
  (3 <= fuel)%nat ->
  waitForResponseComplete page 1000 fuel s
  = Resolved tt {| asked := 4; trace := trace s ++ twoTickTrace |}.
Proof.
  intros Hs H0 H1 Hrest Hfuel.
  rewrite waitForResponseComplete_unfold.
  replace fuel with (3 + (fuel - 3))%nat by lia.
  erewrite while_more_fuel.
  2:{ rewrite while_step by reflexivity.
      rewrite loopBody_present by (cbn [asked]; rewrite Hs; exact H0).
      rewrite while_step by reflexivity.
      rewrite loopBody_present by (cbn [asked]; rewrite Hs; exact H1).
      rewrite while_step by reflexivity.
      rewrite loopBody_confirmed
        by (cbn [asked]; rewrite Hs; apply Hrest; lia).
      apply while_done. reflexivity. }
  cbn [asked trace]. rewrite Hs. rewrite <- !app_assoc. reflexivity.
Qed.

End WorkflowFacts.

(** C2.  End to end: with the indicator there at exactly the first two
    polls and gone at every later lookup, a poll interval of 1000ms and
    the 500ms debounce, [waitForResponseComplete] sleeps 1000ms twice,
    pauses 500ms once, reaches COMPLETE, then sleeps the 2000ms settle
    delay; in [extractAndSaveResponse] the first event of extraction
    comes right after, and nothing sleeps from there on. *)
Theorem two_ticks_then_complete {H : Host}
        (page : ResponseExtraction.Page) (fuel : nat) :
  ResponseExtraction.stopButton page 0 = true ->
  ResponseExtraction.stopButton page 1 = true ->
  (forall n, (2 <= n)%nat -> ResponseExtraction.stopButton page n = false) ->
  (3 <= fuel)%nat ->
  ResponseExtraction.waitForResponseComplete page 1000 fuel fresh
  = Resolved tt {| asked := 4; trace := twoTickTrace |}
  /\ sleeps twoTickTrace = [1000; 1000; 500; 2000]
  /\ forall pf query,
      let run :=
        ResponseExtraction.extractAndSaveResponse page pf query 1000 fuel
          fresh in
      run <> Pending
      /\ exists rest,
          settledTrace run =
            Logged ResponseExtraction.namespace INFO
                   (lit "Starting response extraction workflow...")
            :: twoTickTrace
            ++ Logged ResponseExtraction.namespace (STEP 5)
                      (lit "Extracting response text and citation links...")
            :: rest
          /\ sleeps rest = [].
Proof.
  intros H0 H1 Hrest Hfuel. repeat apply conj.
  - apply (waitForResponseComplete_two_ticks page fuel fresh); auto.
  - reflexivity.
  - intros pf query. cbv zeta.
    unfold ResponseExtraction.extractAndSaveResponse.
    unfold tryCatch, bind, log, emit, ret, throw.
    rewrite (waitForResponseComplete_two_ticks page fuel); auto.
    cbn [asked trace fresh app].
    match goal with
    | |- context [ResponseExtraction.extractResponseText page ?s] =>
        pose proof (extractResponseText_trace page s) as Hx;
        destruct (ResponseExtraction.extractResponseText page s)
          as [r s1|e s1|]; [| |contradiction]
    end.
    + destruct Hx as [_ [t [Ht Hsl]]]. cbn [trace] in Ht.
      pose proof (silent_saveToFile pf (ResponseExtraction.text r)
                    (ResponseExtraction.links r) query (lit "output") s1)
        as Hsave.
      destruct (ResponseExtraction.saveToFile _ _ _ _ _ s1)
        as [fp s2|e s2|]; [| |contradiction];
        destruct Hsave as [_ [t2 [Ht2 Hsl2]]];
        (split; [discriminate|]); cbn [settledTrace trace];
        eexists; (split;
          [ rewrite Ht2, Ht; cbn [app]; rewrite <- !app_assoc;
            cbn [app]; reflexivity
          | rewrite !sleeps_app, Hsl, Hsl2; reflexivity ]).
    + destruct Hx as [_ [t [Ht Hsl]]]. cbn [trace] in Ht.
      split; [discriminate|]. cbn [settledTrace trace].
      eexists. split.
      * rewrite Ht. cbn [app]. rewrite <- !app_assoc. cbn [app]. reflexivity.
      * rewrite !sleeps_app, Hsl. reflexivity.
Qed.

(** Running instance of C2. *)
Lemma two_ticks_then_complete_witness :
  ResponseExtraction.waitForResponseComplete
    (pageWithIndicator (fun n => Nat.ltb n 2)) 1000 3 fresh
  = Resolved tt {| asked := 4; trace := twoTickTrace |}.
Proof.
  apply (@two_ticks_then_complete plainHost
           (pageWithIndicator (fun n => Nat.ltb n 2)) 3).
  - reflexivity.
  - reflexivity.
  - intros n Hn. simpl. apply Nat.ltb_ge. lia.
  - lia.
Defined.

(* ================================================================== *)
(** * Properties of the orchestrator                                   *)
(* ================================================================== *)

(** C9.  Invoked without a query argument, the process writes the usage
    message to standard output and exits with code 1; no browsing
    session is requested and nothing is written to the file system. *)
Theorem missing_query_exits_with_usage {H : Host}
        (w : Main.World) (fuel : nat) :
  nth_error (Main.argv w) 2 = None ->
  let usage :=
    [ Console Stdout
        (nl ++ lit "Usage: node index.js " ++ dq ++ lit "Your query here"
            ++ dq);
      Console Stdout
        (lit "Example: node index.js " ++ dq
             ++ lit "How are you doing today?" ++ dq ++ nl) ] in
  let printed :=
    Logged Main.namespace ERROR (lit "No query provided!") :: usage in
  Main.runScraper w fuel fresh = Resolved 1 {| asked := 0; trace := printed |}
  /\ Main.main w fuel fresh
     = Resolved tt {| asked := 0; trace := printed ++ [Exited 1] |}
  /\ existsb isSessionEvent (printed ++ [Exited 1]) = false
  /\ existsb isFileEvent (printed ++ [Exited 1]) = false.
Proof.
  intros Hargv. cbv zeta.
  assert (Hrun : Main.runScraper w fuel fresh
                 = Resolved 1
                     {| asked := 0;
                        trace :=
                          [Logged Main.namespace ERROR (lit "No query provided!");
                           Console Stdout
                             (nl ++ lit "Usage: node index.js " ++ dq
                                 ++ lit "Your query here" ++ dq);
                           Console Stdout
                             (lit "Example: node index.js " ++ dq
                                  ++ lit "How are you doing today?" ++ dq
                                  ++ nl)] |}).
  { unfold Main.runScraper, Main.acquire. rewrite Hargv. reflexivity. }
  repeat apply conj.
  - exact Hrun.
  - unfold Main.main, tryCatch, bind. rewrite Hrun. reflexivity.
  - reflexivity.
  - reflexivity.
Qed.

(** Running instance of C9: only the interpreter and the script on the
    command line. *)
Lemma missing_query_exits_with_usage_witness :
  exists s,
    Main.main (H := plainHost)
      {| Main.argv := [lit "node"; lit "index_remote.js"];
         Main.setupSucceeds := true;
         Main.sessionId := lit "session-1";
         Main.navigationSucceeds := true;
         Main.submissionSucceeds := true;
         Main.closeSucceeds := true;
         Main.page := pageWithIndicator (fun _ => false);
         Main.platform :=
           {| ResponseExtraction.cwd := lit "/srv";
              ResponseExtraction.nowForFilename := lit "2025-01-01T00:00:00.000Z";
              ResponseExtraction.nowForRecord := lit "2025-01-01T00:00:00.001Z";
              ResponseExtraction.mkdirSucceeds := true;
              ResponseExtraction.writeFileSucceeds := true |} |}
      5 fresh = Resolved tt s
    /\ In (Exited 1) (trace s).
Proof.
  eexists. split.
  - apply (@missing_query_exits_with_usage plainHost). reflexivity.
  - simpl. tauto.
Defined.

(* ================================================================== *)
(** * Properties of strings                                            *)
(* ================================================================== *)

Section StringFacts.

Lemma eqb_eq (s t : jsstring) : JS.eqb s t = true <-> s = t.
Proof.
  revert t. induction s as [|c s IH]; intros [|d t]; simpl;
    try (split; [discriminate|congruence]).
  - tauto.
  - rewrite andb_true_iff, Z.eqb_eq, IH. split.
    + intros [-> ->]. reflexivity.
    + intros E. injection E as -> ->. auto.
Qed.

Lemma eqb_refl (s : jsstring) : JS.eqb s s = true.
Proof. apply eqb_eq. reflexivity. Qed.

Lemma truthy_iff (s : jsstring) : truthy s = true <-> s <> [].
Proof. destruct s; simpl; split; congruence. Qed.

Lemma trimStart_white (ws s : jsstring) :
  allWhite ws = true -> trimStart (ws ++ s) = trimStart s.
Proof.
  induction ws as [|c ws IH]; simpl; intros Hws; [reflexivity|].
  apply andb_true_iff in Hws as [Hc Hws]. rewrite Hc. auto.
Qed.

Lemma trimStart_all_white (s : jsstring) :
  allWhite s = true -> trimStart s = [].
Proof.
  intros Hs. rewrite <- (app_nil_r s). rewrite trimStart_white; auto.
Qed.

Lemma trimStart_nil (s : jsstring) : trimStart s = [] -> allWhite s = true.
Proof.
  induction s as [|c s IH]; simpl; [reflexivity|].
  destruct (isWhiteSpace c); [exact IH | discriminate].
Qed.

(** The result of [trimStart] is empty or starts with a unit that is
    not white space. *)
Lemma trimStart_head (s : jsstring) :
  trimStart s = []
  \/ exists c t, trimStart s = c :: t /\ isWhiteSpace c = false.
Proof.
  induction s as [|c s IH]; simpl; [now left|].
  destruct (isWhiteSpace c) eqn:Hc; [exact IH|].
  right. exists c, s. auto.
Qed.

Lemma trimStart_idempotent (s : jsstring) :
  trimStart (trimStart s) = trimStart s.
Proof.
  destruct (trimStart_head s) as [->|[c [t [-> Hc]]]]; simpl.
  - reflexivity.
  - rewrite Hc. reflexivity.
Qed.

Lemma trimStart_snoc (u : jsstring) (c : code_unit) :
  isWhiteSpace c = false -> trimStart (u ++ [c]) = trimStart u ++ [c].
Proof.
  intros Hc. induction u as [|w u IH]; simpl.
  - rewrite Hc. reflexivity.
  - destruct (isWhiteSpace w); [exact IH | reflexivity].
Qed.

Lemma allWhite_rev (s : jsstring) : allWhite (rev s) = allWhite s.
Proof.
  unfold allWhite. induction s as [|c s IH]; simpl; [reflexivity|].
  rewrite forallb_app, IH. simpl. rewrite andb_true_r. apply andb_comm.
Qed.

Lemma trimEnd_cons (c : code_unit) (t : jsstring) :
  isWhiteSpace c = false -> trimEnd (c :: t) = c :: trimEnd t.
Proof.
  intros Hc. unfold trimEnd. simpl rev.
  rewrite trimStart_snoc by assumption. rewrite rev_app_distr. reflexivity.
Qed.

Lemma trimEnd_idempotent (s : jsstring) : trimEnd (trimEnd s) = trimEnd s.
Proof.
  unfold trimEnd. rewrite rev_involutive, trimStart_idempotent. reflexivity.
Qed.

Lemma trimEnd_white (s ws : jsstring) :
  allWhite ws = true -> trimEnd (s ++ ws) = trimEnd s.
Proof.
  intros Hws. unfold trimEnd. rewrite rev_app_distr.
  rewrite trimStart_white; [reflexivity|]. rewrite allWhite_rev. exact Hws.
Qed.

Lemma trimEnd_snoc (s : jsstring) (d : code_unit) :
  isWhiteSpace d = false -> trimEnd (s ++ [d]) = s ++ [d].
Proof.
  intros Hd. unfold trimEnd. rewrite rev_app_distr. simpl.
  rewrite Hd. simpl. rewrite rev_involutive. reflexivity.
Qed.

(** [trim] gives the empty string exactly on white space. *)
Lemma trim_nil_iff (s : jsstring) : trim s = [] <-> allWhite s = true.
Proof.
  unfold trim. split.
  - intros Ht. apply trimStart_nil.
    destruct (trimStart_head s) as [E|[c [t [E Hc]]]]; [exact E|].
    rewrite E, trimEnd_cons in Ht by assumption. discriminate.
  - intros Hs. rewrite trimStart_all_white by assumption. reflexivity.
Qed.

Lemma trim_idempotent (s : jsstring) : trim (trim s) = trim s.
Proof.
  unfold trim.
  destruct (trimStart_head s) as [->|[c [t [-> Hc]]]]; [reflexivity|].
  rewrite trimEnd_cons by assumption. simpl trimStart. rewrite Hc.
  rewrite !trimEnd_cons by assumption. rewrite trimEnd_idempotent.
  reflexivity.
Qed.

(** White space around a core that starts and ends with other units is
    all that [trim] removes. *)
Lemma trim_framed (ws1 ws2 m : jsstring) (c d : code_unit) :
  allWhite ws1 = true -> allWhite ws2 = true ->
  isWhiteSpace c = false -> isWhiteSpace d = false ->
  trim (ws1 ++ (c :: m ++ [d]) ++ ws2) = c :: m ++ [d].
Proof.
  intros H1 H2 Hc Hd. unfold trim.
  rewrite trimStart_white by assumption.
  simpl trimStart. rewrite Hc.
  change (c :: (m ++ [d]) ++ ws2) with ((c :: m ++ [d]) ++ ws2).
  rewrite trimEnd_white by assumption.
  change (c :: m ++ [d]) with ((c :: m) ++ [d]).
  apply trimEnd_snoc. assumption.
Qed.

Lemma allWhite_app (s t : jsstring) :
  allWhite (s ++ t) = allWhite s && allWhite t.
Proof. apply forallb_app. Qed.

Lemma length_repeat_unit (c : code_unit) (t : jsstring) :
  JS.length (JS.repeat c (JS.length t)) = JS.length t.
Proof.
  unfold JS.repeat, JS.length. rewrite repeat_length, Nat2Z.id. reflexivity.
Qed.

End StringFacts.

(* ================================================================== *)
(** * Properties of the document queries                               *)
(* ================================================================== *)

Section DomFacts.

(** A list of type selectors matches by local name. *)
Lemma matches_types (tags : list string) (e : Element) :
  matches (map (fun t => compound (Some (lit t)) []) tags) e = true
  <-> In (localName e) (map lit tags).
Proof.
  unfold matches. rewrite existsb_exists. split.
  - intros [c [Hin Hm]]. apply in_map_iff in Hin as [t [<- Hin]].
    unfold matchesCompound in Hm. simpl in Hm.
    rewrite andb_true_r in Hm. apply eqb_eq in Hm. rewrite Hm.
    apply in_map. exact Hin.
  - intros Hin. apply in_map_iff in Hin as [t [Ht Hin]].
    exists (compound (Some (lit t)) []). split.
    + apply in_map_iff. exists t. auto.
    + unfold matchesCompound. simpl. rewrite Ht, eqb_refl. reflexivity.
Qed.

Lemma matches_text_iff (e : Element) :
  matches ResponseExtraction.textElementsSelector e = true
  <-> In (localName e) textTags.
Proof. apply matches_types. Qed.

(** Text that is white space only stays so in every descendant. *)
Lemma white_descendants :
  forall e : Element,
    allWhite (textContent e) = true ->
    forall d, In d (descendants e) ->
              allWhite (textContent (self d)) = true.
Proof.
  fix IH 1. intros e. destruct e as [ln attrs cs].
  intros Hws d Hin.
  cbn [textContent descendants] in Hws, Hin.
  remember (mkElement ln attrs cs) as parent eqn:Hparent. clear Hparent.
  induction cs as [|n cs IHcs].
  - contradiction.
  - cbn [flat_map] in Hws, Hin.
    rewrite allWhite_app in Hws. apply andb_true_iff in Hws as [Hn Hcs].
    apply in_app_iff in Hin as [Hin|Hin].
    + destruct n as [t|c]; [contradiction|].
      destruct Hin as [<-|Hin].
      * exact Hn.
      * exact (IH c Hn d Hin).
    + exact (IHcs Hcs Hin).
Qed.

End DomFacts.

(* ================================================================== *)
(** * Properties of extraction                                         *)
(* ================================================================== *)

Section ExtractionFacts.
Import ResponseExtraction.
Context {H : Host}.

(** For the elements the query selects, the lower-cased tag name is
    the local name. *)
Lemma tagKind_text_tag (e : Element) :
  In (localName e) textTags -> tagKind e = localName e.
Proof.
  destruct e as [ln attrs cs]. cbn [localName]. intros Hin.
  unfold tagKind, tagName. cbn [localName].
  repeat (destruct Hin as [<-|Hin]; [reflexivity|]). contradiction.
Qed.

(** An element without text of its own adds nothing. *)
Lemma visit_empty (text : jsstring) (el : Located) :
  trim (textContent (self el)) = [] -> visit text el = text.
Proof. intros Hc. unfold visit. rewrite Hc. reflexivity. Qed.

Lemma visit_heading (text : jsstring) (el : Located) :
  In (localName (self el)) headingTags ->
  trim (textContent (self el)) <> [] ->
  visit text el = text ++ underlined (trim (textContent (self el))).
Proof.
  intros Hin Hc. apply truthy_iff in Hc. unfold visit. rewrite Hc.
  change (toLowerCase (tagName (self el))) with (tagKind (self el)).
  rewrite tagKind_text_tag.
  - repeat (destruct Hin as [<-|Hin]; [reflexivity|]). contradiction.
  - unfold headingTags, textTags in *. simpl in *. tauto.
Qed.

Lemma visit_fenced (text : jsstring) (el : Located) :
  In (localName (self el)) (map lit ["pre"; "code"]) ->
  trim (textContent (self el)) <> [] ->
  visit text el = text ++ fenced (trim (textContent (self el))).
Proof.
  intros Hin Hc. apply truthy_iff in Hc. unfold visit. rewrite Hc.
  change (toLowerCase (tagName (self el))) with (tagKind (self el)).
  rewrite tagKind_text_tag.
  - repeat (destruct Hin as [<-|Hin]; [reflexivity|]). contradiction.
  - unfold textTags in *. simpl in *. tauto.
Qed.

Lemma visit_other (text : jsstring) (el : Located) :
  In (localName (self el)) textTags ->
  ~ In (localName (self el)) formattedTags ->
  trim (textContent (self el)) <> [] ->
  visit text el =
    if parentIsBlock el then text
    else text ++ nl ++ trim (textContent (self el)).
Proof.
  intros Hin Hnot Hc. apply truthy_iff in Hc. unfold visit. rewrite Hc.
  change (toLowerCase (tagName (self el))) with (tagKind (self el)).
  rewrite tagKind_text_tag by assumption.
  assert (Hps : localName (self el) = lit "p"
                \/ localName (self el) = lit "span").
  { unfold textTags, formattedTags, headingTags in *. simpl in *.
    intuition congruence. }
  unfold parentIsBlock, tagKind.
  destruct Hps as [-> | ->];
    (destruct (parentElement el) as [parent|];
     [destruct (includes blockTags (toLowerCase (tagName parent)))|]);
    reflexivity.
Qed.

(** Visiting elements without text leaves the accumulated text. *)
Lemma fold_visit_white (els : list Located) (text : jsstring) :
  (forall d, In d els -> allWhite (textContent (self d)) = true) ->
  fold_left visit els text = text.
Proof.
  revert text. induction els as [|d els IH]; intros text Hall; simpl.
  - reflexivity.
  - rewrite visit_empty.
    + apply IH. intros d' Hd'. apply Hall. now right.
    + apply trim_nil_iff, Hall. now left.
Qed.

(** A subtree whose text is white space only extracts to nothing. *)
Lemma extractText_white (e : Element) :
  allWhite (textContent e) = true -> extractText e = [].
Proof.
  intros Hws. unfold extractText.
  destruct (Z.of_nat _ =? 0).
  - apply trim_nil_iff, Hws.
  - rewrite fold_visit_white; [reflexivity|].
    intros d Hd. unfold querySelectorAll in Hd.
    apply filter_In in Hd as [Hd _].
    exact (white_descendants e Hws d Hd).
Qed.

(** What extraction hands back is already trimmed. *)
Lemma extractText_trimmed (e : Element) :
  trim (extractText e) = extractText e.
Proof.
  unfold extractText. destruct (Z.of_nat _ =? 0); apply trim_idempotent.
Qed.

Lemma evaluateInPage_selected (d : Document) (art : Element) :
  selectedTurn d = Some art ->
  evaluateInPage d
  = {| text := extractText art; links := citationLinks art |}.
Proof.
  unfold selectedTurn, evaluateInPage. cbv zeta. intros ->. reflexivity.
Qed.

Lemma selectedTurn_appeared (d : Document) (art : Element) :
  selectedTurn d = Some art ->
  documentQuerySelectorAll articleSelector d <> [].
Proof.
  unfold selectedTurn. cbv zeta. intros Hsel Hnil.
  rewrite Hnil in Hsel. discriminate.
Qed.

(** With a conversation turn on the page, extraction resolves: to the
    sentinel when the extracted text is empty, to the text and the
    links otherwise. *)
Lemma extractResponseText_selected (page : Page) (art : Element)
      (s : Session) :
  selectedTurn (document page) = Some art ->
  exists s',
    extractResponseText page s
    = Resolved (if truthy (extractText art)
                then {| text := extractText art;
                        links := citationLinks art |}
                else emptySentinel) s'.
Proof.
  intros Hsel.
  pose proof (selectedTurn_appeared _ _ Hsel) as Happ.
  unfold extractResponseText, extractResponseTextOn, tryCatch, bind,
    waitForSelector, attempt.
  destruct (documentQuerySelectorAll articleSelector (document page))
    as [|a0 rest] eqn:Hq; [congruence|].
  cbn [log emit asked trace].
  rewrite (evaluateInPage_selected _ _ Hsel). cbn [text links].
  rewrite extractText_trimmed.
  destruct (extractText art) as [|c t] eqn:Hx.
  - cbn. eexists. reflexivity.
  - cbn [truthy negb JS.eqb orb].
    destruct (Z.of_nat (List.length (citationLinks art)) >? 0);
      cbn; eexists; reflexivity.
Qed.

End ExtractionFacts.

(** C4.  When the text extracted from the selected conversation turn is
    empty or white space only, [extractResponseText] resolves (it does
    not throw) to the sentinel text with an empty list of links; this is
    the case in particular for a turn whose whole content is white
    space. *)
Theorem empty_extraction_yields_sentinel {H : Host}
        (page : ResponseExtraction.Page) (art : Element) (s : Session) :
  selectedTurn (ResponseExtraction.document page) = Some art ->
  (allWhite (ResponseExtraction.extractText art) = true
   \/ allWhite (textContent art) = true) ->
  exists s',
    ResponseExtraction.extractResponseText page s = Resolved emptySentinel s'
    /\ ResponseExtraction.text emptySentinel
       = lit "Error: Empty response extracted"
    /\ ResponseExtraction.links emptySentinel = [].
Proof.
  intros Hsel Hempty.
  assert (Hx : ResponseExtraction.extractText art = []).
  { destruct Hempty as [Hw|Hw].
    - rewrite <- extractText_trimmed. apply trim_nil_iff, Hw.
    - apply extractText_white, Hw. }
  destruct (extractResponseText_selected page art s Hsel) as [s' Hrun].
  rewrite Hx in Hrun. exists s'. repeat split. exact Hrun.
Qed.

(** Running instance of C4: a turn holding one paragraph of blanks. *)
Lemma empty_extraction_yields_sentinel_witness :
  exists s',
    ResponseExtraction.extractResponseText (H := plainHost)
      (pageShowing
         (documentOf [Elt (turn [Elt (elem "p" [Text (lit "   ")])])]))
      fresh
    = Resolved emptySentinel s'.
Proof.
  destruct (@empty_extraction_yields_sentinel plainHost
              (pageShowing
                 (documentOf [Elt (turn [Elt (elem "p" [Text (lit "   ")])])]))
              (turn [Elt (elem "p" [Text (lit "   ")])])
              fresh eq_refl (or_intror eq_refl))
    as [s' [Hrun _]].
  exists s'. exact Hrun.
Defined.

Section FormattingFacts.
Import ResponseExtraction.
Context {H : Host}.

Lemma fold_collectLink (pills : list Located) (acc : list jsstring) :
  fold_left collectLink pills acc = acc ++ flat_map markerLink pills.
Proof.
  revert acc. induction pills as [|pill pills IH]; intros acc; simpl.
  - now rewrite app_nil_r.
  - rewrite IH. unfold collectLink, markerLink.
    destruct (querySelector anchorSelector (self pill)) as [aTag|].
    + destruct (truthy (href (self aTag))).
      * now rewrite <- app_assoc.
      * reflexivity.
    + reflexivity.
Qed.

(** The markers of a turn made of citation pills only, in order. *)
Lemma pills_selected (parent : option Element)
      (marks : list (jsstring * jsstring)) :
  filter (fun d => matches citationPillSelector (self d))
         (flat_map (fun n => match n with
                             | Text _ => []
                             | Elt c => locate parent c :: descendants c
                             end)
                   (map (fun m => Elt (citationPill (fst m) (snd m))) marks))
  = map (fun m => locate parent (citationPill (fst m) (snd m))) marks.
Proof.
  induction marks as [|[url label] marks IH]; [reflexivity|].
  cbn [map flat_map fst snd].
  change (descendants (citationPill url label))
    with [locate (Some (citationPill url label))
                 (mkElement (lit "a") [(lit "href", url)] [Text label])].
  cbn [app filter self]. rewrite IH. reflexivity.
Qed.

Lemma markerLink_pill (parent : option Element) (url label : jsstring) :
  markerLink (locate parent (citationPill url label))
  = if truthy (resolveURL url) then [resolveURL url] else [].
Proof. reflexivity. Qed.

Lemma citationLinks_pills (marks : list (jsstring * jsstring)) :
  Forall (fun m => resolveURL (fst m) <> []) marks ->
  citationLinks (turn (map (fun m => Elt (citationPill (fst m) (snd m)))
                           marks))
  = map (fun m => resolveURL (fst m)) marks.
Proof.
  intros Hall. unfold citationLinks. cbv zeta.
  rewrite fold_collectLink. cbn [app].
  unfold querySelectorAll, turn. cbn [descendants].
  rewrite pills_selected.
  generalize (Some (mkElement (lit "article")
                      [(lit "data-testid", lit "conversation-turn-2")]
                      (map (fun m => Elt (citationPill (fst m) (snd m)))
                           marks))).
  intros parent.
  induction Hall as [|m marks Hm Hall IH]; [reflexivity|].
  cbn [map flat_map]. rewrite markerLink_pill.
  apply truthy_iff in Hm. rewrite Hm. cbn [app]. f_equal. exact IH.
Qed.

(** The text of a turn holding a [pre] around a [code]. *)
Lemma fenced_twice_trimmed (t : jsstring) :
  trim (fenced t ++ fenced t)
  = lit "```" ++ nl ++ t ++ nl ++ lit "```" ++ nl
        ++ nl ++ lit "```" ++ nl ++ t ++ nl ++ lit "```".
Proof.
  transitivity
    (trim (nl ++ (96 :: ([96; 96] ++ nl ++ t ++ nl ++ lit "```" ++ nl
                           ++ nl ++ lit "```" ++ nl ++ t ++ nl ++ [96; 96])
                     ++ [96]) ++ nl)).
  - f_equal. unfold fenced. simpl.
    repeat (rewrite <- app_assoc; simpl). reflexivity.
  - rewrite trim_framed by reflexivity. simpl.
    repeat (rewrite <- app_assoc; simpl). reflexivity.
Qed.

End FormattingFacts.

(** C5.  A heading (h1 to h6) with non-empty trimmed text [t] is selected
    by the element query and adds two line feeds, [t], a line feed, a run
    of ['='] as long as [t], and a line feed.  A turn with the heading
    "Title" followed by the paragraph "Body" extracts to "Title", a line
    feed, five ['='], a blank line, then "Body". *)
Theorem heading_underlined {H : Host} :
  (forall (text : jsstring) (el : Located),
      In (localName (self el)) headingTags ->
      trim (textContent (self el)) <> [] ->
      let t := trim (textContent (self el)) in
      matches ResponseExtraction.textElementsSelector (self el) = true
      /\ ResponseExtraction.visit text el
         = text ++ (nl ++ nl ++ t ++ nl
                       ++ JS.repeat 61 (JS.length t) ++ nl)
      /\ JS.length (JS.repeat 61 (JS.length t)) = JS.length t)
  /\ (forall tag, In tag ["h1"; "h2"; "h3"; "h4"; "h5"; "h6"] ->
        ResponseExtraction.extractText
          (turn [Elt (elem tag [Text (lit "Title")]);
                 Elt (elem "p" [Text (lit "Body")])])
        = lit "Title" ++ nl ++ lit "=====" ++ nl ++ nl ++ lit "Body").
Proof.
  split.
  - intros text el Hin Ht. cbv zeta. repeat split.
    + apply matches_text_iff. unfold headingTags, textTags in *.
      simpl in *. tauto.
    + apply visit_heading; assumption.
    + apply length_repeat_unit.
  - intros tag Htag. simpl in Htag.
    repeat (destruct Htag as [<-|Htag]; [reflexivity|]). contradiction.
Qed.

(** Running instance of C5: an [h2] holding "Title" between blanks. *)
Lemma heading_underlined_witness :
  ResponseExtraction.visit (H := plainHost) []
    (locate (Some (turn [])) (elem "h2" [Text (lit "  Title ")]))
  = nl ++ nl ++ lit "Title" ++ nl ++ lit "=====" ++ nl.
Proof.
  destruct (@heading_underlined plainHost) as [Hvisit _].
  destruct (Hvisit [] (locate (Some (turn []))
                              (elem "h2" [Text (lit "  Title ")])))
    as [_ [Hv _]].
  - simpl. tauto.
  - simpl. discriminate.
  - exact Hv.
Defined.

(** C6, as stated, fails on its own example: the resolved URL of an
    anchor is the serialisation the URL parser gives, and an [https]
    address always has a path there.  Two markers whose anchors are
    written https://a.example and https://b.example yield
    https://a.example/ and https://b.example/, not the two addresses as
    written; this is also what [extractResponseText] returns for a turn
    made of these two markers. *)
Lemma bare_origin_links_end_in_a_slash :
  let art :=
    turn [Elt (citationPill (lit "https://a.example") (lit "1"));
          Elt (citationPill (lit "https://b.example") (lit "2"))] in
  href (H := plainHost)
       (mkElement (lit "a") [(lit "href", lit "https://a.example")]
                  [Text (lit "1")])
  = lit "https://a.example/"
  /\ ResponseExtraction.citationLinks (H := plainHost) art
     = [lit "https://a.example/"; lit "https://b.example/"]
  /\ ResponseExtraction.citationLinks (H := plainHost) art
     <> [lit "https://a.example"; lit "https://b.example"]
  /\ ResponseExtraction.extractResponseText (H := plainHost)
       (pageShowing (documentOf [Elt art])) fresh
     = Resolved
         {| ResponseExtraction.text := lit "1" ++ nl ++ lit "2";
            ResponseExtraction.links :=
              [lit "https://a.example/"; lit "https://b.example/"] |}
         {| asked := 0;
            trace := bareOriginTrace |}.
Proof.
  cbv zeta. repeat apply conj.
  - vm_compute. reflexivity.
  - vm_compute. reflexivity.
  - vm_compute. discriminate.
  - vm_compute. reflexivity.
Qed.

(** C6 (amended).  Link extraction reads the citation markers of the
    selected turn in document order and takes from each the resolved URL
    of its first anchor, when it has one; nothing is merged.  A turn made
    of markers yields one link per marker, in order; two markers
    resolving to https://a.example/ and https://b.example/ yield exactly
    these two, and two markers resolving to the same URL yield it twice.
    The links are what [extractResponseText] returns whenever the
    extracted text is not empty. *)
Theorem citation_links_in_document_order {H : Host} :
  (forall art,
      ResponseExtraction.citationLinks art
      = flat_map markerLink
          (querySelectorAll ResponseExtraction.citationPillSelector art))
  /\ (forall marks : list (jsstring * jsstring),
        Forall (fun m => resolveURL (fst m) <> []) marks ->
        ResponseExtraction.citationLinks
          (turn (map (fun m => Elt (citationPill (fst m) (snd m))) marks))
        = map (fun m => resolveURL (fst m)) marks)
  /\ (forall ua ub la lb,
        resolveURL ua = lit "https://a.example/" ->
        resolveURL ub = lit "https://b.example/" ->
        ResponseExtraction.citationLinks
          (turn [Elt (citationPill ua la); Elt (citationPill ub lb)])
        = [lit "https://a.example/"; lit "https://b.example/"])
  /\ (forall ua ub la lb,
        resolveURL ua = lit "https://a.example/" ->
        resolveURL ub = lit "https://a.example/" ->
        ResponseExtraction.citationLinks
          (turn [Elt (citationPill ua la); Elt (citationPill ub lb)])
        = [lit "https://a.example/"; lit "https://a.example/"])
  /\ (forall page art s,
        selectedTurn (ResponseExtraction.document page) = Some art ->
        ResponseExtraction.extractText art <> [] ->
        exists s',
          ResponseExtraction.extractResponseText page s
          = Resolved
              {| ResponseExtraction.text := ResponseExtraction.extractText art;
                 ResponseExtraction.links :=
                   ResponseExtraction.citationLinks art |} s').
Proof.
  repeat apply conj.
  - intros art. unfold ResponseExtraction.citationLinks. cbv zeta.
    rewrite fold_collectLink. reflexivity.
  - apply citationLinks_pills.
  - intros ua ub la lb Ha Hb.
    rewrite (citationLinks_pills [(ua, la); (ub, lb)]).
    + cbn [map fst]. rewrite Ha, Hb. reflexivity.
    + repeat constructor; cbn [fst]; rewrite ?Ha, ?Hb; discriminate.
  - intros ua ub la lb Ha Hb.
    rewrite (citationLinks_pills [(ua, la); (ub, lb)]).
    + cbn [map fst]. rewrite Ha, Hb. reflexivity.
    + repeat constructor; cbn [fst]; rewrite ?Ha, ?Hb; discriminate.
  - intros page art s Hsel Hx.
    destruct (extractResponseText_selected page art s Hsel) as [s' Hrun].
    apply truthy_iff in Hx. rewrite Hx in Hrun. exists s'. exact Hrun.
Qed.

(** Running instance of C6 (amended): anchors written without a path,
    once with the address in capitals, and twice the same address. *)
Lemma citation_links_in_document_order_witness :
  ResponseExtraction.citationLinks (H := plainHost)
    (turn [Elt (citationPill (lit "https://a.example") (lit "1"));
           Elt (citationPill (lit "HTTPS://B.Example/") (lit "2"))])
  = [lit "https://a.example/"; lit "https://b.example/"]
  /\ ResponseExtraction.citationLinks (H := plainHost)
       (turn [Elt (citationPill (lit "https://a.example") (lit "1"));
              Elt (citationPill (lit "https://a.example") (lit "2"))])
     = [lit "https://a.example/"; lit "https://a.example/"].
Proof.
  destruct (@citation_links_in_document_order plainHost)
    as [_ [_ [Hab [Haa _]]]].
  split.
  - apply Hab; vm_compute; reflexivity.
  - apply Haa; vm_compute; reflexivity.
Defined.

(** C7, as stated, fails on an element without text: a paragraph of
    blanks directly under the turn is selected, is neither heading, list
    item nor code, and its parent is not a block, yet nothing is added
    for it, not even the line feed.  Between two paragraphs it leaves no
    trace in the extracted text. *)
Lemma blank_paragraph_adds_nothing :
  let blank := elem "p" [Text (lit "  ")] in
  let art := turn [Elt (elem "p" [Text (lit "A")]); Elt blank;
                   Elt (elem "p" [Text (lit "B")])] in
  let el := locate (Some art) blank in
  In el (querySelectorAll ResponseExtraction.textElementsSelector art)
  /\ ~ In (localName (self el)) formattedTags
  /\ parentIsBlock (H := plainHost) el = false
  /\ ResponseExtraction.visit (H := plainHost) (lit "A") el = lit "A"
  /\ ResponseExtraction.visit (H := plainHost) (lit "A") el
     <> lit "A" ++ nl ++ trim (textContent (self el))
  /\ ResponseExtraction.extractText (H := plainHost) art
     = lit "A" ++ nl ++ lit "B".
Proof.
  cbv zeta. repeat apply conj.
  - simpl. tauto.
  - unfold formattedTags, headingTags. simpl.
    intros Hin. repeat (destruct Hin as [Hin|Hin]; [discriminate|]).
    contradiction.
  - reflexivity.
  - reflexivity.
  - discriminate.
  - reflexivity.
Qed.

(** C7 (amended).  For every selected element that is not a heading, a
    list item or a code/pre element and whose trimmed text is not empty,
    the trimmed text is added after a line feed when the immediate parent
    is not one of p, h1-h6, li, and nothing is added when it is; an
    element whose trimmed text is empty adds nothing. *)
Theorem other_elements_follow_parent_rule {H : Host}
        (text : jsstring) (el : Located) :
  matches ResponseExtraction.textElementsSelector (self el) = true ->
  ~ In (localName (self el)) formattedTags ->
  let content := trim (textContent (self el)) in
  (content <> [] ->
   (parentIsBlock el = false ->
    ResponseExtraction.visit text el = text ++ nl ++ content)
   /\ (parentIsBlock el = true ->
       ResponseExtraction.visit text el = text))
  /\ (content = [] -> ResponseExtraction.visit text el = text).
Proof.
  intros Hsel Hnot. cbv zeta. apply matches_text_iff in Hsel. split.
  - intros Hc. rewrite (visit_other text el Hsel Hnot Hc).
    split; intros ->; reflexivity.
  - apply visit_empty.
Qed.

(** Running instance of C7 (amended): a [span] inside a paragraph is
    skipped, the same [span] inside a [div] is kept. *)
Lemma other_elements_follow_parent_rule_witness :
  ResponseExtraction.visit (H := plainHost) (lit "x")
    (locate (Some (elem "p" [])) (elem "span" [Text (lit " note ")]))
  = lit "x"
  /\ ResponseExtraction.visit (H := plainHost) (lit "x")
       (locate (Some (elem "div" [])) (elem "span" [Text (lit " note ")]))
     = lit "x" ++ nl ++ lit "note".
Proof.
  split.
  - refine (proj2 (proj1 (@other_elements_follow_parent_rule plainHost
             (lit "x")
             (locate (Some (elem "p" [])) (elem "span" [Text (lit " note ")]))
             eq_refl _) _) eq_refl).
    + unfold formattedTags, headingTags. simpl.
      intros Hin. repeat (destruct Hin as [Hin|Hin]; [discriminate|]).
      contradiction.
    + simpl. discriminate.
  - refine (proj1 (proj1 (@other_elements_follow_parent_rule plainHost
             (lit "x")
             (locate (Some (elem "div" [])) (elem "span" [Text (lit " note ")]))
             eq_refl _) _) eq_refl).
    + unfold formattedTags, headingTags. simpl.
      intros Hin. repeat (destruct Hin as [Hin|Hin]; [discriminate|]).
      contradiction.
    + simpl. discriminate.
Defined.

(** C10.  A [pre] whose only child is a [code] holding text with
    non-empty trimmed form [t]: the element query selects both, each adds
    its own fenced block whatever its parent is, and the extracted text
    shows [t] twice, each time between its own pair of fences. *)
Theorem nested_code_is_fenced_twice {H : Host} (X : jsstring) :
  trim X <> [] ->
  let t := trim X in
  let art := turn [Elt (elem "pre" [Elt (elem "code" [Text X])])] in
  map (fun d => localName (self d))
      (querySelectorAll ResponseExtraction.textElementsSelector art)
  = [lit "pre"; lit "code"]
  /\ fold_left ResponseExtraction.visit
       (querySelectorAll ResponseExtraction.textElementsSelector art) []
     = fenced t ++ fenced t
  /\ ResponseExtraction.extractText art
     = lit "```" ++ nl ++ t ++ nl ++ lit "```" ++ nl
           ++ nl ++ lit "```" ++ nl ++ t ++ nl ++ lit "```"
  /\ (forall text parent e,
        In (localName e) (map lit ["pre"; "code"]) ->
        trim (textContent e) <> [] ->
        ResponseExtraction.visit text (locate parent e)
        = text ++ fenced (trim (textContent e))).
Proof.
  intros Ht. cbv zeta.
  assert (Hfold :
            fold_left ResponseExtraction.visit
              (querySelectorAll ResponseExtraction.textElementsSelector
                 (turn [Elt (elem "pre" [Elt (elem "code" [Text X])])])) []
            = fenced (trim X) ++ fenced (trim X)).
  { change (querySelectorAll ResponseExtraction.textElementsSelector
              (turn [Elt (elem "pre" [Elt (elem "code" [Text X])])]))
      with [locate (Some (turn [Elt (elem "pre" [Elt (elem "code" [Text X])])]))
                   (elem "pre" [Elt (elem "code" [Text X])]);
            locate (Some (elem "pre" [Elt (elem "code" [Text X])]))
                   (elem "code" [Text X])].
    cbn [fold_left].
    rewrite !visit_fenced.
    - cbn [self textContent elem flat_map app]. rewrite !app_nil_r.
      reflexivity.
    - simpl. tauto.
    - cbn [self textContent elem flat_map app]. rewrite !app_nil_r. exact Ht.
    - simpl. tauto.
    - cbn [self textContent elem flat_map app]. rewrite !app_nil_r. exact Ht. }
  repeat apply conj.
  - reflexivity.
  - exact Hfold.
  - unfold ResponseExtraction.extractText. cbv zeta.
    rewrite Hfold.
    change (Z.of_nat (List.length
              (querySelectorAll ResponseExtraction.textElementsSelector
                 (turn [Elt (elem "pre" [Elt (elem "code" [Text X])])])))
            =? 0) with false.
    apply fenced_twice_trimmed.
  - intros text parent e Hin Hc.
    apply (visit_fenced text (locate parent e)); assumption.
Qed.

(** Running instance of C10: a one-line program. *)
Lemma nested_code_is_fenced_twice_witness :
  ResponseExtraction.extractText (H := plainHost)
    (turn [Elt (elem "pre" [Elt (elem "code" [Text (lit "x = 1")])])])
  = lit "```" ++ nl ++ lit "x = 1" ++ nl ++ lit "```" ++ nl
        ++ nl ++ lit "```" ++ nl ++ lit "x = 1" ++ nl ++ lit "```".
Proof.
  refine (proj1 (proj2 (proj2 (@nested_code_is_fenced_twice plainHost
                                 (lit "x = 1") _)))).
  simpl. discriminate.
Defined.

(* ================================================================== *)
(** * The model at work                                                *)
(* ================================================================== *)

(** One paragraph: its text, no links. *)
Example extract_single_paragraph :
  ResponseExtraction.evaluateInPage (H := plainHost)
    (documentOf [Elt (turn [Elt (elem "p" [Text (lit "Hello")])])])
  = {| ResponseExtraction.text := lit "Hello";
       ResponseExtraction.links := [] |}.
Proof. reflexivity. Qed.

(** No recognised element: the flattened text of the turn. *)
Example extract_fallback_raw_text :
  ResponseExtraction.extractText (H := plainHost)
    (turn [Elt (elem "div" [Text (lit " raw text ")])])
  = lit "raw text".
Proof. reflexivity. Qed.

(** A run with a query that meets no failure: a session is requested,
    the file is written and the process exits with code 0. *)
Example run_with_query_succeeds :
  exists s,
    Main.main (H := plainHost)
      {| Main.argv := [lit "node"; lit "index_remote.js"; lit "Hi there"];
         Main.setupSucceeds := true;
         Main.sessionId := lit "session-1";
         Main.navigationSucceeds := true;
         Main.submissionSucceeds := true;
         Main.closeSucceeds := true;
         Main.page :=
           {| ResponseExtraction.stopButton := fun n => Nat.ltb n 1;
              ResponseExtraction.document :=
                documentOf
                  [Elt (turn [Elt (elem "p" [Text (lit "Hello")])])] |};
         Main.platform :=
           {| ResponseExtraction.cwd := lit "/srv";
              ResponseExtraction.nowForFilename := lit "2025-01-01T00:00:00.000Z";
              ResponseExtraction.nowForRecord := lit "2025-01-01T00:00:00.001Z";
              ResponseExtraction.mkdirSucceeds := true;
              ResponseExtraction.writeFileSucceeds := true |} |}
      5 fresh = Resolved tt s
    /\ last (trace s) (Exited 1) = Exited 0
    /\ existsb isSessionEvent (trace s) = true
    /\ written (trace s)
       = [(lit "/srv/output/chatgpt_response_hi_there_2025-01-01T00-00-00-000Z.json",
           {| rec_query := lit "Hi there";
              rec_timestamp := lit "2025-01-01T00:00:00.001Z";
              rec_text := lit "Hello";
              rec_links := [] |})].
Proof.
  eexists. split; [vm_compute; reflexivity|].
  split; [vm_compute; reflexivity|].
  split; vm_compute; reflexivity.
Qed.

(* ================================================================== *)
(** * Further properties of strings                                    *)
(* ================================================================== *)

Section TightFacts.

Lemma last_snoc (u : jsstring) (d c : code_unit) : last (u ++ [d]) c = d.
Proof.
  induction u as [|x u IH]; [reflexivity|].
  simpl. destruct (u ++ [d]) eqn:E; [destruct u; discriminate|]. exact IH.
Qed.

(** [trim] leaves nothing or a text without white space at its ends. *)
Lemma trim_nil_or_tight (s : jsstring) : trim s = [] \/ tight (trim s) = true.
Proof.
  unfold trim.
  destruct (trimStart_head s) as [->|[c [t [-> Hc]]]]; [now left|right].
  rewrite trimEnd_cons by assumption.
  unfold trimEnd.
  destruct (trimStart_head (rev t)) as [->|[d [t' [-> Hd]]]].
  - simpl. rewrite Hc. reflexivity.
  - simpl rev. unfold tight. rewrite Hc.
    change (c :: rev t' ++ [d]) with ((c :: rev t') ++ [d]).
    rewrite last_snoc, Hd. reflexivity.
Qed.

Lemma tight_split (u : jsstring) :
  tight u = true ->
  exists c rest, u = c :: rest /\ isWhiteSpace c = false
                 /\ isWhiteSpace (last u c) = false.
Proof.
  destruct u as [|c rest]; [discriminate|]. intros Ht.
  unfold tight in Ht. apply andb_true_iff in Ht as [Hc Hl].
  apply negb_true_iff in Hc, Hl. exists c, rest. auto.
Qed.

(** White space around a tight text is all that [trim] removes. *)
Lemma trim_around_tight (ws1 ws2 u : jsstring) :
  allWhite ws1 = true -> allWhite ws2 = true -> tight u = true ->
  trim (ws1 ++ u ++ ws2) = u.
Proof.
  intros H1 H2 Hu.
  destruct (tight_split u Hu) as [c [rest [-> [Hc Hl]]]].
  unfold trim. rewrite trimStart_white by assumption.
  simpl trimStart. rewrite Hc.
  change (c :: rest ++ ws2) with ((c :: rest) ++ ws2).
  rewrite trimEnd_white by assumption.
  destruct (exists_last (l := c :: rest) ltac:(discriminate)) as [m [d E]].
  rewrite E in *. rewrite last_snoc in Hl. apply trimEnd_snoc, Hl.
Qed.

Lemma tight_app (a m b : jsstring) :
  tight a = true -> tight b = true -> tight (a ++ m ++ b) = true.
Proof.
  intros Ha Hb.
  destruct (tight_split a Ha) as [c [ra [-> [Hc _]]]].
  destruct (tight_split b Hb) as [d [rb [Eb [_ Hl]]]].
  destruct (exists_last (l := b) ltac:(subst; discriminate)) as [mb [e E]].
  rewrite E in Hl. rewrite last_snoc in Hl. rewrite E.
  replace ((c :: ra) ++ m ++ mb ++ [e]) with ((c :: ra ++ m ++ mb) ++ [e])
    by (cbn [app]; rewrite <- !app_assoc; reflexivity).
  unfold tight. cbn [app]. rewrite Hc.
  change (c :: (ra ++ m ++ mb) ++ [e]) with ((c :: ra ++ m ++ mb) ++ [e]).
  rewrite last_snoc, Hl. reflexivity.
Qed.

End TightFacts.

(* ================================================================== *)
(** * Further properties of extraction                                 *)
(* ================================================================== *)

(** X1.  What [extractText] returns is either empty or starts and ends
    with a unit that is not white space: the second [trim] of
    [extractResponseText] never changes it. *)
Theorem extractText_has_no_outer_white_space {H : Host} (e : Element) :
  (ResponseExtraction.extractText e = []
   \/ tight (ResponseExtraction.extractText e) = true)
  /\ trim (ResponseExtraction.extractText e)
     = ResponseExtraction.extractText e.
Proof.
  split.
  - unfold ResponseExtraction.extractText.
    destruct (Z.of_nat _ =? 0); apply trim_nil_or_tight.
  - apply extractText_trimmed.
Qed.

Section OutcomeFacts.
Import ResponseExtraction.
Context {H : Host}.

(** [arr[arr.length - 1]] of a non-empty array is its last element. *)
Lemma at_last {A} (l : list A) (x : A) :
  at_ (l ++ [x]) (Z.of_nat (List.length (l ++ [x])) - 1) = Some x.
Proof.
  unfold at_. rewrite length_app. cbn [List.length].
  destruct (Z.ltb_spec (Z.of_nat (List.length l + 1) - 1) 0); [lia|].
  replace (Z.to_nat (Z.of_nat (List.length l + 1) - 1)) with (List.length l)
    by lia.
  rewrite nth_error_app2 by lia. rewrite Nat.sub_diag. reflexivity.
Qed.

Lemma selectedTurn_some (d : Document) :
  documentQuerySelectorAll articleSelector d <> [] ->
  exists art, selectedTurn d = Some art.
Proof.
  intros Hne. unfold selectedTurn. cbv zeta.
  destruct (exists_last (l := documentQuerySelectorAll articleSelector d) Hne)
    as [l [x E]].
  rewrite E, map_app. cbn [map]. exists (self x). apply at_last.
Qed.

(** Without a conversation turn the wait for the selector times out,
    whatever the callback would have met. *)
Lemma extractResponseTextOn_no_turn (page : Page) (evaluated : Document)
      (s : Session) :
  documentQuerySelectorAll articleSelector (document page) = [] ->
  extractResponseTextOn page evaluated s
  = Rejected (TimeoutError articleSelector)
      {| asked := asked s;
         trace := trace s ++
           [Logged namespace (STEP 5)
                   (lit "Extracting response text and citation links...");
            AwaitedSelector articleSelector 10000 false;
            Logged namespace ERROR (lit "Failed to extract response text")] |}.
Proof.
  intros Hq.
  unfold extractResponseTextOn, tryCatch, bind, waitForSelector, attempt,
    log, emit, throw.
  rewrite Hq. cbn [asked trace]. rewrite <- !app_assoc. reflexivity.
Qed.

Lemma extractResponseText_no_turn (page : Page) (s : Session) :
  documentQuerySelectorAll articleSelector (document page) = [] ->
  extractResponseText page s
  = Rejected (TimeoutError articleSelector)
      {| asked := asked s;
         trace := trace s ++
           [Logged namespace (STEP 5)
                   (lit "Extracting response text and citation links...");
            AwaitedSelector articleSelector 10000 false;
            Logged namespace ERROR (lit "Failed to extract response text")] |}.
Proof. apply extractResponseTextOn_no_turn. Qed.

Lemma evaluateInPage_missing (d : Document) :
  selectedTurn d = None -> evaluateInPage d = articleMissing.
Proof.
  unfold selectedTurn, evaluateInPage. cbv zeta. intros ->. reflexivity.
Qed.

(** Once the wait has seen a turn, extraction resolves, and to what the
    document of the callback decides. *)
Lemma extractResponseTextOn_seen (page : Page) (evaluated : Document)
      (s : Session) :
  documentQuerySelectorAll articleSelector (document page) <> [] ->
  exists s',
    extractResponseTextOn page evaluated s
    = Resolved match selectedTurn evaluated with
               | None => articleMissing
               | Some art =>
                   if truthy (extractText art)
                   then {| text := extractText art;
                           links := citationLinks art |}
                   else emptySentinel
               end s'.
Proof.
  intros Hseen.
  unfold extractResponseTextOn, tryCatch, bind, waitForSelector, attempt.
  destruct (documentQuerySelectorAll articleSelector (document page))
    as [|a0 rest] eqn:Hq; [congruence|].
  cbn [log emit asked trace].
  destruct (selectedTurn evaluated) as [art|] eqn:Hsel.
  - rewrite (evaluateInPage_selected _ _ Hsel). cbn [text links].
    rewrite extractText_trimmed.
    destruct (extractText art) as [|c t] eqn:Hx.
    + cbn. eexists. reflexivity.
    + cbn [truthy negb JS.eqb orb].
      destruct (Z.of_nat (List.length (citationLinks art)) >? 0);
        cbn; eexists; reflexivity.
  - rewrite (evaluateInPage_missing _ Hsel).
    vm_compute. eexists. reflexivity.
Qed.

End OutcomeFacts.

(** X2.  Whenever [extractResponseText] resolves, the text it returns is
    not empty, and the result is one of three, decided by the document
    the callback of [page.evaluate] runs in: without a conversation turn
    there (the page has changed since the selector wait) it is the
    message that no article was found, with no links; with a turn whose
    extracted text is not empty it is that text with the links of the
    turn; with a turn whose extracted text is empty it is the sentinel.
    The selector wait has seen a turn, so on a page that stays as it is
    the first of the three does not occur. *)
Theorem extractResponseText_text_never_empty {H : Host}
        (page : ResponseExtraction.Page) (evaluated : Document)
        (s s' : Session) (r : ResponseExtraction.ExtractionResult) :
  ResponseExtraction.extractResponseTextOn page evaluated s = Resolved r s' ->
  ResponseExtraction.text r <> []
  /\ documentQuerySelectorAll ResponseExtraction.articleSelector
       (ResponseExtraction.document page) <> []
  /\ match selectedTurn evaluated with
     | None => r = articleMissing
     | Some art =>
         (ResponseExtraction.extractText art <> [] ->
          r = {| ResponseExtraction.text := ResponseExtraction.extractText art;
                 ResponseExtraction.links :=
                   ResponseExtraction.citationLinks art |})
         /\ (ResponseExtraction.extractText art = [] -> r = emptySentinel)
     end
  /\ (evaluated = ResponseExtraction.document page ->
      exists art, selectedTurn evaluated = Some art).
Proof.
  intros Hrun.
  assert (Hseen : documentQuerySelectorAll ResponseExtraction.articleSelector
                    (ResponseExtraction.document page) <> []).
  { intros Hq.
    rewrite (extractResponseTextOn_no_turn page evaluated s Hq) in Hrun.
    discriminate. }
  destruct (extractResponseTextOn_seen page evaluated s Hseen) as [s1 Hrun1].
  rewrite Hrun1 in Hrun. injection Hrun as <- <-.
  repeat split.
  - destruct (selectedTurn evaluated) as [art|]; [|discriminate].
    destruct (truthy (ResponseExtraction.extractText art)) eqn:Ht;
      [apply truthy_iff, Ht | discriminate].
  - exact Hseen.
  - destruct (selectedTurn evaluated) as [art|]; [|reflexivity].
    split; intros Hx.
    + apply truthy_iff in Hx. rewrite Hx. reflexivity.
    + rewrite Hx. reflexivity.
  - intros ->. apply selectedTurn_some, Hseen.
Qed.

(** Running instance of X2: the turn of one paragraph is there at the
    wait and gone when the callback runs. *)
Lemma extractResponseText_text_never_empty_witness :
  exists r s',
    ResponseExtraction.extractResponseTextOn (H := plainHost)
      helloPage blankDocument fresh = Resolved r s'
    /\ ResponseExtraction.text r <> []
    /\ r = articleMissing.
Proof.
  eexists. eexists. split; [vm_compute; reflexivity|].
  split.
  - refine (proj1 (@extractResponseText_text_never_empty plainHost
                     helloPage blankDocument fresh _ _ _)).
    vm_compute. reflexivity.
  - reflexivity.
Defined.

(** X3.  [extractResponseText] resolves exactly when the document holds
    a conversation turn; without one it rejects with the timeout of the
    selector wait, after logging the failure, and [page.evaluate] is not
    called. *)
Theorem extractResponseText_resolves_iff_turn {H : Host}
        (page : ResponseExtraction.Page) (s : Session) :
  ((exists r s', ResponseExtraction.extractResponseText page s = Resolved r s')
   <-> documentQuerySelectorAll ResponseExtraction.articleSelector
         (ResponseExtraction.document page) <> [])
  /\ (documentQuerySelectorAll ResponseExtraction.articleSelector
        (ResponseExtraction.document page) = [] ->
      exists s',
        ResponseExtraction.extractResponseText page s
        = Rejected (TimeoutError ResponseExtraction.articleSelector) s'
        /\ trace s' = trace s ++
             [Logged ResponseExtraction.namespace (STEP 5)
                     (lit "Extracting response text and citation links...");
              AwaitedSelector ResponseExtraction.articleSelector 10000 false;
              Logged ResponseExtraction.namespace ERROR
                     (lit "Failed to extract response text")]).
Proof.
  split.
  - split.
    + intros [r [s' Hrun]] Hq.
      rewrite (extractResponseText_no_turn page s Hq) in Hrun. discriminate.
    + intros Hne. destruct (selectedTurn_some _ Hne) as [art Hsel].
      destruct (extractResponseText_selected page art s Hsel) as [s' Hrun].
      eexists. exists s'. exact Hrun.
  - intros Hq. eexists. split.
    + apply extractResponseText_no_turn, Hq.
    + reflexivity.
Qed.

(** Running instance of X3: a document without any turn. *)
Lemma extractResponseText_resolves_iff_turn_witness :
  exists s',
    ResponseExtraction.extractResponseText (H := plainHost)
      (pageShowing blankDocument) fresh
    = Rejected (TimeoutError ResponseExtraction.articleSelector) s'.
Proof.
  destruct (proj2 (@extractResponseText_resolves_iff_turn plainHost
                     (pageShowing blankDocument) fresh) eq_refl)
    as [s' [Hrun _]].
  exists s'. exact Hrun.
Defined.

Section MoreFormattingFacts.
Import ResponseExtraction.
Context {H : Host}.

Lemma visit_list_item (text : jsstring) (el : Located) :
  localName (self el) = lit "li" ->
  trim (textContent (self el)) <> [] ->
  visit text el = text ++ nl ++ bullet ++ trim (textContent (self el)).
Proof.
  intros Hln Hc. apply truthy_iff in Hc. unfold visit. rewrite Hc.
  change (toLowerCase (tagName (self el))) with (tagKind (self el)).
  rewrite tagKind_text_tag.
  - rewrite Hln. reflexivity.
  - rewrite Hln. unfold textTags. simpl. tauto.
Qed.

Lemma markerLink_short (pill : Located) :
  (List.length (markerLink pill) <= 1)%nat
  /\ Forall (fun l => l <> []) (markerLink pill).
Proof.
  unfold markerLink.
  destruct (querySelector anchorSelector (self pill)) as [aTag|].
  - destruct (truthy (href (self aTag))) eqn:Ht.
    + split; [simpl; lia|]. constructor; [|constructor].
      apply truthy_iff, Ht.
    + split; [simpl; lia | constructor].
  - split; [simpl; lia | constructor].
Qed.

Lemma underscoreLower_fixed (c : code_unit) :
  isSafeUnit c = true -> asciiLower (underscoreUnlessAlnum c) = c.
Proof.
  unfold isSafeUnit, underscoreUnlessAlnum, isAlnum, asciiLower.
  intros Hs.
  destruct (Z.leb_spec 97 c), (Z.leb_spec c 122),
    (Z.leb_spec 65 c), (Z.leb_spec c 90),
    (Z.leb_spec 48 c), (Z.leb_spec c 57), (Z.eqb_spec c 95);
    simpl in *; try discriminate; try lia;
    repeat match goal with
           | |- context [?a <=? ?b] => destruct (Z.leb_spec a b); try lia
           end; simpl; try lia; reflexivity.
Qed.

End MoreFormattingFacts.

(** X4.  A list item with non-empty trimmed text adds a line feed, the
    bullet and the text, whatever its parent is; so a paragraph inside a
    list item is shown once, through the list item. *)
Theorem list_item_bulleted {H : Host} :
  (forall text parent e,
      localName e = lit "li" ->
      trim (textContent e) <> [] ->
      ResponseExtraction.visit text (locate parent e)
      = text ++ nl ++ ResponseExtraction.bullet ++ trim (textContent e))
  /\ (forall X,
        trim X <> [] ->
        ResponseExtraction.extractText
          (turn [Elt (elem "ul" [Elt (elem "li" [Elt (elem "p" [Text X])])])])
        = ResponseExtraction.bullet ++ trim X).
Proof.
  split.
  - intros text parent e Hln Hc.
    apply (visit_list_item text (locate parent e)); assumption.
  - intros X HX.
    unfold ResponseExtraction.extractText. cbv zeta.
    change (querySelectorAll ResponseExtraction.textElementsSelector
              (turn [Elt (elem "ul" [Elt (elem "li" [Elt (elem "p" [Text X])])])]))
      with [locate (Some (elem "ul" [Elt (elem "li" [Elt (elem "p" [Text X])])]))
                   (elem "li" [Elt (elem "p" [Text X])]);
            locate (Some (elem "li" [Elt (elem "p" [Text X])]))
                   (elem "p" [Text X])].
    cbn [List.length Z.of_nat Z.eqb fold_left].
    rewrite (visit_list_item []
               (locate (Some (elem "ul" [Elt (elem "li" [Elt (elem "p" [Text X])])]))
                       (elem "li" [Elt (elem "p" [Text X])])));
      [| reflexivity
       | cbn [self textContent elem flat_map app]; rewrite !app_nil_r;
         exact HX].
    rewrite (visit_other _ (locate (Some (elem "li" [Elt (elem "p" [Text X])]))
                                   (elem "p" [Text X])));
      [| simpl; tauto
       | unfold formattedTags, headingTags; simpl; intros Hin;
         repeat (destruct Hin as [Hin|Hin]; [discriminate|]); contradiction
       | cbn [self textContent elem flat_map app]; rewrite !app_nil_r;
         exact HX].
    change (parentIsBlock
              (locate (Some (elem "li" [Elt (elem "p" [Text X])]))
                      (elem "p" [Text X]))) with true.
    cbn iota. cbn [self textContent elem flat_map app]. rewrite !app_nil_r.
    destruct (trim_nil_or_tight X) as [E|Ht]; [contradiction|].
    change ([] ++ nl ++ ResponseExtraction.bullet ++ trim X)
      with ([10] ++ ([226; 8364; 162] ++ [32] ++ trim X)).
    rewrite <- (app_nil_r ([226; 8364; 162] ++ [32] ++ trim X)) at 1.
    rewrite trim_around_tight; [reflexivity|reflexivity|reflexivity|].
    apply tight_app; [reflexivity | exact Ht].
Qed.

(** Running instance of X4. *)
Lemma list_item_bulleted_witness :
  ResponseExtraction.extractText (H := plainHost)
    (turn [Elt (elem "ul"
                  [Elt (elem "li" [Elt (elem "p" [Text (lit " one ")])])])])
  = ResponseExtraction.bullet ++ lit "one".
Proof.
  refine (proj2 (@list_item_bulleted plainHost) (lit " one ") _).
  simpl. discriminate.
Defined.

(** X5.  The parent check looks one level up only.  A [span] directly
    inside a paragraph is covered by the paragraph and its text appears
    once; a [span] inside that [span] has a parent that is no block, so
    the same text is added a second time. *)
Theorem parent_check_is_one_level_deep {H : Host} (X : jsstring) :
  trim X <> [] ->
  ResponseExtraction.extractText
    (turn [Elt (elem "p" [Elt (elem "span" [Text X])])])
  = trim X
  /\ ResponseExtraction.extractText
       (turn [Elt (elem "p" [Elt (elem "span" [Elt (elem "span" [Text X])])])])
     = trim X ++ nl ++ trim X.
Proof.
  intros HX.
  destruct (trim_nil_or_tight X) as [E|Ht]; [contradiction|].
  assert (Hnot : forall tag, tag = lit "p" \/ tag = lit "span" ->
                             ~ In tag formattedTags).
  { intros tag [-> | ->]; unfold formattedTags, headingTags; simpl;
      intros Hin;
      repeat (destruct Hin as [Hin|Hin]; [discriminate|]); contradiction. }
  split.
  - unfold ResponseExtraction.extractText. cbv zeta.
    change (querySelectorAll ResponseExtraction.textElementsSelector
              (turn [Elt (elem "p" [Elt (elem "span" [Text X])])]))
      with [locate (Some (turn [Elt (elem "p" [Elt (elem "span" [Text X])])]))
                   (elem "p" [Elt (elem "span" [Text X])]);
            locate (Some (elem "p" [Elt (elem "span" [Text X])]))
                   (elem "span" [Text X])].
    cbn [List.length Z.of_nat Z.eqb fold_left].
    rewrite (visit_other []
               (locate (Some (turn [Elt (elem "p" [Elt (elem "span" [Text X])])]))
                       (elem "p" [Elt (elem "span" [Text X])])));
      [| simpl; tauto | apply Hnot; now left
       | cbn [self textContent elem flat_map app]; rewrite !app_nil_r;
         exact HX].
    change (parentIsBlock
              (locate (Some (turn [Elt (elem "p" [Elt (elem "span" [Text X])])]))
                      (elem "p" [Elt (elem "span" [Text X])]))) with false.
    cbn iota.
    rewrite (visit_other _
               (locate (Some (elem "p" [Elt (elem "span" [Text X])]))
                       (elem "span" [Text X])));
      [| simpl; tauto | apply Hnot; now right
       | cbn [self textContent elem flat_map app]; rewrite !app_nil_r;
         exact HX].
    change (parentIsBlock
              (locate (Some (elem "p" [Elt (elem "span" [Text X])]))
                      (elem "span" [Text X]))) with true.
    cbn iota. cbn [self textContent elem flat_map app]. rewrite !app_nil_r.
    change ([] ++ nl ++ trim X) with (nl ++ trim X).
    rewrite <- (app_nil_r (trim X)) at 1.
    apply trim_around_tight; [reflexivity | reflexivity | exact Ht].
  - unfold ResponseExtraction.extractText. cbv zeta.
    set (inner := elem "span" [Text X]).
    set (outer := elem "span" [Elt inner]).
    set (para := elem "p" [Elt outer]).
    change (querySelectorAll ResponseExtraction.textElementsSelector
              (turn [Elt para]))
      with [locate (Some (turn [Elt para])) para;
            locate (Some para) outer;
            locate (Some outer) inner].
    cbn [List.length Z.of_nat Z.eqb fold_left].
    assert (Hp : trim (textContent para) = trim X)
      by (cbn [para outer inner textContent elem flat_map app];
          rewrite !app_nil_r; reflexivity).
    assert (Ho : trim (textContent outer) = trim X)
      by (cbn [outer inner textContent elem flat_map app];
          rewrite !app_nil_r; reflexivity).
    assert (Hi : trim (textContent inner) = trim X)
      by (cbn [inner textContent elem flat_map app];
          rewrite !app_nil_r; reflexivity).
    rewrite (visit_other [] (locate (Some (turn [Elt para])) para));
      [| simpl; tauto | apply Hnot; now left
       | cbn [self]; rewrite Hp; exact HX].
    change (parentIsBlock (locate (Some (turn [Elt para])) para)) with false.
    cbn iota.
    rewrite (visit_other _ (locate (Some para) outer));
      [| simpl; tauto | apply Hnot; now right
       | cbn [self]; rewrite Ho; exact HX].
    change (parentIsBlock (locate (Some para) outer)) with true.
    cbn iota.
    rewrite (visit_other _ (locate (Some outer) inner));
      [| simpl; tauto | apply Hnot; now right
       | cbn [self]; rewrite Hi; exact HX].
    change (parentIsBlock (locate (Some outer) inner)) with false.
    cbn iota. cbn [self]. rewrite Hp, Hi.
    change (([] ++ nl ++ trim X) ++ nl ++ trim X)
      with (nl ++ (trim X ++ nl ++ trim X)).
    rewrite <- (app_nil_r (trim X ++ nl ++ trim X)) at 1.
    apply trim_around_tight; [reflexivity | reflexivity |].
    apply tight_app; assumption.
Qed.

(** Running instance of X5. *)
Lemma parent_check_is_one_level_deep_witness :
  ResponseExtraction.extractText (H := plainHost)
    (turn [Elt (elem "p"
                  [Elt (elem "span" [Elt (elem "span" [Text (lit "note")])])])])
  = lit "note" ++ nl ++ lit "note".
Proof.
  refine (proj2 (@parent_check_is_one_level_deep plainHost (lit "note") _)).
  simpl. discriminate.
Defined.

(** X6.  No collected link is the empty string, and there are never more
    links than citation markers in the turn. *)
Theorem citation_links_nonempty_and_bounded {H : Host} (art : Element) :
  Forall (fun l => l <> []) (ResponseExtraction.citationLinks art)
  /\ (List.length (ResponseExtraction.citationLinks art)
      <= List.length
           (querySelectorAll ResponseExtraction.citationPillSelector art))%nat.
Proof.
  unfold ResponseExtraction.citationLinks. cbv zeta.
  rewrite fold_collectLink. cbn [app].
  induction (querySelectorAll ResponseExtraction.citationPillSelector art)
    as [|pill pills [IHf IHl]].
  - split; [constructor | simpl; lia].
  - cbn [flat_map]. destruct (markerLink_short pill) as [Hlen Hne]. split.
    + apply Forall_app. split; assumption.
    + rewrite length_app. cbn [List.length]. lia.
Qed.

(** X7.  The sanitised token has exactly the length of the query, capped
    at 50, and sanitising is idempotent: a token is its own token. *)
Theorem sanitizedQuery_length_and_idempotent {H : Host} (q : jsstring) :
  JS.length (ResponseExtraction.sanitizedQuery q) = Z.min 50 (JS.length q)
  /\ ResponseExtraction.sanitizedQuery (ResponseExtraction.sanitizedQuery q)
     = ResponseExtraction.sanitizedQuery q.
Proof.
  split.
  - rewrite sanitizedQuery_map. unfold JS.length.
    rewrite length_map, length_firstn. lia.
  - rewrite (sanitizedQuery_map (ResponseExtraction.sanitizedQuery q)).
    rewrite firstn_all2.
    + rewrite sanitizedQuery_map, map_map. apply map_ext.
      intros c. apply underscoreLower_fixed, lowered_unit_safe.
    + rewrite sanitizedQuery_map, length_map, length_firstn. lia.
Qed.

(* ================================================================== *)
(** * Events a computation never adds                                  *)
(* ================================================================== *)

Section AvoidsFacts.
Variable p : Event -> bool.

Lemma avoids_ret {A} (a : A) : Avoids p (ret a).
Proof. intros s. simpl. exists []. now rewrite app_nil_r. Qed.

Lemma avoids_throw {A} (e : Error) : Avoids p (@throw A e).
Proof. intros s. simpl. exists []. now rewrite app_nil_r. Qed.

Lemma avoids_emit (e : Event) : p e = false -> Avoids p (emit e).
Proof. intros He s. simpl. exists [e]. simpl. rewrite He. auto. Qed.

Lemma avoids_attempt (ok : bool) (e : Event) (err : Error) :
  p e = false -> Avoids p (attempt ok e err).
Proof.
  intros He s. unfold attempt.
  destruct ok; simpl; exists [e]; simpl; rewrite He; auto.
Qed.

Lemma avoids_bind {A B} (m : Async A) (k : A -> Async B) :
  Avoids p m -> (forall a, Avoids p (k a)) -> Avoids p (bind m k).
Proof.
  intros Hm Hk s. unfold bind. specialize (Hm s).
  destruct (m s) as [a s1|e s1|]; [| exact Hm | exact I].
  destruct Hm as [t [Ht Hp]]. specialize (Hk a s1).
  destruct (k a s1) as [b s2|e s2|]; [| | exact I];
    destruct Hk as [t2 [Ht2 Hp2]]; exists (t ++ t2);
    rewrite Ht2, Ht, app_assoc, existsb_app, Hp, Hp2; auto.
Qed.

Lemma avoids_tryCatch {A} (m : Async A) (h : Error -> Async A) :
  Avoids p m -> (forall e, Avoids p (h e)) -> Avoids p (tryCatch m h).
Proof.
  intros Hm Hh s. unfold tryCatch. specialize (Hm s).
  destruct (m s) as [a s1|e s1|]; [exact Hm | | exact I].
  destruct Hm as [t [Ht Hp]]. specialize (Hh e s1).
  destruct (h e s1) as [b s2|e2 s2|]; [| | exact I];
    destruct Hh as [t2 [Ht2 Hp2]]; exists (t ++ t2);
    rewrite Ht2, Ht, app_assoc, existsb_app, Hp, Hp2; auto.
Qed.

Lemma avoids_while (fuel : nat)
      (body : ResponseExtraction.Vars -> Async ResponseExtraction.Vars) :
  (forall v, Avoids p (body v)) ->
  forall v, Avoids p (ResponseExtraction.while fuel body v).
Proof.
  intros Hbody. induction fuel as [|fuel IH]; intros v s; simpl.
  - destruct (ResponseExtraction.stopButtonExists v); [exact I|].
    exists []. now rewrite app_nil_r.
  - destruct (ResponseExtraction.stopButtonExists v).
    + specialize (Hbody v s).
      destruct (body v s) as [v1 s1|e s1|]; [| exact Hbody | exact I].
      destruct Hbody as [t [Ht Hp]]. specialize (IH v1 s1).
      destruct (ResponseExtraction.while fuel body v1 s1) as [v2 s2|e s2|];
        [| | exact I];
        destruct IH as [t2 [Ht2 Hp2]]; exists (t ++ t2);
        rewrite Ht2, Ht, app_assoc, existsb_app, Hp, Hp2; auto.
    + exists []. now rewrite app_nil_r.
Qed.

Lemma avoids_lookup (page : ResponseExtraction.Page) :
  (forall sel found, p (Polled sel found) = false) ->
  Avoids p (ResponseExtraction.lookupStopButton page).
Proof.
  intros Hp s. unfold ResponseExtraction.lookupStopButton. cbn.
  eexists. split; [reflexivity|]. simpl. rewrite Hp. reflexivity.
Qed.

End AvoidsFacts.

Section WorkflowAvoids.
Import ResponseExtraction.
Context {H : Host}.

Lemma avoids_wait (p : Event -> bool) (page : Page) (ci : Z) (fuel : nat) :
  (forall ns l m, p (Logged ns l m) = false) ->
  (forall ms, p (Slept ms) = false) ->
  (forall sel found, p (Polled sel found) = false) ->
  Avoids p (waitForResponseComplete page ci fuel).
Proof.
  intros Hlog Hsleep Hpoll.
  unfold waitForResponseComplete, loopBody, log, delay,
    stillGeneratingEvent, falseNegativeEvent, completionEvent.
  repeat first
    [ apply avoids_ret
    | apply avoids_throw
    | apply avoids_emit; solve [apply Hlog | apply Hsleep]
    | apply avoids_lookup; exact Hpoll
    | apply avoids_while; intro
    | apply avoids_bind; [|intro]
    | apply avoids_tryCatch; [|intro]
    | match goal with
      | |- Avoids _ (if ?c then _ else _) => destruct c
      end ].
Qed.

Lemma avoids_extract (p : Event -> bool) (page : Page) :
  (forall ns l m, p (Logged ns l m) = false) ->
  (forall sel t ok, p (AwaitedSelector sel t ok) = false) ->
  p Evaluated = false ->
  Avoids p (extractResponseText page).
Proof.
  intros Hlog Hwait Heval.
  unfold extractResponseText, extractResponseTextOn, waitForSelector, log. cbv zeta.
  repeat first
    [ apply avoids_ret
    | apply avoids_throw
    | apply avoids_emit; solve [apply Hlog | exact Heval]
    | apply avoids_attempt; apply Hwait
    | apply avoids_bind; [|intro]
    | apply avoids_tryCatch; [|intro]
    | match goal with
      | |- Avoids _ (if ?c then _ else _) => destruct c
      | |- Avoids _ (match ?c with _ => _ end) => destruct c
      end ].
Qed.

Lemma avoids_save (p : Event -> bool) (pf : Platform) (text : jsstring)
      (links : list jsstring) (query outputDir : jsstring) :
  (forall ns l m, p (Logged ns l m) = false) ->
  (forall path ok, p (MadeDirectory path ok) = false) ->
  (forall path c ok, p (WroteFile path c ok) = false) ->
  Avoids p (saveToFile pf text links query outputDir).
Proof.
  intros Hlog Hdir Hfile.
  unfold saveToFile, log. cbv zeta.
  repeat first
    [ apply avoids_ret
    | apply avoids_throw
    | apply avoids_emit; apply Hlog
    | apply avoids_attempt; solve [apply Hdir | apply Hfile]
    | apply avoids_bind; [|intro]
    | apply avoids_tryCatch; [|intro] ].
Qed.

End WorkflowAvoids.

(* ================================================================== *)
(** * Properties of persistence                                        *)
(* ================================================================== *)

Section SaveFacts.
Import ResponseExtraction.
Context {H : Host}.

Lemma replaceClass_colon_dot (s : jsstring) :
  replaceClass false class_colon_dot false (lit "-") s
  = map dashUnlessPlain s.
Proof.
  unfold replaceClass. induction s as [|c s IH]; cbn [flat_map map].
  - reflexivity.
  - rewrite IH. unfold classMatches, class_colon_dot, dashUnlessPlain.
    cbn [existsb xorb orb].
    rewrite (Z.eqb_sym 58 c), (Z.eqb_sym 46 c), orb_false_r.
    destruct ((c =? 58) || (c =? 46)); reflexivity.
Qed.

Lemma written_app (t u : list Event) :
  written (t ++ u) = written t ++ written u.
Proof. unfold written. apply flat_map_app. Qed.

Lemma written_none (t : list Event) :
  existsb isFileEvent t = false -> written t = [].
Proof.
  induction t as [|e t IH]; [reflexivity|]. simpl.
  intros Hf. apply orb_false_iff in Hf as [He Ht].
  rewrite (IH Ht). destruct e; try reflexivity. discriminate.
Qed.

(** [saveToFile], outcome by outcome. *)
Lemma saveToFile_unfold (pf : Platform) (text : jsstring)
      (links : list jsstring) (query outputDir : jsstring) (s : Session) :
  let dir := pathJoin (cwd pf) outputDir in
  let filepath := pathJoin dir (fileNameFor pf query) in
  let content := {| rec_query := query; rec_timestamp := nowForRecord pf;
                    rec_text := text; rec_links := links |} in
  let step6 := Logged namespace (STEP 6) (lit "Saving response to JSON file...") in
  let failed := Logged namespace ERROR (lit "Failed to save response to file") in
  saveToFile pf text links query outputDir s =
    if mkdirSucceeds pf then
      if writeFileSucceeds pf then
        Resolved filepath
          {| asked := asked s;
             trace := trace s ++
               [step6; MadeDirectory dir true; WroteFile filepath content true;
                Logged namespace SUCCESS (lit "Response saved to: " ++ filepath);
                Logged namespace INFO
                  (lit "Saved " ++ toString (Z.of_nat (List.length links))
                   ++ lit " citation link(s) and " ++ toString (JS.length text)
                   ++ lit " characters of text")] |}
      else
        Rejected (FsError filepath)
          {| asked := asked s;
             trace := trace s ++
               [step6; MadeDirectory dir true; WroteFile filepath content false;
                failed] |}
    else
      Rejected (FsError dir)
        {| asked := asked s;
           trace := trace s ++ [step6; MadeDirectory dir false; failed] |}.
Proof.
  cbv zeta. unfold saveToFile, fileNameFor, responseFileName.
  rewrite replaceClass_colon_dot.
  unfold tryCatch, bind, attempt, log, emit, throw, ret.
  destruct (mkdirSucceeds pf); [destruct (writeFileSucceeds pf)|];
    cbn [asked trace]; rewrite <- !app_assoc; reflexivity.
Qed.

Lemma dashUnlessPlain_spec (c : code_unit) :
  dashUnlessPlain c <> 58 /\ dashUnlessPlain c <> 46
  /\ (isIsoUnit c = true -> isFileNameUnit (dashUnlessPlain c) = true).
Proof.
  unfold dashUnlessPlain, isIsoUnit, isFileNameUnit, isSafeUnit.
  destruct (Z.eqb_spec c 58), (Z.eqb_spec c 46); cbn [orb];
    (split; [lia|split; [lia|]]); try reflexivity.
  intros Hiso.
  destruct (Z.leb_spec 48 c), (Z.leb_spec c 57), (Z.eqb_spec c 45),
    (Z.eqb_spec c 84), (Z.eqb_spec c 90); cbn in Hiso |- *;
    try discriminate; try lia;
    repeat match goal with
           | |- context [?a <=? ?b] => destruct (Z.leb_spec a b); try lia
           | |- context [?a =? ?b] => destruct (Z.eqb_spec a b); try lia
           end; reflexivity.
Qed.

Lemma last_app_nonempty {A} (t u : list A) (d : A) :
  u <> [] -> last (t ++ u) d = last u d.
Proof.
  intros Hu. induction t as [|x t IH]; [reflexivity|].
  cbn [app]. simpl. destruct (t ++ u) eqn:E.
  - apply app_eq_nil in E as [_ E]. contradiction.
  - exact IH.
Qed.

End SaveFacts.

(** X8.  The file [saveToFile] writes is named
    [chatgpt_response_<token>_<stamp>.json] inside
    [<cwd>/<outputDir>]: the stamp is the clock reading with every colon
    and dot turned into a dash, so it has the same length and holds
    neither; and when the clock reading is made of the units of an ISO
    instant, every unit of the file name is one of [[a-z0-9_]], ['-'],
    ['.'], ['T'], ['Z']. *)
Theorem saved_file_name_is_safe {H : Host}
        (pf : ResponseExtraction.Platform) (text : jsstring)
        (links : list jsstring) (query outputDir : jsstring)
        (s s' : Session) (filepath : jsstring) :
  ResponseExtraction.saveToFile pf text links query outputDir s
  = Resolved filepath s' ->
  let stamp := map dashUnlessPlain (ResponseExtraction.nowForFilename pf) in
  filepath
  = pathJoin (pathJoin (ResponseExtraction.cwd pf) outputDir)
             (responseFileName (ResponseExtraction.sanitizedQuery query) stamp)
  /\ List.length stamp = List.length (ResponseExtraction.nowForFilename pf)
  /\ ~ In 58 stamp /\ ~ In 46 stamp
  /\ (forallb isIsoUnit (ResponseExtraction.nowForFilename pf) = true ->
      forallb isFileNameUnit
        (responseFileName (ResponseExtraction.sanitizedQuery query) stamp)
      = true).
Proof.
  intros Hrun. cbv zeta. rewrite saveToFile_unfold in Hrun. cbv zeta in Hrun.
  destruct (ResponseExtraction.mkdirSucceeds pf); [|discriminate].
  destruct (ResponseExtraction.writeFileSucceeds pf); [|discriminate].
  injection Hrun as <- _. repeat apply conj.
  - reflexivity.
  - apply length_map.
  - intros Hin. apply in_map_iff in Hin as [c [Hc _]].
    destruct (dashUnlessPlain_spec c) as [H1 _]. contradiction.
  - intros Hin. apply in_map_iff in Hin as [c [Hc _]].
    destruct (dashUnlessPlain_spec c) as [_ [H2 _]]. contradiction.
  - intros Hiso. unfold responseFileName.
    rewrite !forallb_app.
    assert (Htoken : forallb isFileNameUnit
                       (ResponseExtraction.sanitizedQuery query) = true).
    { rewrite sanitizedQuery_map. rewrite forallb_forall.
      intros c Hc. apply in_map_iff in Hc as [d [<- _]].
      unfold isFileNameUnit. rewrite lowered_unit_safe. reflexivity. }
    assert (Hstamp : forallb isFileNameUnit
                       (map dashUnlessPlain
                            (ResponseExtraction.nowForFilename pf)) = true).
    { rewrite forallb_forall in *. intros c Hc.
      apply in_map_iff in Hc as [d [<- Hd]].
      apply dashUnlessPlain_spec, Hiso, Hd. }
    rewrite Htoken, Hstamp. reflexivity.
Qed.

(** Running instance of X8. *)
Lemma saved_file_name_is_safe_witness :
  forallb isFileNameUnit
    (responseFileName
       (ResponseExtraction.sanitizedQuery (H := plainHost) (lit "Hi there"))
       (map dashUnlessPlain (lit "2025-01-01T00:00:00.000Z")))
  = true.
Proof.
  refine (proj2 (proj2 (proj2 (proj2
            (@saved_file_name_is_safe plainHost
               {| ResponseExtraction.cwd := lit "/srv";
                  ResponseExtraction.nowForFilename :=
                    lit "2025-01-01T00:00:00.000Z";
                  ResponseExtraction.nowForRecord :=
                    lit "2025-01-01T00:00:00.001Z";
                  ResponseExtraction.mkdirSucceeds := true;
                  ResponseExtraction.writeFileSucceeds := true |}
               (lit "Hello") [] (lit "Hi there") (lit "output") fresh
               _
               (lit "/srv/output/chatgpt_response_hi_there_2025-01-01T00-00-00-000Z.json")
               _)))) _).
  - vm_compute. reflexivity.
  - vm_compute. reflexivity.
Defined.

(** X9.  [saveToFile] settles in one of three ways.  If the directory
    cannot be made it rejects and no write is attempted; if the write
    fails it rejects; otherwise it resolves to the path of the one file it
    wrote, whose record holds the query, the second clock reading, the
    text and the links unchanged.  Every rejection is logged first. *)
Theorem saveToFile_outcomes {H : Host}
        (pf : ResponseExtraction.Platform) (text : jsstring)
        (links : list jsstring) (query outputDir : jsstring) (s : Session) :
  let dir := pathJoin (ResponseExtraction.cwd pf) outputDir in
  let failed :=
    Logged ResponseExtraction.namespace ERROR
           (lit "Failed to save response to file") in
  match ResponseExtraction.saveToFile pf text links query outputDir s with
  | Resolved filepath s' =>
      ResponseExtraction.mkdirSucceeds pf = true
      /\ ResponseExtraction.writeFileSucceeds pf = true
      /\ written (trace s')
         = written (trace s) ++
             [(filepath,
               {| rec_query := query;
                  rec_timestamp := ResponseExtraction.nowForRecord pf;
                  rec_text := text; rec_links := links |})]
  | Rejected e s' =>
      written (trace s') = written (trace s)
      /\ last (trace s') failed = failed
      /\ ((ResponseExtraction.mkdirSucceeds pf = false
           /\ e = FsError dir
           /\ count isFileEvent (trace s')
              = S (count isFileEvent (trace s)))
          \/ (ResponseExtraction.mkdirSucceeds pf = true
              /\ ResponseExtraction.writeFileSucceeds pf = false
              /\ e = FsError (pathJoin dir (fileNameFor pf query))))
  | Pending => False
  end.
Proof.
  cbv zeta. rewrite saveToFile_unfold. cbv zeta.
  destruct (ResponseExtraction.mkdirSucceeds pf);
    [destruct (ResponseExtraction.writeFileSucceeds pf)|]; cbn [trace].
  - repeat split. rewrite written_app. reflexivity.
  - repeat split.
    + rewrite written_app. cbn. now rewrite app_nil_r.
    + rewrite last_app_nonempty by discriminate. reflexivity.
    + right. auto.
  - repeat split.
    + rewrite written_app. cbn. now rewrite app_nil_r.
    + rewrite last_app_nonempty by discriminate. reflexivity.
    + left. repeat split. unfold count.
      rewrite filter_app, length_app. cbn. lia.
Qed.

(* ================================================================== *)
(** * Properties of the extraction workflow                            *)
(* ================================================================== *)

Section WorkflowOutcomes.
Import ResponseExtraction.
Context {H : Host}.

(** The loop never rejects: each turn resolves. *)
Lemma while_never_rejects (page : Page) (ci : Z) (fuel : nat) :
  forall v s e s', while fuel (loopBody page ci) v s <> Rejected e s'.
Proof.
  induction fuel as [|fuel IH]; intros v s e s'; simpl.
  - destruct (stopButtonExists v); discriminate.
  - destruct (stopButtonExists v); [|discriminate].
    destruct (turn_cases page s) as [Hp|[[Hp Hc]|[Hp Hc]]].
    + rewrite loopBody_present by assumption. apply IH.
    + rewrite loopBody_false_negative by assumption. apply IH.
    + rewrite loopBody_confirmed by assumption. apply IH.
Qed.

Lemma wait_never_rejects (page : Page) (ci : Z) (fuel : nat)
      (s : Session) (e : Error) (s' : Session) :
  waitForResponseComplete page ci fuel s <> Rejected e s'.
Proof.
  rewrite waitForResponseComplete_unfold.
  destruct (while fuel _ _ _) as [v1 s1|e1 s1|] eqn:Hloop; try discriminate.
  exfalso. exact (while_never_rejects _ _ _ _ _ _ _ Hloop).
Qed.

(** The workflow, step by step. *)
Lemma extractAndSaveResponse_unfold (page : Page) (pf : Platform)
      (query : jsstring) (ci : Z) (fuel : nat) (s : Session) :
  let failed := Logged namespace ERROR
                       (lit "Response extraction workflow failed") in
  let note s1 e := {| asked := asked s1; trace := trace s1 ++ [e] |} in
  extractAndSaveResponse page pf query ci fuel s =
    match waitForResponseComplete page ci fuel
            (note s (Logged namespace INFO
                            (lit "Starting response extraction workflow...")))
    with
    | Resolved _ s1 =>
        match extractResponseText page s1 with
        | Resolved r s2 =>
            match saveToFile pf (text r) (links r) query (lit "output") s2 with
            | Resolved filepath s3 =>
                Resolved {| wf_text := text r; wf_links := links r;
                            wf_filepath := filepath |}
                  (note s3
                     (Logged namespace SUCCESS
                        (lit "Response extraction workflow completed successfully")))
            | Rejected e s3 => Rejected e (note s3 failed)
            | Pending => Pending
            end
        | Rejected e s2 => Rejected e (note s2 failed)
        | Pending => Pending
        end
    | Rejected e s1 => Rejected e (note s1 failed)
    | Pending => Pending
    end.
Proof.
  cbv zeta. unfold extractAndSaveResponse.
  unfold tryCatch at 1. unfold bind at 1. unfold log at 1, emit at 1.
  unfold bind at 1.
  destruct (waitForResponseComplete page ci fuel _) as [u s1|e s1|];
    [|reflexivity|reflexivity].
  unfold bind at 1.
  destruct (extractResponseText page s1) as [r s2|e s2|];
    [|reflexivity|reflexivity].
  unfold bind at 1.
  destruct (saveToFile pf (text r) (links r) query (lit "output") s2)
    as [fp s3|e s3|]; reflexivity.
Qed.

(** What a resolved extraction hands back. *)
Lemma extractResponseText_resolved (page : Page) (s s' : Session)
      (r : ExtractionResult) :
  extractResponseText page s = Resolved r s' ->
  exists art,
    selectedTurn (document page) = Some art
    /\ r = (if truthy (extractText art)
            then {| text := extractText art; links := citationLinks art |}
            else emptySentinel).
Proof.
  intros Hrun.
  destruct (documentQuerySelectorAll articleSelector (document page))
    as [|a0 rest] eqn:Hq.
  - rewrite (extractResponseText_no_turn page s Hq) in Hrun. discriminate.
  - destruct (selectedTurn_some (document page)) as [art Hsel];
      [rewrite Hq; discriminate|].
    destruct (extractResponseText_selected page art s Hsel) as [s1 Hrun1].
    rewrite Hrun1 in Hrun. injection Hrun as <- <-. exists art. auto.
Qed.

(** The file events of the workflow up to the end of extraction: none. *)
Lemma no_file_before_save (page : Page) (ci : Z) (fuel : nat)
      (s s1 : Session) :
  waitForResponseComplete page ci fuel s = Resolved tt s1 ->
  match extractResponseText page s1 with
  | Resolved _ s2 | Rejected _ s2 =>
      exists t, trace s2 = trace s ++ t /\ existsb isFileEvent t = false
  | Pending => False
  end.
Proof.
  intros Hwait.
  pose proof (avoids_wait isFileEvent page ci fuel
                (fun _ _ _ => eq_refl) (fun _ => eq_refl)
                (fun _ _ => eq_refl) s) as Hw.
  rewrite Hwait in Hw. destruct Hw as [t1 [Ht1 Hf1]].
  pose proof (avoids_extract isFileEvent page
                (fun _ _ _ => eq_refl) (fun _ _ _ => eq_refl) eq_refl s1)
    as Hx.
  pose proof (extractResponseText_trace page s1) as Hsettles.
  destruct (extractResponseText page s1) as [r s2|e s2|]; [| |contradiction];
    destruct Hx as [t2 [Ht2 Hf2]]; exists (t1 ++ t2);
    rewrite Ht2, Ht1, app_assoc, existsb_app, Hf1, Hf2; auto.
Qed.

End WorkflowOutcomes.

(** X10.  When the page shows no conversation turn, the workflow never
    resolves: once the polling loop is over it rejects with the timeout
    of the selector wait, and by then it has neither made the directory
    nor written a file. *)
Theorem workflow_without_turn_writes_nothing {H : Host}
        (page : ResponseExtraction.Page) (pf : ResponseExtraction.Platform)
        (query : jsstring) (ci : Z) (fuel : nat) :
  documentQuerySelectorAll ResponseExtraction.articleSelector
    (ResponseExtraction.document page) = [] ->
  match ResponseExtraction.extractAndSaveResponse page pf query ci fuel fresh
  with
  | Resolved _ _ => False
  | Rejected e s' =>
      e = TimeoutError ResponseExtraction.articleSelector
      /\ existsb isFileEvent (trace s') = false
  | Pending =>
      ResponseExtraction.waitForResponseComplete page ci fuel
        {| asked := 0;
           trace := [Logged ResponseExtraction.namespace INFO
                            (lit "Starting response extraction workflow...")] |}
      = Pending
  end.
Proof.
  intros Hq. rewrite extractAndSaveResponse_unfold. cbv zeta.
  cbn [asked trace fresh app].
  destruct (ResponseExtraction.waitForResponseComplete page ci fuel _)
    as [[] s1|e s1|] eqn:Hwait.
  - pose proof (no_file_before_save page ci fuel _ s1 Hwait) as Hnf.
    rewrite (extractResponseText_no_turn page s1 Hq) in *.
    destruct Hnf as [t [Ht Hf]]. cbn [trace] in *. split; [reflexivity|].
    rewrite Ht, !existsb_app, Hf. reflexivity.
  - exfalso. exact (wait_never_rejects _ _ _ _ _ _ Hwait).
  - reflexivity.
Qed.

(** Running instance of X10: a blank page whose indicator is gone. *)
Lemma workflow_without_turn_writes_nothing_witness :
  exists s',
    ResponseExtraction.extractAndSaveResponse (H := plainHost)
      (pageShowing blankDocument)
      {| ResponseExtraction.cwd := lit "/srv";
         ResponseExtraction.nowForFilename := lit "2025-01-01T00:00:00.000Z";
         ResponseExtraction.nowForRecord := lit "2025-01-01T00:00:00.001Z";
         ResponseExtraction.mkdirSucceeds := true;
         ResponseExtraction.writeFileSucceeds := true |}
      (lit "Hi") 1000 2 fresh
    = Rejected (TimeoutError ResponseExtraction.articleSelector) s'
    /\ existsb isFileEvent (trace s') = false.
Proof.
  eexists. split; [vm_compute; reflexivity|].
  pose proof (@workflow_without_turn_writes_nothing plainHost
                (pageShowing blankDocument)
                {| ResponseExtraction.cwd := lit "/srv";
                   ResponseExtraction.nowForFilename :=
                     lit "2025-01-01T00:00:00.000Z";
                   ResponseExtraction.nowForRecord :=
                     lit "2025-01-01T00:00:00.001Z";
                   ResponseExtraction.mkdirSucceeds := true;
                   ResponseExtraction.writeFileSucceeds := true |}
                (lit "Hi") 1000 2 eq_refl) as Hw.
  vm_compute in Hw. vm_compute. exact (proj2 Hw).
Defined.

(** X11.  When the workflow resolves, exactly one file has been written:
    its path is the path returned, inside [<cwd>/output], and its record
    holds the query and the very text and links returned; the text is
    never empty. *)
Theorem workflow_result_is_what_was_written {H : Host}
        (page : ResponseExtraction.Page) (pf : ResponseExtraction.Platform)
        (query : jsstring) (ci : Z) (fuel : nat)
        (r : ResponseExtraction.WorkflowResult) (s' : Session) :
  ResponseExtraction.extractAndSaveResponse page pf query ci fuel fresh
  = Resolved r s' ->
  written (trace s')
  = [(ResponseExtraction.wf_filepath r,
      {| rec_query := query;
         rec_timestamp := ResponseExtraction.nowForRecord pf;
         rec_text := ResponseExtraction.wf_text r;
         rec_links := ResponseExtraction.wf_links r |})]
  /\ ResponseExtraction.wf_filepath r
     = pathJoin (pathJoin (ResponseExtraction.cwd pf) (lit "output"))
                (fileNameFor pf query)
  /\ ResponseExtraction.wf_text r <> [].
Proof.
  intros Hrun. rewrite extractAndSaveResponse_unfold in Hrun.
  cbv zeta in Hrun. cbn [asked trace fresh app] in Hrun.
  destruct (ResponseExtraction.waitForResponseComplete page ci fuel _)
    as [[] s1|e s1|] eqn:Hwait; try discriminate.
  pose proof (no_file_before_save page ci fuel _ s1 Hwait) as Hnf.
  destruct (ResponseExtraction.extractResponseText page s1)
    as [x s2|e s2|] eqn:Hx; try discriminate.
  destruct Hnf as [t [Ht Hf]]. cbn [trace] in Ht.
  rewrite saveToFile_unfold in Hrun. cbv zeta in Hrun.
  destruct (ResponseExtraction.mkdirSucceeds pf); [|discriminate].
  destruct (ResponseExtraction.writeFileSucceeds pf); [|discriminate].
  injection Hrun as <- <-. cbn [trace ResponseExtraction.wf_filepath
    ResponseExtraction.wf_text ResponseExtraction.wf_links].
  repeat apply conj.
  - rewrite Ht. rewrite !written_app. rewrite (written_none t Hf).
    reflexivity.
  - reflexivity.
  - destruct (extractResponseText_resolved page s1 s2 x Hx) as [art [_ ->]].
    destruct (truthy (ResponseExtraction.extractText art)) eqn:Htr.
    + apply truthy_iff, Htr.
    + discriminate.
Qed.

(** Running instance of X11. *)
Lemma workflow_result_is_what_was_written_witness :
  exists r s',
    ResponseExtraction.extractAndSaveResponse (H := plainHost)
      (pageShowing
         (documentOf [Elt (turn [Elt (elem "p" [Text (lit "Hello")])])]))
      {| ResponseExtraction.cwd := lit "/srv";
         ResponseExtraction.nowForFilename := lit "2025-01-01T00:00:00.000Z";
         ResponseExtraction.nowForRecord := lit "2025-01-01T00:00:00.001Z";
         ResponseExtraction.mkdirSucceeds := true;
         ResponseExtraction.writeFileSucceeds := true |}
      (lit "Hi") 1000 2 fresh
    = Resolved r s'
    /\ ResponseExtraction.wf_text r <> [].
Proof.
  eexists. eexists. split; [vm_compute; reflexivity|].
  refine (proj2 (proj2 (@workflow_result_is_what_was_written plainHost
            (pageShowing
               (documentOf [Elt (turn [Elt (elem "p" [Text (lit "Hello")])])]))
            {| ResponseExtraction.cwd := lit "/srv";
               ResponseExtraction.nowForFilename :=
                 lit "2025-01-01T00:00:00.000Z";
               ResponseExtraction.nowForRecord :=
                 lit "2025-01-01T00:00:00.001Z";
               ResponseExtraction.mkdirSucceeds := true;
               ResponseExtraction.writeFileSucceeds := true |}
            (lit "Hi") 1000 2%nat _ _ _))).
  vm_compute. reflexivity.
Defined.

(** X12.  The sentinel of an empty extraction is persisted like any
    text: with a turn whose extracted text is empty and a working file
    system, the workflow resolves as soon as the polling loop is over,
    returns the sentinel with no links, and the file it writes holds the
    sentinel as its text. *)
Theorem workflow_persists_the_sentinel {H : Host}
        (page : ResponseExtraction.Page) (pf : ResponseExtraction.Platform)
        (query : jsstring) (ci : Z) (fuel : nat) (art : Element) :
  selectedTurn (ResponseExtraction.document page) = Some art ->
  ResponseExtraction.extractText art = [] ->
  ResponseExtraction.mkdirSucceeds pf = true ->
  ResponseExtraction.writeFileSucceeds pf = true ->
  match ResponseExtraction.extractAndSaveResponse page pf query ci fuel fresh
  with
  | Resolved r s' =>
      ResponseExtraction.wf_text r = lit "Error: Empty response extracted"
      /\ ResponseExtraction.wf_links r = []
      /\ written (trace s')
         = [(ResponseExtraction.wf_filepath r,
             {| rec_query := query;
                rec_timestamp := ResponseExtraction.nowForRecord pf;
                rec_text := lit "Error: Empty response extracted";
                rec_links := [] |})]
  | Rejected _ _ => False
  | Pending =>
      ResponseExtraction.waitForResponseComplete page ci fuel
        {| asked := 0;
           trace := [Logged ResponseExtraction.namespace INFO
                            (lit "Starting response extraction workflow...")] |}
      = Pending
  end.
Proof.
  intros Hsel Hempty Hdir Hfile.
  rewrite extractAndSaveResponse_unfold. cbv zeta.
  cbn [asked trace fresh app].
  destruct (ResponseExtraction.waitForResponseComplete page ci fuel _)
    as [[] s1|e s1|] eqn:Hwait.
  - pose proof (no_file_before_save page ci fuel _ s1 Hwait) as Hnf.
    destruct (extractResponseText_selected page art s1 Hsel) as [s2 Hx].
    rewrite Hempty in Hx. cbn [truthy] in Hx. rewrite Hx in *.
    destruct Hnf as [t [Ht Hf]]. cbn [trace] in Ht.
    rewrite saveToFile_unfold. cbv zeta. rewrite Hdir, Hfile.
    cbn [trace ResponseExtraction.wf_filepath ResponseExtraction.wf_text
           ResponseExtraction.wf_links ResponseExtraction.text
           ResponseExtraction.links emptySentinel].
    repeat apply conj; try reflexivity.
    rewrite Ht. rewrite !written_app. rewrite (written_none t Hf).
    reflexivity.
  - exfalso. exact (wait_never_rejects _ _ _ _ _ _ Hwait).
  - reflexivity.
Qed.

(** Running instance of X12: a turn of one blank paragraph. *)
Lemma workflow_persists_the_sentinel_witness :
  exists r s',
    ResponseExtraction.extractAndSaveResponse (H := plainHost)
      (pageShowing
         (documentOf [Elt (turn [Elt (elem "p" [Text (lit "   ")])])]))
      {| ResponseExtraction.cwd := lit "/srv";
         ResponseExtraction.nowForFilename := lit "2025-01-01T00:00:00.000Z";
         ResponseExtraction.nowForRecord := lit "2025-01-01T00:00:00.001Z";
         ResponseExtraction.mkdirSucceeds := true;
         ResponseExtraction.writeFileSucceeds := true |}
      (lit "Hi") 1000 2 fresh
    = Resolved r s'
    /\ ResponseExtraction.wf_text r = lit "Error: Empty response extracted".
Proof.
  pose proof (@workflow_persists_the_sentinel plainHost
                (pageShowing
                   (documentOf [Elt (turn [Elt (elem "p" [Text (lit "   ")])])]))
                {| ResponseExtraction.cwd := lit "/srv";
                   ResponseExtraction.nowForFilename :=
                     lit "2025-01-01T00:00:00.000Z";
                   ResponseExtraction.nowForRecord :=
                     lit "2025-01-01T00:00:00.001Z";
                   ResponseExtraction.mkdirSucceeds := true;
                   ResponseExtraction.writeFileSucceeds := true |}
                (lit "Hi") 1000 2
                (turn [Elt (elem "p" [Text (lit "   ")])])
                eq_refl eq_refl eq_refl eq_refl) as Hw.
  destruct (ResponseExtraction.extractAndSaveResponse _ _ _ _ _ _)
    as [r s'|e s'|].
  - exists r, s'. split; [reflexivity | exact (proj1 Hw)].
  - contradiction.
  - exfalso. revert Hw. vm_compute. discriminate.
Defined.

(* ================================================================== *)
(** * Outcomes that do not depend on the trace                         *)
(* ================================================================== *)

Section BlindFacts.

Lemma blind_ret {A} (a : A) : TraceBlind (ret a).
Proof. intros s t Hst. simpl. auto. Qed.

Lemma blind_throw {A} (e : Error) : TraceBlind (@throw A e).
Proof. intros s t Hst. simpl. auto. Qed.

Lemma blind_emit (e : Event) : TraceBlind (emit e).
Proof. intros s t Hst. simpl. auto. Qed.

Lemma blind_attempt (ok : bool) (e : Event) (err : Error) :
  TraceBlind (attempt ok e err).
Proof. intros s t Hst. unfold attempt. destruct ok; simpl; auto. Qed.

Lemma blind_lookup (page : ResponseExtraction.Page) :
  TraceBlind (ResponseExtraction.lookupStopButton page).
Proof.
  intros s t Hst. unfold ResponseExtraction.lookupStopButton. simpl.
  rewrite Hst. auto.
Qed.

Lemma blind_bind {A B} (m : Async A) (k : A -> Async B) :
  TraceBlind m -> (forall a, TraceBlind (k a)) -> TraceBlind (bind m k).
Proof.
  intros Hm Hk s t Hst. unfold bind. specialize (Hm s t Hst).
  destruct (m s) as [a s1|e s1|], (m t) as [b t1|f t1|];
    simpl in Hm; try contradiction; auto.
  destruct Hm as [<- Hst1]. apply Hk, Hst1.
Qed.

Lemma blind_tryCatch {A} (m : Async A) (h : Error -> Async A) :
  TraceBlind m -> (forall e, TraceBlind (h e)) -> TraceBlind (tryCatch m h).
Proof.
  intros Hm Hh s t Hst. unfold tryCatch. specialize (Hm s t Hst).
  destruct (m s) as [a s1|e s1|], (m t) as [b t1|f t1|];
    simpl in Hm; try contradiction; auto.
  destruct Hm as [<- Hst1]. apply Hh, Hst1.
Qed.

Lemma blind_while (fuel : nat)
      (body : ResponseExtraction.Vars -> Async ResponseExtraction.Vars) :
  (forall v, TraceBlind (body v)) ->
  forall v, TraceBlind (ResponseExtraction.while fuel body v).
Proof.
  intros Hbody. induction fuel as [|fuel IH]; intros v s t Hst; simpl.
  - destruct (ResponseExtraction.stopButtonExists v); simpl; auto.
  - destruct (ResponseExtraction.stopButtonExists v); [|simpl; auto].
    specialize (Hbody v s t Hst).
    destruct (body v s) as [a s1|e s1|], (body v t) as [b t1|f t1|];
      simpl in Hbody; try contradiction; auto.
    destruct Hbody as [<- Hst1]. apply IH, Hst1.
Qed.

End BlindFacts.

Ltac blind :=
  repeat first
    [ apply blind_ret
    | apply blind_throw
    | apply blind_emit
    | apply blind_attempt
    | apply blind_lookup
    | apply blind_while; intro
    | apply blind_bind; [|intro]
    | apply blind_tryCatch; [|intro]
    | match goal with
      | |- TraceBlind (if ?c then _ else _) => destruct c
      | |- TraceBlind (match ?c with _ => _ end) => destruct c
      end ].

Section WorkflowBlind.
Import ResponseExtraction.
Context {H : Host}.

Lemma blind_workflow (page : Page) (pf : Platform) (query : jsstring)
      (ci : Z) (fuel : nat) :
  TraceBlind (extractAndSaveResponse page pf query ci fuel).
Proof.
  unfold extractAndSaveResponse, waitForResponseComplete, loopBody,
    extractResponseText, extractResponseTextOn, waitForSelector, saveToFile,
    log, delay.
  cbv zeta. blind.
Qed.

(** The workflow settles the same way from every session that has not
    looked the indicator up yet. *)
Lemma workflow_from_any_trace (page : Page) (pf : Platform)
      (query : jsstring) (ci : Z) (fuel : nat) (s : Session) :
  asked s = 0%nat ->
  alike (extractAndSaveResponse page pf query ci fuel s)
        (extractAndSaveResponse page pf query ci fuel fresh).
Proof. intros Hs. apply blind_workflow. exact Hs. Qed.

End WorkflowBlind.

(* ================================================================== *)
(** * Further properties of the orchestrator                           *)
(* ================================================================== *)

Section MainFacts.
Context {H : Host}.

Lemma logLinks_run (links : list jsstring) :
  forall index s,
    Main.logLinks index links s = Resolved tt (extend s (linkLines index links)).
Proof.
  induction links as [|link rest IH]; intros index s.
  - unfold extend. simpl. rewrite app_nil_r. destruct s. reflexivity.
  - cbn [Main.logLinks linkLines]. unfold bind, log, emit.
    rewrite IH. unfold extend. cbn [asked trace].
    rewrite <- app_assoc. reflexivity.
Qed.

(** [proceed], outcome by outcome. *)
Lemma proceed_unfold (w : Main.World) (fuel : nat) (query : jsstring)
      (h : Main.Handles) (s : Session) :
  let s0 :=
    if truthy (Main.browserSessionId h)
    then extend s [Logged Main.namespace INFO
                          (lit "Browserbase Session ID: "
                           ++ Main.browserSessionId h)]
    else s in
  Main.proceed w fuel query h s =
    if Main.navigationSucceeds w then
      if Main.submissionSucceeds w then
        match ResponseExtraction.extractAndSaveResponse
                (Main.page w) (Main.platform w) query Main.CHECK_INTERVAL fuel
                (extend s0 [Navigated Main.CHATGPT_URL true;
                            Submitted query true])
        with
        | Resolved r s3 => Resolved tt (extend s3 (summaryLines h r))
        | Rejected e s3 => Rejected e s3
        | Pending => Pending
        end
      else
        Rejected SubmissionError
          (extend s0 [Navigated Main.CHATGPT_URL true; Submitted query false])
    else
      Rejected NavigationError (extend s0 [Navigated Main.CHATGPT_URL false]).
Proof.
  cbv zeta. unfold Main.proceed, Main.navigateToUrl, Main.submitQueryWorkflow.
  unfold bind at 1.
  assert (Hs0 :
            (if truthy (Main.browserSessionId h)
             then log Main.namespace INFO
                      (lit "Browserbase Session ID: " ++ Main.browserSessionId h)
             else ret tt) s
            = Resolved tt
                (if truthy (Main.browserSessionId h)
                 then extend s [Logged Main.namespace INFO
                                       (lit "Browserbase Session ID: "
                                        ++ Main.browserSessionId h)]
                 else s)).
  { destruct (truthy (Main.browserSessionId h)); reflexivity. }
  rewrite Hs0. clear Hs0.
  set (s0 := if truthy (Main.browserSessionId h) then _ else s).
  unfold bind at 1. unfold attempt at 1.
  destruct (Main.navigationSucceeds w); [|reflexivity].
  unfold bind at 1. unfold attempt at 1. cbn [asked trace].
  destruct (Main.submissionSucceeds w);
    [|unfold extend; cbn [asked trace]; rewrite <- app_assoc; reflexivity].
  unfold bind at 1.
  replace {| asked := asked s0;
             trace := (trace s0 ++ [Navigated Main.CHATGPT_URL true])
                        ++ [Submitted query true] |}
    with (extend s0 [Navigated Main.CHATGPT_URL true; Submitted query true])
    by (unfold extend; rewrite <- app_assoc; reflexivity).
  destruct (ResponseExtraction.extractAndSaveResponse _ _ _ _ _ _)
    as [r s3|e s3|]; [|reflexivity|reflexivity].
  unfold bind, log, delay, emit, ret. cbn [asked trace].
  unfold summaryLines, extend.
  destruct (Z.of_nat (List.length (ResponseExtraction.wf_links r)) >? 0);
    [rewrite logLinks_run; unfold extend|];
    destruct (truthy (Main.browserSessionId h));
    cbn [asked trace]; rewrite <- !app_assoc; reflexivity.
Qed.

(** [runScraper], outcome by outcome. *)
Lemma runScraper_unfold (w : Main.World) (fuel : nat) (s : Session) :
  let failed := Logged Main.namespace ERROR (lit "Scraper failed with error") in
  let closeOk := Main.closeSucceeds w in
  Main.runScraper w fuel s =
    match nth_error (Main.argv w) 2 with
    | Some q =>
        if truthy q then
          if Main.setupSucceeds w then
            match Main.proceed w fuel q
                    {| Main.browserSessionId := Main.sessionId w |}
                    (extend s (bannerLines q ++ [SessionRequested true]))
            with
            | Resolved _ s2 =>
                Resolved (codeAfterClose closeOk 0)
                         (extend s2 (closingLines closeOk))
            | Rejected _ s2 =>
                Resolved 1 (extend s2 (failed :: closingLines closeOk))
            | Pending => Pending
            end
          else
            Resolved 1
              (extend s (bannerLines q ++ [SessionRequested false; failed]))
        else Resolved 1 (extend s usageLines)
    | None => Resolved 1 (extend s usageLines)
    end.
Proof.
  cbv zeta. unfold Main.runScraper, Main.acquire.
  destruct (nth_error (Main.argv w) 2) as [q|];
    [destruct (truthy q)|];
    try (unfold bind, log, emit, ret, Main.cleanup, extend, usageLines;
         cbn [asked trace]; rewrite <- !app_assoc; reflexivity).
  unfold Main.setupBrowser.
  unfold bind at 1. unfold log at 1, emit at 1.
  unfold bind at 1. unfold log at 1, emit at 1.
  unfold bind at 1. unfold log at 1, emit at 1.
  unfold bind at 1. unfold log at 1, emit at 1.
  unfold bind at 1. unfold log at 1, emit at 1.
  unfold bind at 1. unfold bind at 1. unfold attempt. cbn [asked trace].
  destruct (Main.setupSucceeds w).
  - unfold ret at 1. unfold ret at 1.
    replace {| asked := asked s;
               trace := (((((trace s ++ [Logged Main.namespace INFO Main.rule])
                              ++ [Logged Main.namespace INFO
                                         (lit "ChatGPT Web Scraper Started")])
                             ++ [Logged Main.namespace INFO Main.rule])
                            ++ [Logged Main.namespace INFO
                                       (lit "Query: " ++ dq ++ q ++ dq)])
                           ++ [Logged Main.namespace INFO Main.rule])
                          ++ [SessionRequested true] |}
      with (extend s (bannerLines q ++ [SessionRequested true]))
      by (unfold extend, bannerLines; rewrite <- !app_assoc; reflexivity).
    unfold bind at 1. unfold tryCatch at 1. unfold bind at 1.
    destruct (Main.proceed w fuel q _ _) as [u s2|e s2|].
    + destruct (Main.closeSucceeds w) eqn:Hclose;
        cbv [Main.onError bind log emit ret Main.cleanup tryCatch
             Main.closeBrowser attempt closingLines codeAfterClose extend
             asked trace]; rewrite Hclose; cbv beta iota;
        rewrite <- ?app_assoc; reflexivity.
    + destruct (Main.closeSucceeds w) eqn:Hclose;
        cbv [Main.onError bind log emit ret Main.cleanup tryCatch
             Main.closeBrowser attempt closingLines codeAfterClose extend
             asked trace]; rewrite Hclose; cbv beta iota;
        rewrite <- ?app_assoc; reflexivity.
    + reflexivity.
  - unfold Main.onError, bind, log, emit, ret, Main.cleanup, extend,
      bannerLines. cbn [asked trace]. rewrite <- !app_assoc. reflexivity.
Qed.

End MainFacts.

Section PipelineFacts.
Import ResponseExtraction.
Context {H : Host}.

(** The record the workflow writes for a result. *)
Lemma workflow_written (page : Page) (pf : Platform) (query : jsstring)
      (ci : Z) (fuel : nat) (s : Session) :
  match extractAndSaveResponse page pf query ci fuel s with
  | Resolved r s3 =>
      written (trace s3)
      = written (trace s) ++
          [(wf_filepath r,
            {| rec_query := query; rec_timestamp := nowForRecord pf;
               rec_text := wf_text r; rec_links := wf_links r |})]
  | Rejected _ s3 => written (trace s3) = written (trace s)
  | Pending => True
  end.
Proof.
  rewrite extractAndSaveResponse_unfold. cbv zeta.
  destruct (waitForResponseComplete page ci fuel _) as [[] s1|e s1|] eqn:Hwait.
  - pose proof (no_file_before_save page ci fuel _ s1 Hwait) as Hnf.
    destruct (extractResponseText page s1) as [x s2|e s2|];
      [| |contradiction]; destruct Hnf as [t [Ht Hf]]; cbn [trace] in Ht.
    + rewrite saveToFile_unfold. cbv zeta.
      destruct (mkdirSucceeds pf); [destruct (writeFileSucceeds pf)|];
        cbn [trace wf_filepath wf_text wf_links]; rewrite Ht;
        rewrite !written_app, (written_none t Hf); cbn;
        rewrite ?app_nil_r; reflexivity.
    + cbn [trace]. rewrite Ht.
      rewrite !written_app, (written_none t Hf). cbn.
      rewrite ?app_nil_r. reflexivity.
  - exfalso. exact (wait_never_rejects _ _ _ _ _ _ Hwait).
  - exact I.
Qed.

Lemma avoids_workflow (p : Event -> bool) (page : Page) (pf : Platform)
      (query : jsstring) (ci : Z) (fuel : nat) :
  (forall ns l m, p (Logged ns l m) = false) ->
  (forall ms, p (Slept ms) = false) ->
  (forall sel found, p (Polled sel found) = false) ->
  (forall sel t ok, p (AwaitedSelector sel t ok) = false) ->
  p Evaluated = false ->
  (forall path ok, p (MadeDirectory path ok) = false) ->
  (forall path c ok, p (WroteFile path c ok) = false) ->
  Avoids p (extractAndSaveResponse page pf query ci fuel).
Proof.
  intros Hlog Hsleep Hpoll Hwait Heval Hdir Hfile.
  unfold extractAndSaveResponse.
  apply avoids_tryCatch.
  - apply avoids_bind; [apply avoids_emit, Hlog|intros _].
    apply avoids_bind; [apply avoids_wait; assumption|intros _].
    apply avoids_bind; [apply avoids_extract; assumption|intros r].
    apply avoids_bind; [apply avoids_save; assumption|intros fp].
    apply avoids_bind; [apply avoids_emit, Hlog|intros _].
    apply avoids_ret.
  - intros e. apply avoids_bind; [apply avoids_emit, Hlog|intros _].
    apply avoids_throw.
Qed.

Lemma quiet_linkLines (links : list jsstring) (index : Z) :
  forallb isQuiet (linkLines index links) = true.
Proof.
  revert index. induction links as [|l rest IH]; intros index;
    [reflexivity|]. cbn [linkLines forallb isQuiet]. apply IH.
Qed.

Lemma quiet_summaryLines (h : Main.Handles) (r : WorkflowResult) :
  forallb isQuiet (summaryLines h r) = true.
Proof.
  unfold summaryLines. rewrite !forallb_app.
  destruct (Z.of_nat (List.length (wf_links r)) >? 0);
    destruct (truthy (Main.browserSessionId h));
    rewrite ?quiet_linkLines; reflexivity.
Qed.

Lemma quiet_no_event (p : Event -> bool) (t : list Event) :
  (forall e, isQuiet e = true -> p e = false) ->
  forallb isQuiet t = true -> existsb p t = false.
Proof.
  intros Hp. induction t as [|e t IH]; [reflexivity|].
  cbn [forallb existsb]. intros Hq.
  apply andb_true_iff in Hq as [He Ht]. rewrite (Hp e He), (IH Ht).
  reflexivity.
Qed.

Lemma quiet_written (t : list Event) :
  forallb isQuiet t = true -> written t = [].
Proof.
  intros Hq. apply written_none. apply quiet_no_event; [|exact Hq].
  intros e He. destruct e; try discriminate; reflexivity.
Qed.

(** What [proceed] adds to the trace: nothing that opens or closes a
    session; one written file when it resolves, none when it rejects. *)
Lemma proceed_adds (w : Main.World) (fuel : nat) (query : jsstring)
      (h : Main.Handles) (s : Session) :
  match Main.proceed w fuel query h s with
  | Resolved _ s' =>
      exists t, trace s' = trace s ++ t
                /\ existsb isSessionEvent t = false
                /\ existsb isCloseEvent t = false
                /\ List.length (written t) = 1%nat
  | Rejected _ s' =>
      exists t, trace s' = trace s ++ t
                /\ existsb isSessionEvent t = false
                /\ existsb isCloseEvent t = false
                /\ written t = []
  | Pending => True
  end.
Proof.
  rewrite proceed_unfold. cbv zeta.
  set (idLine := Logged Main.namespace INFO
                        (lit "Browserbase Session ID: "
                         ++ Main.browserSessionId h)).
  assert (Hs0 : exists t0,
             trace (if truthy (Main.browserSessionId h)
                    then extend s [idLine] else s) = trace s ++ t0
             /\ forallb isQuiet t0 = true).
  { destruct (truthy (Main.browserSessionId h)).
    - exists [idLine]. split; reflexivity.
    - exists []. rewrite app_nil_r. split; reflexivity. }
  destruct Hs0 as [t0 [Ht0 Hq0]].
  set (s0 := if truthy (Main.browserSessionId h) then _ else s) in *.
  destruct (Main.navigationSucceeds w);
    [destruct (Main.submissionSucceeds w)|].
  - set (sX := extend s0 [Navigated Main.CHATGPT_URL true;
                          Submitted query true]).
    pose proof (workflow_written (Main.page w) (Main.platform w) query
                  Main.CHECK_INTERVAL fuel sX) as Hw.
    pose proof (avoids_workflow
                  (fun e => isSessionEvent e || isCloseEvent e)
                  (Main.page w) (Main.platform w) query
                  Main.CHECK_INTERVAL fuel
                  (fun _ _ _ => eq_refl) (fun _ => eq_refl)
                  (fun _ _ => eq_refl) (fun _ _ _ => eq_refl) eq_refl
                  (fun _ _ => eq_refl) (fun _ _ _ => eq_refl) sX) as Ha.
    destruct (extractAndSaveResponse _ _ _ _ _ sX) as [r s3|e s3|];
      [| |exact I]; destruct Ha as [t [Ht Hp]];
      rewrite Ht, written_app in Hw;
      unfold sX, extend in Ht; cbn [trace] in Ht; rewrite Ht0 in Ht.
    + exists (t0 ++ [Navigated Main.CHATGPT_URL true; Submitted query true]
                 ++ t ++ summaryLines h r).
      unfold extend. cbn [trace]. rewrite Ht.
      split; [rewrite <- !app_assoc; reflexivity|].
      apply app_inv_head in Hw.
      assert (Hst : existsb isSessionEvent t = false
                    /\ existsb isCloseEvent t = false).
      { clear -Hp. induction t as [|e t IH]; [auto|].
        cbn [existsb] in Hp |- *.
        apply orb_false_iff in Hp as [He Ht].
        apply orb_false_iff in He as [He1 He2].
        destruct (IH Ht) as [IH1 IH2]. rewrite He1, He2, IH1, IH2. auto. }
      destruct Hst as [Hst1 Hst2].
      repeat split.
      * rewrite !existsb_app, Hst1.
        rewrite (quiet_no_event isSessionEvent t0), (quiet_no_event isSessionEvent (summaryLines h r));
          try reflexivity; try apply quiet_summaryLines; try assumption;
          intros e He; destruct e; try discriminate; reflexivity.
      * rewrite !existsb_app, Hst2.
        rewrite (quiet_no_event isCloseEvent t0), (quiet_no_event isCloseEvent (summaryLines h r));
          try reflexivity; try apply quiet_summaryLines; try assumption;
          intros e He; destruct e; try discriminate; reflexivity.
      * rewrite !written_app, (quiet_written t0 Hq0),
          (quiet_written _ (quiet_summaryLines h r)), Hw.
        reflexivity.
    + exists (t0 ++ [Navigated Main.CHATGPT_URL true; Submitted query true]
                 ++ t).
      rewrite Ht. split; [rewrite <- !app_assoc; reflexivity|].
      rewrite <- (app_nil_r (written (trace sX))) in Hw at 2.
      apply app_inv_head in Hw.
      assert (Hst : existsb isSessionEvent t = false
                    /\ existsb isCloseEvent t = false).
      { clear -Hp. induction t as [|e0 t IH]; [auto|].
        cbn [existsb] in Hp |- *.
        apply orb_false_iff in Hp as [He Ht].
        apply orb_false_iff in He as [He1 He2].
        destruct (IH Ht) as [IH1 IH2]. rewrite He1, He2, IH1, IH2. auto. }
      destruct Hst as [Hst1 Hst2].
      repeat split.
      * rewrite !existsb_app, Hst1, (quiet_no_event isSessionEvent t0);
          try reflexivity; try assumption;
          intros e0 He; destruct e0; try discriminate; reflexivity.
      * rewrite !existsb_app, Hst2, (quiet_no_event isCloseEvent t0);
          try reflexivity; try assumption;
          intros e0 He; destruct e0; try discriminate; reflexivity.
      * rewrite !written_app, (quiet_written t0 Hq0). exact Hw.
  - exists (t0 ++ [Navigated Main.CHATGPT_URL true; Submitted query false]).
    unfold extend. cbn [trace]. rewrite Ht0.
    split; [rewrite <- !app_assoc; reflexivity|].
    repeat split.
    + rewrite existsb_app, (quiet_no_event isSessionEvent t0);
        try reflexivity; try assumption;
        intros e0 He; destruct e0; try discriminate; reflexivity.
    + rewrite existsb_app, (quiet_no_event isCloseEvent t0);
        try reflexivity; try assumption;
        intros e0 He; destruct e0; try discriminate; reflexivity.
    + rewrite written_app, (quiet_written t0 Hq0). reflexivity.
  - exists (t0 ++ [Navigated Main.CHATGPT_URL false]).
    unfold extend. cbn [trace]. rewrite Ht0.
    split; [rewrite <- !app_assoc; reflexivity|].
    repeat split.
    + rewrite existsb_app, (quiet_no_event isSessionEvent t0);
        try reflexivity; try assumption;
        intros e0 He; destruct e0; try discriminate; reflexivity.
    + rewrite existsb_app, (quiet_no_event isCloseEvent t0);
        try reflexivity; try assumption;
        intros e0 He; destruct e0; try discriminate; reflexivity.
    + rewrite written_app, (quiet_written t0 Hq0). reflexivity.
Qed.

End PipelineFacts.

Section CountFacts.

Lemma count_app (p : Event -> bool) (t u : list Event) :
  count p (t ++ u) = (count p t + count p u)%nat.
Proof. unfold count. rewrite filter_app, length_app. reflexivity. Qed.

Lemma count_none (p : Event -> bool) (t : list Event) :
  existsb p t = false -> count p t = 0%nat.
Proof.
  unfold count. induction t as [|e t IH]; [reflexivity|].
  cbn [existsb filter]. intros Hp. apply orb_false_iff in Hp as [He Ht].
  rewrite He. apply IH, Ht.
Qed.

Lemma count_opened_none (t : list Event) :
  existsb isSessionEvent t = false -> count isSessionOpened t = 0%nat.
Proof.
  intros Hs. apply count_none.
  induction t as [|e t IH]; [reflexivity|].
  cbn [existsb] in *. apply orb_false_iff in Hs as [He Ht].
  rewrite (IH Ht). destruct e; try reflexivity. discriminate.
Qed.

Lemma count_banner (p : Event -> bool) (q : jsstring) :
  (forall ns l m, p (Logged ns l m) = false) ->
  count p (bannerLines q) = 0%nat.
Proof. intros Hp. unfold count, bannerLines. cbn. rewrite !Hp. reflexivity. Qed.

Lemma count_closing (closeOk : bool) :
  count isCloseEvent (closingLines closeOk) = 1%nat
  /\ count isSessionOpened (closingLines closeOk) = 0%nat
  /\ written (closingLines closeOk) = [].
Proof. destruct closeOk; repeat split. Qed.

End CountFacts.

(** X13.  A run never rejects and, unless the polling loop is still
    running, exits with code 0 or 1 through one [process.exit].  In its
    trace [closeBrowser] is attempted exactly as often as [setupBrowser]
    has succeeded: once when a query was given and the set-up worked,
    whatever failed afterwards, and never otherwise. *)
Theorem run_closes_the_session_it_opened {H : Host}
        (w : Main.World) (fuel : nat) :
  match Main.main w fuel fresh with
  | Resolved _ s' =>
      exists code pre,
        trace s' = pre ++ [Exited code]
        /\ (code = 0 \/ code = 1)
        /\ count isCloseEvent pre = count isSessionOpened pre
        /\ count isSessionOpened pre
           = (if queryGiven (Main.argv w) && Main.setupSucceeds w
              then 1 else 0)%nat
  | Rejected _ _ => False
  | Pending => Main.runScraper w fuel fresh = Pending
  end.
Proof.
  unfold Main.main, tryCatch, bind. rewrite runScraper_unfold. cbv zeta.
  unfold queryGiven.
  destruct (nth_error (Main.argv w) 2) as [q|];
    [destruct (truthy q); [destruct (Main.setupSucceeds w)|]|].
  - pose proof (proceed_adds w fuel q
                  {| Main.browserSessionId := Main.sessionId w |}
                  (extend fresh (bannerLines q ++ [SessionRequested true])))
      as Hp.
    destruct (Main.proceed w fuel q _ _) as [u s2|e s2|]; [| |reflexivity];
      destruct Hp as [t [Ht [Hs [Hc _]]]]; cbn [trace extend fresh app] in Ht;
      unfold emit, extend; cbn [asked trace]; rewrite Ht.
    + exists (codeAfterClose (Main.closeSucceeds w) 0),
        ((bannerLines q ++ [SessionRequested true]) ++ t
           ++ closingLines (Main.closeSucceeds w)).
      split; [rewrite <- !app_assoc; reflexivity|].
      split; [destruct (Main.closeSucceeds w); cbn; auto|].
      rewrite !count_app.
      rewrite (count_banner isCloseEvent), (count_banner isSessionOpened)
        by reflexivity.
      rewrite (count_none _ _ Hc), (count_opened_none _ Hs).
      destruct (count_closing (Main.closeSucceeds w)) as [-> [-> _]].
      split; reflexivity.
    + exists 1,
        ((bannerLines q ++ [SessionRequested true]) ++ t
           ++ Logged Main.namespace ERROR (lit "Scraper failed with error")
           :: closingLines (Main.closeSucceeds w)).
      split; [rewrite <- !app_assoc; reflexivity|].
      split; [auto|].
      change (Logged Main.namespace ERROR (lit "Scraper failed with error")
                :: closingLines (Main.closeSucceeds w))
        with ([Logged Main.namespace ERROR (lit "Scraper failed with error")]
                ++ closingLines (Main.closeSucceeds w)).
      rewrite !count_app.
      rewrite (count_banner isCloseEvent), (count_banner isSessionOpened)
        by reflexivity.
      rewrite (count_none _ _ Hc), (count_opened_none _ Hs).
      destruct (count_closing (Main.closeSucceeds w)) as [-> [-> _]].
      split; reflexivity.
  - unfold emit, extend. cbn [asked trace fresh app].
    eexists 1, _. split; [reflexivity|]. split; [auto|].
    rewrite !count_app.
    rewrite (count_banner isCloseEvent), (count_banner isSessionOpened)
      by reflexivity.
    split; reflexivity.
  - unfold emit, extend. cbn [asked trace fresh app].
    eexists 1, _. split; [reflexivity|]. split; [auto|].
    split; reflexivity.
  - unfold emit, extend. cbn [asked trace fresh app].
    eexists 1, _. split; [reflexivity|]. split; [auto|].
    split; reflexivity.
Qed.

(** X14.  The exit code is 0 exactly when everything succeeded: a
    non-empty query was given, the browser was set up, the navigation
    and the submission went through, the extraction workflow resolved,
    and the browser could be closed. *)
Theorem exit_code_zero_iff_all_succeeded {H : Host}
        (w : Main.World) (fuel : nat) :
  (exists s', Main.runScraper w fuel fresh = Resolved 0 s')
  <-> (exists q,
          nth_error (Main.argv w) 2 = Some q /\ q <> []
          /\ Main.setupSucceeds w = true
          /\ Main.navigationSucceeds w = true
          /\ Main.submissionSucceeds w = true
          /\ Main.closeSucceeds w = true
          /\ exists r s3,
              ResponseExtraction.extractAndSaveResponse
                (Main.page w) (Main.platform w) q Main.CHECK_INTERVAL fuel
                fresh = Resolved r s3).
Proof.
  rewrite runScraper_unfold. cbv zeta. split.
  - intros [s' Hrun].
    destruct (nth_error (Main.argv w) 2) as [q|]; [|discriminate].
    destruct (truthy q) eqn:Hq; [|discriminate].
    destruct (Main.setupSucceeds w); [|discriminate].
    rewrite proceed_unfold in Hrun. cbv zeta in Hrun.
    destruct (Main.navigationSucceeds w); [|discriminate].
    destruct (Main.submissionSucceeds w); [|discriminate].
    match type of Hrun with
    | context [ResponseExtraction.extractAndSaveResponse ?pg ?pf ?qq ?ci ?fl ?sX] =>
        pose proof (workflow_from_any_trace pg pf qq ci fl sX) as Hal;
        specialize (Hal ltac:(destruct (truthy (Main.browserSessionId _));
                              reflexivity));
        revert Hal Hrun;
        destruct (ResponseExtraction.extractAndSaveResponse pg pf qq ci fl sX)
          as [r s3|e s3|]; intros Hal Hrun; try discriminate
    end.
    destruct (Main.closeSucceeds w); [|discriminate].
    exists q. repeat split; try reflexivity.
    + apply truthy_iff, Hq.
    + destruct (ResponseExtraction.extractAndSaveResponse _ _ _ _ _ fresh)
        as [r0 t3|e0 t3|]; simpl in Hal; try contradiction.
      exists r0, t3. reflexivity.
  - intros [q [Hq [Hne [Hsetup [Hnav [Hsub [Hclose [r [s3 Hwf]]]]]]]]].
    rewrite Hq. apply truthy_iff in Hne. rewrite Hne, Hsetup.
    rewrite proceed_unfold. cbv zeta. rewrite Hnav, Hsub.
    match goal with
    | |- context [ResponseExtraction.extractAndSaveResponse ?pg ?pf ?qq ?ci ?fl ?sX] =>
        pose proof (workflow_from_any_trace pg pf qq ci fl sX) as Hal
    end.
    specialize (Hal ltac:(destruct (truthy (Main.browserSessionId _)); reflexivity)).
    rewrite Hwf in Hal. revert Hal.
    match goal with
    | |- context [ResponseExtraction.extractAndSaveResponse ?pg ?pf ?qq ?ci ?fl ?sX] =>
        destruct (ResponseExtraction.extractAndSaveResponse pg pf qq ci fl sX)
          as [r0 t3|e0 t3|]
    end; simpl; intros Hal; try contradiction.
    rewrite Hclose. eexists. reflexivity.
Qed.

(** X15.  What is on disk after a run.  With exit code 0 exactly one
    file was written.  With exit code 1 a file was written only when
    everything had succeeded and closing the browser failed at the very
    end.  No run writes more than one file. *)
Theorem written_file_and_exit_code {H : Host}
        (w : Main.World) (fuel : nat) (code : Z) (s' : Session) :
  Main.runScraper w fuel fresh = Resolved code s' ->
  (code = 0 -> List.length (written (trace s')) = 1%nat)
  /\ (code = 1 -> written (trace s') <> [] -> Main.closeSucceeds w = false)
  /\ (List.length (written (trace s')) <= 1)%nat.
Proof.
  rewrite runScraper_unfold. cbv zeta. intros Hrun.
  destruct (nth_error (Main.argv w) 2) as [q|];
    [destruct (truthy q); [destruct (Main.setupSucceeds w)|]|];
    try (injection Hrun as <- <-; repeat split;
         [discriminate | intros _ Hw; exfalso; apply Hw; reflexivity
         | cbn; lia]).
  - pose proof (proceed_adds w fuel q
                  {| Main.browserSessionId := Main.sessionId w |}
                  (extend fresh (bannerLines q ++ [SessionRequested true])))
      as Hp.
    destruct (Main.proceed w fuel q _ _) as [u s2|e s2|]; [| |discriminate];
      destruct Hp as [t [Ht [_ [_ Hw]]]]; cbn [trace extend fresh app] in Ht;
      injection Hrun as <- <-; unfold extend; cbn [trace]; rewrite Ht;
      rewrite !written_app;
      destruct (count_closing (Main.closeSucceeds w)) as [_ [_ Hcl]].
    + rewrite Hcl, app_nil_r.
      change (written (bannerLines q)) with (@nil (jsstring * PersistedRecord)).
      cbn [app written flat_map]. repeat split.
      * intros _. exact Hw.
      * intros Hcode _. destruct (Main.closeSucceeds w); [discriminate|].
        reflexivity.
      * lia.
    + change (written (bannerLines q)) with (@nil (jsstring * PersistedRecord)).
      change (Logged Main.namespace ERROR (lit "Scraper failed with error")
                :: closingLines (Main.closeSucceeds w))
        with ([Logged Main.namespace ERROR (lit "Scraper failed with error")]
                ++ closingLines (Main.closeSucceeds w)).
      rewrite written_app, Hcl, Hw. cbn. repeat split.
      * discriminate.
      * intros _ Hne. exfalso. apply Hne. reflexivity.
      * lia.
Qed.

(** Running instance of X14: every collaborator succeeds. *)
Lemma exit_code_zero_iff_all_succeeded_witness :
  exists s',
    Main.runScraper (H := plainHost)
      (worldOf [lit "node"; lit "index_remote.js"; lit "Hi"] helloPage true)
      2 fresh = Resolved 0 s'.
Proof.
  apply (proj2 (@exit_code_zero_iff_all_succeeded plainHost
                  (worldOf [lit "node"; lit "index_remote.js"; lit "Hi"]
                           helloPage true) 2)).
  exists (lit "Hi"). repeat split; try reflexivity.
  - discriminate.
  - eexists. eexists. vm_compute. reflexivity.
Defined.

(** Running instance of X15: the pipeline succeeds and the browser
    cannot be closed; the exit code is 1 and the file is there. *)
Lemma written_file_and_exit_code_witness :
  exists s',
    Main.runScraper (H := plainHost)
      (worldOf [lit "node"; lit "index_remote.js"; lit "Hi"] helloPage false)
      2 fresh = Resolved 1 s'
    /\ (List.length (written (trace s')) <= 1)%nat.
Proof.
  eexists. split; [vm_compute; reflexivity|].
  refine (proj2 (proj2 (@written_file_and_exit_code plainHost
            (worldOf [lit "node"; lit "index_remote.js"; lit "Hi"]
                     helloPage false) 2 1 _ _))).
  vm_compute. reflexivity.
Defined.

(** X16.  An empty string as the query argument is treated like a
    missing argument: the usage lines are printed, nothing else happens,
    and the process exits with code 1. *)
Theorem empty_query_is_no_query {H : Host} (w : Main.World) (fuel : nat) :
  nth_error (Main.argv w) 2 = Some [] ->
  Main.runScraper w fuel fresh
  = Resolved 1 {| asked := 0; trace := usageLines |}
  /\ Main.main w fuel fresh
     = Resolved tt {| asked := 0; trace := usageLines ++ [Exited 1] |}
  /\ existsb isSessionEvent usageLines = false
  /\ existsb isFileEvent usageLines = false.
Proof.
  intros Hq.
  assert (Hrun : Main.runScraper w fuel fresh
                 = Resolved 1 {| asked := 0; trace := usageLines |}).
  { rewrite runScraper_unfold. cbv zeta. rewrite Hq. reflexivity. }
  repeat split.
  - exact Hrun.
  - unfold Main.main, tryCatch, bind. rewrite Hrun. reflexivity.
Qed.

(** Running instance of X16. *)
Lemma empty_query_is_no_query_witness :
  Main.runScraper (H := plainHost)
    (worldOf [lit "node"; lit "index_remote.js"; lit ""] helloPage true)
    2 fresh
  = Resolved 1 {| asked := 0; trace := usageLines |}.
Proof.
  apply (@empty_query_is_no_query plainHost
           (worldOf [lit "node"; lit "index_remote.js"; lit ""] helloPage true)
           2).
  reflexivity.
Defined.

(** X17.  The extraction workflow resolves exactly when the polling loop
    has finished, the page shows a conversation turn, the directory can
    be made and the file can be written; an empty extraction is no
    failure. *)
Theorem workflow_resolves_iff {H : Host}
        (page : ResponseExtraction.Page) (pf : ResponseExtraction.Platform)
        (query : jsstring) (ci : Z) (fuel : nat) :
  (exists r s',
      ResponseExtraction.extractAndSaveResponse page pf query ci fuel fresh
      = Resolved r s')
  <-> ((exists s1,
           ResponseExtraction.waitForResponseComplete page ci fuel fresh
           = Resolved tt s1)
       /\ documentQuerySelectorAll ResponseExtraction.articleSelector
            (ResponseExtraction.document page) <> []
       /\ ResponseExtraction.mkdirSucceeds pf = true
       /\ ResponseExtraction.writeFileSucceeds pf = true).
Proof.
  assert (Hblind :
            forall s, asked s = 0%nat ->
              alike (ResponseExtraction.waitForResponseComplete page ci fuel s)
                    (ResponseExtraction.waitForResponseComplete page ci fuel
                       fresh)).
  { intros s Hs.
    assert (Hb : TraceBlind
                   (ResponseExtraction.waitForResponseComplete page ci fuel)).
    { unfold ResponseExtraction.waitForResponseComplete,
        ResponseExtraction.loopBody, log, delay. blind. }
    apply Hb. exact Hs. }
  rewrite extractAndSaveResponse_unfold. cbv zeta.
  specialize (Hblind {| asked := asked fresh;
                        trace := trace fresh ++
                          [Logged ResponseExtraction.namespace INFO
                                  (lit "Starting response extraction workflow...")] |}
                     eq_refl).
  split.
  - intros [r [s' Hrun]]. revert Hblind Hrun.
    destruct (ResponseExtraction.waitForResponseComplete page ci fuel
                {| asked := asked fresh; trace := _ |}) as [[] s1|e s1|];
      intros Hblind Hrun; try discriminate.
    destruct (ResponseExtraction.waitForResponseComplete page ci fuel fresh)
      as [[] t1|e t1|]; simpl in Hblind; try contradiction.
    split; [exists t1; reflexivity|].
    destruct (documentQuerySelectorAll ResponseExtraction.articleSelector
                (ResponseExtraction.document page)) as [|a0 rest] eqn:Hq.
    + rewrite (extractResponseText_no_turn page s1 Hq) in Hrun. discriminate.
    + split; [discriminate|].
      destruct (ResponseExtraction.extractResponseText page s1)
        as [x s2|e s2|]; try discriminate.
      rewrite saveToFile_unfold in Hrun. cbv zeta in Hrun.
      destruct (ResponseExtraction.mkdirSucceeds pf); [|discriminate].
      destruct (ResponseExtraction.writeFileSucceeds pf); [|discriminate].
      auto.
  - intros [[t1 Hwait] [Hq [Hdir Hfile]]]. rewrite Hwait in Hblind.
    revert Hblind.
    destruct (ResponseExtraction.waitForResponseComplete page ci fuel
                {| asked := asked fresh; trace := _ |}) as [[] s1|e s1|];
      simpl; intros Hblind; try contradiction.
    destruct (selectedTurn_some _ Hq) as [art Hsel].
    destruct (extractResponseText_selected page art s1 Hsel) as [s2 Hx].
    rewrite Hx. rewrite saveToFile_unfold. cbv zeta. rewrite Hdir, Hfile.
    eexists. eexists. reflexivity.
Qed.

(** Running instance of X17. *)
Lemma workflow_resolves_iff_witness :
  exists r s',
    ResponseExtraction.extractAndSaveResponse (H := plainHost)
      helloPage workingPlatform (lit "Hi") 1000 2 fresh
    = Resolved r s'.
Proof.
  apply (proj2 (@workflow_resolves_iff plainHost helloPage workingPlatform
                  (lit "Hi") 1000 2)).
  split; [eexists; vm_compute; reflexivity|].
  split; [vm_compute; discriminate|]. split; reflexivity.
Defined.

(* ================================================================== *)
(** * Properties of the dispatch                                       *)
(* ================================================================== *)

(** X18.  The dispatch follows one script: wait for the search button,
    click it, wait for the text area, click it, type the query, wait for
    the submit button, click it.  It stops at the first call that fails
    and makes no later call; it resolves exactly when all seven succeed,
    and otherwise rejects with the failed call after the error lines of
    the step and of the workflow. *)
Theorem dispatch_follows_its_script
        (w : Steps.Surroundings) (query : jsstring) :
  let script := dispatchScript query (Steps.randomBelow w 3 50 + 30) in
  match QuerySubmission.submitQueryWorkflow w query Steps.start with
  | Steps.Done _ r =>
      forallb (Steps.succeeds w) script = true
      /\ calls (Steps.acts r) = map (fun c => (c, true)) script
  | Steps.Failed f r =>
      calls (Steps.acts r) = upToFirstFailure (Steps.succeeds w) script
      /\ (exists c, f = Steps.CallFailed c /\ In c script
                    /\ Steps.succeeds w c = false
                    /\ last (calls (Steps.acts r)) (c, true) = (c, false))
      /\ last (Steps.acts r) (Steps.Paused 0)
         = Steps.Wrote QuerySubmission.namespace ERROR
                       (lit "Query submission workflow failed")
  end.
Proof.
  cbv zeta.
  unfold QuerySubmission.submitQueryWorkflow, QuerySubmission.clickSearchButton,
    QuerySubmission.typeQuery, QuerySubmission.submitQuery,
    QuerySubmission.randomDelay, dispatchScript.
  cbv [Steps.tryCatch Steps.bind Steps.call Steps.draw Steps.log Steps.record
       Steps.ret Steps.throw Steps.acts Steps.drawn Steps.start
       upToFirstFailure forallb map].
  destruct (Steps.succeeds w
              (Steps.WaitForSelector QuerySubmission.searchButton 30000))
    eqn:H1;
    [destruct (Steps.succeeds w (Steps.Click QuerySubmission.searchButton))
       eqn:H2;
     [destruct (Steps.succeeds w
                  (Steps.WaitForSelector QuerySubmission.promptTextarea 30000))
        eqn:H3;
      [destruct (Steps.succeeds w (Steps.Click QuerySubmission.promptTextarea))
         eqn:H4;
       [destruct (Steps.succeeds w
                    (Steps.TypeText QuerySubmission.promptTextarea query
                                    (Steps.randomBelow w 3 50 + 30)))
          eqn:H5;
        [destruct (Steps.succeeds w
                     (Steps.WaitForSelector QuerySubmission.submitButton 10000))
           eqn:H6;
         [destruct (Steps.succeeds w (Steps.Click QuerySubmission.submitButton))
            eqn:H7|]|]|]|]|]|];
    cbv [Steps.acts andb];
    try (split; [reflexivity|]; split;
         [eexists; split; [reflexivity|];
          split; [simpl; tauto|]; split; [eassumption|reflexivity]
         | reflexivity]).
  split; reflexivity.
Qed.

(** Running instance of X18: the text area never appears, so the
    dispatch stops after three calls and nothing is typed. *)
Lemma dispatch_follows_its_script_witness :
  exists f r,
    QuerySubmission.submitQueryWorkflow noTextarea (lit "Hi") Steps.start
    = Steps.Failed f r
    /\ calls (Steps.acts r)
       = [(Steps.WaitForSelector QuerySubmission.searchButton 30000, true);
          (Steps.Click QuerySubmission.searchButton, true);
          (Steps.WaitForSelector QuerySubmission.promptTextarea 30000, false)].
Proof.
  pose proof (dispatch_follows_its_script noTextarea (lit "Hi")) as Hd.
  cbv zeta in Hd.
  destruct (QuerySubmission.submitQueryWorkflow noTextarea (lit "Hi")
              Steps.start) as [u r|f r] eqn:Hrun.
  - exfalso. destruct Hd as [Hall _]. vm_compute in Hall. discriminate.
  - exists f, r. split; [reflexivity|]. destruct Hd as [Hcalls _].
    rewrite Hcalls. vm_compute. reflexivity.
Defined.

(** X19.  Timing of a dispatch that succeeds, when every draw of
    [Math.floor(Math.random() * k)] lies in [0, k): it pauses six times,
    for 500-1000, 800-1500, 300-600, 500-1000, 300-700 and 1000-2000 ms
    in this order, hence between 3400 and 6800 ms in all, and the delay
    between two typed characters is between 30 and 79 ms. *)
Theorem dispatch_pauses_are_bounded
        (w : Steps.Surroundings) (query : jsstring) (r : Steps.Run) :
  (forall n k, 0 < k -> 0 <= Steps.randomBelow w n k < k) ->
  QuerySubmission.submitQueryWorkflow w query Steps.start = Steps.Done tt r ->
  exists p1 p2 p3 p4 p5 p6 d,
    pauses (Steps.acts r) = [p1; p2; p3; p4; p5; p6]
    /\ 500 <= p1 <= 1000 /\ 800 <= p2 <= 1500 /\ 300 <= p3 <= 600
    /\ 500 <= p4 <= 1000 /\ 300 <= p5 <= 700 /\ 1000 <= p6 <= 2000
    /\ 3400 <= p1 + p2 + p3 + p4 + p5 + p6 <= 6800
    /\ In (Steps.TypeText QuerySubmission.promptTextarea query d, true)
          (calls (Steps.acts r))
    /\ 30 <= d <= 79
    /\ Steps.drawn r = 7%nat.
Proof.
  intros Hdraw.
  unfold QuerySubmission.submitQueryWorkflow, QuerySubmission.clickSearchButton,
    QuerySubmission.typeQuery, QuerySubmission.submitQuery,
    QuerySubmission.randomDelay.
  cbv [Steps.tryCatch Steps.bind Steps.call Steps.draw Steps.log Steps.record
       Steps.ret Steps.throw Steps.acts Steps.drawn Steps.start].
  destruct (Steps.succeeds w
              (Steps.WaitForSelector QuerySubmission.searchButton 30000));
    [|discriminate].
  destruct (Steps.succeeds w (Steps.Click QuerySubmission.searchButton));
    [|discriminate].
  destruct (Steps.succeeds w
              (Steps.WaitForSelector QuerySubmission.promptTextarea 30000));
    [|discriminate].
  destruct (Steps.succeeds w (Steps.Click QuerySubmission.promptTextarea));
    [|discriminate].
  destruct (Steps.succeeds w
              (Steps.TypeText QuerySubmission.promptTextarea query
                              (Steps.randomBelow w 3 50 + 30)));
    [|discriminate].
  destruct (Steps.succeeds w
              (Steps.WaitForSelector QuerySubmission.submitButton 10000));
    [|discriminate].
  destruct (Steps.succeeds w (Steps.Click QuerySubmission.submitButton));
    [|discriminate].
  intros Hrun. injection Hrun as <-.
  pose proof (Hdraw 0%nat (1000 - 500 + 1) ltac:(lia)).
  pose proof (Hdraw 1%nat (1500 - 800 + 1) ltac:(lia)).
  pose proof (Hdraw 2%nat (600 - 300 + 1) ltac:(lia)).
  pose proof (Hdraw 3%nat 50 ltac:(lia)).
  pose proof (Hdraw 4%nat (1000 - 500 + 1) ltac:(lia)).
  pose proof (Hdraw 5%nat (700 - 300 + 1) ltac:(lia)).
  pose proof (Hdraw 6%nat (2000 - 1000 + 1) ltac:(lia)).
  exists (Steps.randomBelow w 0 (1000 - 500 + 1) + 500),
    (Steps.randomBelow w 1 (1500 - 800 + 1) + 800),
    (Steps.randomBelow w 2 (600 - 300 + 1) + 300),
    (Steps.randomBelow w 4 (1000 - 500 + 1) + 500),
    (Steps.randomBelow w 5 (700 - 300 + 1) + 300),
    (Steps.randomBelow w 6 (2000 - 1000 + 1) + 1000),
    (Steps.randomBelow w 3 50 + 30).
  cbv [Steps.acts Steps.drawn].
  split; [reflexivity|].
  repeat (split; [lia|]).
  split; [simpl; tauto|]. split; [lia | reflexivity].
Qed.

(** Running instance of X19: every draw is half its bound. *)
Lemma dispatch_pauses_are_bounded_witness :
  exists r,
    QuerySubmission.submitQueryWorkflow (calmSurroundings 1 2) (lit "Hi")
      Steps.start = Steps.Done tt r
    /\ pauses (Steps.acts r) = [750; 1150; 450; 750; 500; 1500].
Proof.
  eexists. split; [vm_compute; reflexivity|].
  destruct (dispatch_pauses_are_bounded (calmSurroundings 1 2) (lit "Hi") _
              ltac:(intros n k Hk; cbn [calmSurroundings Steps.randomBelow];
                    split; [apply Z.div_pos; lia
                           | apply Z.div_lt_upper_bound; lia])
              ltac:(vm_compute; reflexivity))
    as [p1 [p2 [p3 [p4 [p5 [p6 [d [Hp _]]]]]]]].
  vm_compute. reflexivity.
Defined.

(* ================================================================== *)
(** * Properties of the remote set-up                                  *)
(* ================================================================== *)

(** X20.  Credentials are checked before anything is asked of the remote
    service.  When the API key or the project id is unset or empty,
    [setupBrowser] rejects with the error naming the missing variable,
    the API key first, after logging the failure, and it has made no
    call at all. *)
Theorem setup_needs_both_credentials
        (w : Steps.Surroundings) (env : BrowserbaseSetup.Remote) :
  BrowserbaseSetup.isSet (BrowserbaseSetup.BROWSERBASE_API_KEY env)
  && BrowserbaseSetup.isSet (BrowserbaseSetup.BROWSERBASE_PROJECT_ID env)
  = false ->
  exists r,
    BrowserbaseSetup.setupBrowser w env Steps.start
    = Steps.Failed
        (Steps.ThrownError
           (if BrowserbaseSetup.isSet (BrowserbaseSetup.BROWSERBASE_API_KEY env)
            then lit "BROWSERBASE_PROJECT_ID environment variable is not set"
            else lit "BROWSERBASE_API_KEY environment variable is not set"))
        r
    /\ calls (Steps.acts r) = []
    /\ Steps.acts r
       = [Steps.Wrote BrowserbaseSetup.namespace INFO
                      (lit "Initializing Browserbase remote browser setup...");
          Steps.Wrote BrowserbaseSetup.namespace ERROR
                      (lit "Failed to setup Browserbase browser")].
Proof.
  intros Hunset. unfold BrowserbaseSetup.setupBrowser.
  cbv [Steps.tryCatch Steps.bind Steps.log Steps.record Steps.throw Steps.ret
       Steps.acts Steps.drawn Steps.start].
  destruct (BrowserbaseSetup.isSet (BrowserbaseSetup.BROWSERBASE_API_KEY env)).
  - destruct (BrowserbaseSetup.isSet
                (BrowserbaseSetup.BROWSERBASE_PROJECT_ID env));
      [discriminate|].
    cbv [negb Steps.acts Steps.drawn]. eexists. repeat split.
  - cbv [negb Steps.acts Steps.drawn]. eexists. repeat split.
Qed.

(** Running instance of X20: the key is set, the project id is the
    empty string. *)
Lemma setup_needs_both_credentials_witness :
  exists r,
    BrowserbaseSetup.setupBrowser (calmSurroundings 1 2)
      {| BrowserbaseSetup.BROWSERBASE_API_KEY := Some (lit "key");
         BrowserbaseSetup.BROWSERBASE_PROJECT_ID := Some (lit "");
         BrowserbaseSetup.sessionIdGiven := lit "session-1";
         BrowserbaseSetup.connectUrl := lit "wss://connect";
         BrowserbaseSetup.pagesOpen := 1 |}
      Steps.start
    = Steps.Failed
        (Steps.ThrownError
           (lit "BROWSERBASE_PROJECT_ID environment variable is not set")) r
    /\ calls (Steps.acts r) = [].
Proof.
  destruct (setup_needs_both_credentials (calmSurroundings 1 2)
              {| BrowserbaseSetup.BROWSERBASE_API_KEY := Some (lit "key");
                 BrowserbaseSetup.BROWSERBASE_PROJECT_ID := Some (lit "");
                 BrowserbaseSetup.sessionIdGiven := lit "session-1";
                 BrowserbaseSetup.connectUrl := lit "wss://connect";
                 BrowserbaseSetup.pagesOpen := 1 |}
              eq_refl) as [r [Hrun [Hcalls _]]].
  exists r. split; assumption.
Defined.

(** X21.  With both credentials set, [setupBrowser] creates the session,
    connects to it, lists the pages, opens a new page only when the
    session has none, and installs the script; it stops at the first call
    that fails and rejects with it.  When all succeed it returns the id
    of the session that was created, and the page is a new one exactly
    when none was open. *)
Theorem setup_follows_its_script
        (w : Steps.Surroundings) (env : BrowserbaseSetup.Remote) :
  BrowserbaseSetup.isSet (BrowserbaseSetup.BROWSERBASE_API_KEY env) = true ->
  BrowserbaseSetup.isSet (BrowserbaseSetup.BROWSERBASE_PROJECT_ID env) = true ->
  match BrowserbaseSetup.setupBrowser w env Steps.start with
  | Steps.Done h r =>
      forallb (Steps.succeeds w) (setupScript env) = true
      /\ calls (Steps.acts r) = map (fun c => (c, true)) (setupScript env)
      /\ BrowserbaseSetup.sessionId h = BrowserbaseSetup.sessionIdGiven env
      /\ (BrowserbaseSetup.page h = BrowserbaseSetup.FreshPage
          <-> BrowserbaseSetup.pagesOpen env = 0%nat)
  | Steps.Failed f r =>
      calls (Steps.acts r)
      = upToFirstFailure (Steps.succeeds w) (setupScript env)
      /\ exists c, f = Steps.CallFailed c /\ In c (setupScript env)
                   /\ Steps.succeeds w c = false
  end.
Proof.
  intros Hkey Hproj. unfold BrowserbaseSetup.setupBrowser, setupScript.
  rewrite Hkey, Hproj.
  cbv [Steps.tryCatch Steps.bind Steps.call Steps.log Steps.record Steps.throw
       Steps.ret Steps.acts Steps.drawn Steps.start negb].
  destruct (Steps.succeeds w
              (Steps.CreateSession
                 (BrowserbaseSetup.valueOf
                    (BrowserbaseSetup.BROWSERBASE_PROJECT_ID env)))) eqn:H1;
    [destruct (Steps.succeeds w
                 (Steps.Connect (BrowserbaseSetup.connectUrl env))) eqn:H2;
     [destruct (Steps.succeeds w Steps.ListPages) eqn:H3;
      [destruct (BrowserbaseSetup.pagesOpen env) as [|n] eqn:Hpages;
       [destruct (Steps.succeeds w Steps.NewPage) eqn:H4|];
       cbv [Steps.bind Steps.call Steps.ret Steps.acts Steps.drawn];
       try (destruct (Steps.succeeds w Steps.EvaluateOnNewDocument) eqn:H5)
      |]|]|];
    cbv [Steps.acts BrowserbaseSetup.sessionId BrowserbaseSetup.page app
         upToFirstFailure forallb map andb];
    rewrite ?H1, ?H2, ?H3, ?H4, ?H5; cbv [andb];
    try (split; [reflexivity|]; eexists; split; [reflexivity|];
         split; [simpl; tauto | eassumption]).
  - repeat split; try reflexivity.
  - repeat split; try reflexivity; try discriminate.
Qed.

(** Running instance of X21: a session that already has a page. *)
Lemma setup_follows_its_script_witness :
  exists h r,
    BrowserbaseSetup.setupBrowser (calmSurroundings 1 2)
      {| BrowserbaseSetup.BROWSERBASE_API_KEY := Some (lit "key");
         BrowserbaseSetup.BROWSERBASE_PROJECT_ID := Some (lit "project");
         BrowserbaseSetup.sessionIdGiven := lit "session-1";
         BrowserbaseSetup.connectUrl := lit "wss://connect";
         BrowserbaseSetup.pagesOpen := 1 |}
      Steps.start = Steps.Done h r
    /\ BrowserbaseSetup.sessionId h = lit "session-1".
Proof.
  pose proof (setup_follows_its_script (calmSurroundings 1 2)
                {| BrowserbaseSetup.BROWSERBASE_API_KEY := Some (lit "key");
                   BrowserbaseSetup.BROWSERBASE_PROJECT_ID :=
                     Some (lit "project");
                   BrowserbaseSetup.sessionIdGiven := lit "session-1";
                   BrowserbaseSetup.connectUrl := lit "wss://connect";
                   BrowserbaseSetup.pagesOpen := 1 |}
                eq_refl eq_refl) as Hs.
  destruct (BrowserbaseSetup.setupBrowser _ _ _) as [h r|f r].
  - exists h, r. split; [reflexivity|]. exact (proj1 (proj2 (proj2 Hs))).
  - exfalso. destruct Hs as [_ [c [_ [_ Hc]]]]. discriminate.
Defined.

(* ================================================================== *)
(** * Further properties of completion detection                       *)
(* ================================================================== *)

Section AccountingFacts.
Import ResponseExtraction.

Variable page : Page.
Variable checkInterval : Z.

Lemma total_app (l m : list Z) : total (l ++ m) = total l + total m.
Proof.
  unfold total. induction l as [|x l IH]; simpl; [reflexivity|].
  rewrite IH. lia.
Qed.

(** Turns, lookups and sleeping time of the loop, once it is left. *)
Lemma while_accounting (fuel : nat) :
  forall v s v' s',
    stopButtonExists v = true ->
    while fuel (loopBody page checkInterval) v s = Resolved v' s' ->
    exists t,
      trace s' = trace s ++ t
      /\ 1 <= checkCount v' - checkCount v <= Z.of_nat fuel
      /\ (asked s <= asked s')%nat
      /\ checkCount v' - checkCount v + 1
         <= Z.of_nat (asked s' - asked s)
         <= 2 * (checkCount v' - checkCount v)
      /\ total (sleeps t)
         = (checkCount v' - checkCount v - 1) * checkInterval
           + 500 * (Z.of_nat (asked s' - asked s)
                    - (checkCount v' - checkCount v)).
Proof.
  induction fuel as [|fuel IH]; intros v s v' s' Hv Hrun.
  - simpl in Hrun. rewrite Hv in Hrun. discriminate.
  - rewrite while_step in Hrun by assumption.
    destruct (turn_cases page s) as [Hp|[[Hp Hc]|[Hp Hc]]].
    + rewrite loopBody_present in Hrun by assumption.
      apply IH in Hrun; [|reflexivity].
      destruct Hrun as [t [Ht [Hturns [Hle [Hlook Hsum]]]]].
      cbn [trace asked checkCount] in *.
      eexists. split; [rewrite Ht, <- app_assoc; reflexivity|].
      rewrite sleeps_app, total_app.
      unfold stillGeneratingEvent, falseNegativeEvent.
      cbn [sleeps flat_map app total fold_right].
      fold (total (sleeps t)). rewrite Hsum.
      replace (Z.of_nat (asked s' - asked s))
        with (Z.of_nat (asked s' - S (asked s)) + 1) by lia.
      repeat split; try lia; ring_simplify; lia.
    + rewrite loopBody_false_negative in Hrun by assumption.
      apply IH in Hrun; [|reflexivity].
      destruct Hrun as [t [Ht [Hturns [Hle [Hlook Hsum]]]]].
      cbn [trace asked checkCount] in *.
      eexists. split; [rewrite Ht, <- app_assoc; reflexivity|].
      rewrite sleeps_app, total_app.
      unfold stillGeneratingEvent, falseNegativeEvent.
      cbn [sleeps flat_map app total fold_right].
      fold (total (sleeps t)). rewrite Hsum.
      replace (Z.of_nat (asked s' - asked s))
        with (Z.of_nat (asked s' - S (S (asked s))) + 2) by lia.
      repeat split; try lia; ring_simplify; lia.
    + rewrite loopBody_confirmed in Hrun by assumption.
      rewrite while_done in Hrun by reflexivity.
      injection Hrun as <- <-. cbn [trace asked checkCount].
      eexists. split; [reflexivity|].
      unfold completionEvent.
      cbn [sleeps flat_map app total fold_right].
      replace (Z.of_nat (S (S (asked s)) - asked s)) with 2 by lia.
      repeat split; try lia; ring_simplify; lia.
Qed.

(** No pair of consecutive absent readings is passed over. *)
Lemma while_stops_at_first_pair (fuel : nat) :
  forall v s v' s',
    stopButtonExists v = true ->
    while fuel (loopBody page checkInterval) v s = Resolved v' s' ->
    forall j, (asked s <= j)%nat -> (S (S j) < asked s')%nat ->
              ~ (stopButton page j = false /\ stopButton page (S j) = false).
Proof.
  induction fuel as [|fuel IH]; intros v s v' s' Hv Hrun j Hlo Hhi [Hj HSj].
  - simpl in Hrun. rewrite Hv in Hrun. discriminate.
  - rewrite while_step in Hrun by assumption.
    destruct (turn_cases page s) as [Hp|[[Hp Hc]|[Hp Hc]]].
    + rewrite loopBody_present in Hrun by assumption.
      destruct (Nat.eq_dec j (asked s)) as [->|Hne]; [congruence|].
      apply (fun H1 H2 H3 => IH _ _ _ _ H1 Hrun j H2 H3 (conj Hj HSj));
        [reflexivity | cbn [asked]; lia | assumption].
    + rewrite loopBody_false_negative in Hrun by assumption.
      destruct (Nat.eq_dec j (asked s)) as [->|Hne]; [congruence|].
      destruct (Nat.eq_dec j (S (asked s))) as [->|Hne']; [congruence|].
      apply (fun H1 H2 H3 => IH _ _ _ _ H1 Hrun j H2 H3 (conj Hj HSj));
        [reflexivity | cbn [asked]; lia | assumption].
    + rewrite loopBody_confirmed in Hrun by assumption.
      rewrite while_done in Hrun by reflexivity.
      injection Hrun as <- <-. cbn [asked] in Hhi. lia.
Qed.

End AccountingFacts.

(** X22.  Accounting of a completed wait that took [n] turns and [k]
    lookups of the indicator: between [n + 1] and [2 n] lookups, and a
    total sleeping time of [(n - 1)] poll intervals, 500ms for every
    lookup that was a confirmation, and the 2000ms settle delay; so it
    never sleeps less than 2500ms in all. *)
Theorem wait_accounting (page : ResponseExtraction.Page)
        (checkInterval : Z) (fuel : nat) (s' : Session) :
  ResponseExtraction.waitForResponseComplete page checkInterval fuel fresh
  = Resolved tt s' ->
  exists n : Z,
    1 <= n <= Z.of_nat fuel
    /\ n + 1 <= Z.of_nat (asked s') <= 2 * n
    /\ count isPollEvent (trace s') = asked s'
    /\ total (sleeps (trace s'))
       = (n - 1) * checkInterval + 500 * (Z.of_nat (asked s') - n) + 2000
    /\ (0 <= checkInterval -> 2500 <= total (sleeps (trace s'))).
Proof.
  intros Hrun. rewrite waitForResponseComplete_unfold in Hrun.
  destruct (ResponseExtraction.while fuel _ _ _) as [v1 s1|e s1|] eqn:Hloop;
    try discriminate.
  injection Hrun as <-.
  pose proof (fun Hv => while_accounting page checkInterval fuel _ _ _ _ Hv
                                         Hloop) as Hacc.
  destruct (Hacc eq_refl) as [t [Ht [Hturns [Hle [Hlook Hsum]]]]]. clear Hacc.
  cbn [trace asked fresh ResponseExtraction.checkCount] in *.
  rewrite Z.sub_0_r in *. rewrite Nat.sub_0_r in *.
  exists (ResponseExtraction.checkCount v1).
  assert (Hpolls : count isPollEvent (trace s1) = asked s1).
  { clear -Hloop.
    assert (Hgen : forall fuel v s v' s',
               ResponseExtraction.while fuel
                 (ResponseExtraction.loopBody page checkInterval) v s
               = Resolved v' s' ->
               (count isPollEvent (trace s') + asked s
                = count isPollEvent (trace s) + asked s')%nat).
    { induction fuel0 as [|fuel0 IH]; intros v s v' s' Hrun.
      - simpl in Hrun.
        destruct (ResponseExtraction.stopButtonExists v); [discriminate|].
        injection Hrun as <- <-. lia.
      - destruct (ResponseExtraction.stopButtonExists v) eqn:Hv.
        + rewrite while_step in Hrun by assumption.
          destruct (turn_cases page s) as [Hp|[[Hp Hc]|[Hp Hc]]].
          * rewrite loopBody_present in Hrun by assumption.
            apply IH in Hrun. cbn [trace asked] in Hrun.
            rewrite count_app in Hrun. cbn in Hrun. lia.
          * rewrite loopBody_false_negative in Hrun by assumption.
            apply IH in Hrun. cbn [trace asked] in Hrun.
            rewrite count_app in Hrun. cbn in Hrun. lia.
          * rewrite loopBody_confirmed in Hrun by assumption.
            apply IH in Hrun. cbn [trace asked] in Hrun.
            rewrite count_app in Hrun. cbn in Hrun. lia.
        + rewrite while_done in Hrun by assumption.
          injection Hrun as <- <-. lia. }
    apply Hgen in Hloop. cbn in Hloop. lia. }
  split; [lia|]. split; [lia|]. split.
  - rewrite count_app, Hpolls. cbn. lia.
  - assert (Htot : total (sleeps (trace s1
                     ++ [Logged ResponseExtraction.namespace DEBUG
                           (lit "Waiting additional 2 seconds for content to fully render...");
                         Slept 2000;
                         Logged ResponseExtraction.namespace SUCCESS
                           (lit "Response monitoring completed")]))
                   = (ResponseExtraction.checkCount v1 - 1) * checkInterval
                     + 500 * (Z.of_nat (asked s1)
                              - ResponseExtraction.checkCount v1) + 2000).
    { rewrite Ht, !sleeps_app, !total_app, Hsum. cbn. lia. }
    split; [exact Htot|]. intros Hci. rewrite Htot. nia.
Qed.

(** Running instance of X22: present twice, then gone. *)
Lemma wait_accounting_witness :
  exists n : Z,
    1 <= n <= 3 /\ n + 1 <= 4 <= 2 * n
    /\ count isPollEvent twoTickTrace = 4%nat
    /\ total (sleeps twoTickTrace) = (n - 1) * 1000 + 500 * (4 - n) + 2000
    /\ (0 <= 1000 -> 2500 <= total (sleeps twoTickTrace)).
Proof.
  apply (wait_accounting (pageWithIndicator (fun n => Nat.ltb n 2)) 1000 3
                         {| asked := 4; trace := twoTickTrace |}).
  vm_compute. reflexivity.
Defined.

(** X23.  A completed wait has stopped at the first pair of consecutive
    absent readings of the trace: the pair is its last two lookups, and
    no earlier pair of consecutive readings was absent twice. *)
Theorem wait_stops_at_first_absent_pair (page : ResponseExtraction.Page)
        (checkInterval : Z) (fuel : nat) (s' : Session) :
  ResponseExtraction.waitForResponseComplete page checkInterval fuel fresh
  = Resolved tt s' ->
  exists i,
    asked s' = S (S i)
    /\ ResponseExtraction.stopButton page i = false
    /\ ResponseExtraction.stopButton page (S i) = false
    /\ forall j, (j < i)%nat ->
                 ~ (ResponseExtraction.stopButton page j = false
                    /\ ResponseExtraction.stopButton page (S j) = false).
Proof.
  intros Hrun. rewrite waitForResponseComplete_unfold in Hrun.
  destruct (ResponseExtraction.while fuel _ _ _) as [v1 s1|e s1|] eqn:Hloop;
    try discriminate.
  injection Hrun as <-. cbn [asked].
  pose proof (fun Hv => while_exit page checkInterval fuel _ _ _ _ Hv Hloop)
    as Hexit.
  destruct (Hexit eq_refl) as [_ [_ [i [Ha [_ [Hi HSi]]]]]].
  exists i. repeat split; try assumption.
  intros j Hj.
  apply (fun Hv => while_stops_at_first_pair page checkInterval fuel
                     _ _ _ _ Hv Hloop j);
    [reflexivity | cbn [asked fresh]; lia | lia].
Qed.

(** Running instance of X23. *)
Lemma wait_stops_at_first_absent_pair_witness :
  exists i,
    (4 = S (S i))%nat
    /\ Nat.ltb i 2 = false /\ Nat.ltb (S i) 2 = false
    /\ forall j, (j < i)%nat ->
                 ~ (Nat.ltb j 2 = false /\ Nat.ltb (S j) 2 = false).
Proof.
  apply (wait_stops_at_first_absent_pair
           (pageWithIndicator (fun n => Nat.ltb n 2)) 1000 3
           {| asked := 4; trace := twoTickTrace |}).
  vm_compute. reflexivity.
Defined.
